(** * Usage tracking of the Fashion RAG front end

    A shallow embedding of [frontend/src/helpers/apiService.js]: the
    [ApiService] class that keeps an anonymous client's query quota in
    [localStorage] and reconciles it with the server's rate-limit status.

    Modelling decisions, all visible in the definitions below:
    - JavaScript numbers are integers ([Fin z]) or [NaN]: the counters and
      millisecond instants the engine handles are integers.
    - The text kept under the key ['fashionAgent_usage'] is seen through
      [JSON.parse]: it is empty, undecodable, or decodes to a value.
    - [Date.now()], [fetch], [Date.parse] and the string-to-number
      conversion belong to the platform; they are read from an
      environment [env].
    - State (storage, clock readings, requests issued, suspended
      un-awaited calls) is threaded through a state-and-exception monad in
      which a thrown exception keeps the state reached so far.
    - A call started without [await] stays behind as a suspended call.
      Each of its continuations runs in one piece, as a job of the event
      loop does, at a place between the continuations of [query] that a
      [schedule] names; the statements about [query] hold for every
      schedule. *)

From Stdlib Require Import ZArith List String Ascii Bool Lia.
From Stdlib Require Import DecimalString.
Import ListNotations.

Local Open Scope string_scope.
Local Open Scope Z_scope.

Set Warnings "-register-all".

(** ** JavaScript values *)

Inductive number : Type :=
| Fin (z : Z)
| NaN.

(** An array carries its elements and the non-index properties assigned to
    it; an object carries its own properties, most recent binding first. *)
Inductive value : Type :=
| VUndefined
| VNull
| VBool (b : bool)
| VNum (n : number)
| VStr (s : string)
| VArr (elems : list value) (extra : list (string * value))
| VObj (props : list (string * value)).

Inductive exn : Type :=
| TypeError
| SyntaxError
| Error (message : string).

Inductive result (A : Type) : Type :=
| Ok (a : A)
| Throw (e : exn).

Arguments Ok {A} a.
Arguments Throw {A} e.

Definition int (z : Z) : value := VNum (Fin z).

Definition rbind {A B} (r : result A) (k : A -> result B) : result B :=
  match r with
  | Ok a => k a
  | Throw e => Throw e
  end.

Declare Scope res_scope.
Delimit Scope res_scope with res.
Notation "x <~ r ;; k" := (rbind r (fun x => k))
  (at level 61, r at next level, right associativity) : res_scope.

(** Own-property lookup. *)
Fixpoint lookup (k : string) (props : list (string * value)) : option value :=
  match props with
  | [] => None
  | (k', v) :: rest => if String.eqb k k' then Some v else lookup k rest
  end.

Definition has_own (k : string) (props : list (string * value)) : bool :=
  match lookup k props with
  | Some _ => true
  | None => false
  end.

(** [v.k]. Reading a property of [null] or [undefined] throws. The engine
    reads only the names [count], [timestamp], [limit], [serverSync],
    [serverResetTime], [queries_used], [queries_remaining], [reset_time],
    [rate_limit], [remaining], [detail] and [message]; no built-in
    prototype, string or array index defines any of them, so on every
    other value the read yields the own property or [undefined]. *)
Definition get (v : value) (k : string) : result value :=
  match v with
  | VUndefined | VNull => Throw TypeError
  | VObj props => Ok (match lookup k props with Some x => x | None => VUndefined end)
  | VArr _ extra => Ok (match lookup k extra with Some x => x | None => VUndefined end)
  | _ => Ok VUndefined
  end.

(** [v.k = x] in strict code (the file is an ES module): assigning to a
    property of a primitive throws. *)
Fixpoint assign (k : string) (x : value) (props : list (string * value))
  : list (string * value) :=
  match props with
  | [] => [(k, x)]
  | (k', v) :: rest =>
      if String.eqb k k' then (k, x) :: rest else (k', v) :: assign k x rest
  end.

Definition set (v : value) (k : string) (x : value) : result value :=
  match v with
  | VObj props => Ok (VObj (assign k x props))
  | VArr elems extra => Ok (VArr elems (assign k x extra))
  | _ => Throw TypeError
  end.

(** Truthiness ([ToBoolean]). *)
Definition truthy (v : value) : bool :=
  match v with
  | VUndefined | VNull => false
  | VBool b => b
  | VNum (Fin z) => negb (z =? 0)
  | VNum NaN => false
  | VStr s => negb (String.eqb s "")
  | VArr _ _ | VObj _ => true
  end.

(** [a || b]. *)
Definition js_or (a b : value) : value := if truthy a then a else b.

(** Decimal form of an integer, as [Number::toString] prints integers
    below 10^21. *)
Definition string_of_Z (z : Z) : string := NilZero.string_of_int (Z.to_int z).

(** [ToString], with [ToPrimitive] for objects and arrays. Values decoded
    from JSON hold no functions: an own [toString] property shadows
    [Object.prototype.toString] with something that cannot be called, the
    inherited [valueOf] returns the object itself, and the conversion
    throws; otherwise an object prints as ["[object Object]"]. An array
    prints its elements joined by commas, [null] and [undefined] as the
    empty string. *)
Fixpoint ToString (v : value) : result string :=
  match v with
  | VUndefined => Ok "undefined"
  | VNull => Ok "null"
  | VBool true => Ok "true"
  | VBool false => Ok "false"
  | VNum (Fin z) => Ok (string_of_Z z)
  | VNum NaN => Ok "NaN"
  | VStr s => Ok s
  | VArr elems _ =>
      (fix join (l : list value) : result string :=
         match l with
         | [] => Ok ""
         | [x] =>
             match x with
             | VUndefined | VNull => Ok ""
             | _ => ToString x
             end
         | x :: rest =>
             (s <~ match x with
                   | VUndefined | VNull => Ok ""
                   | _ => ToString x
                   end ;;
              t <~ join rest ;;
              Ok (s ++ "," ++ t))%res
         end) elems
  | VObj props =>
      if has_own "toString" props then Throw TypeError
      else Ok "[object Object]"
  end.

Definition ToPrimitive (v : value) : result value :=
  match v with
  | VArr _ _ | VObj _ => (s <~ ToString v ;; Ok (VStr s))%res
  | _ => Ok v
  end.

Definition num_add (a b : number) : number :=
  match a, b with
  | Fin x, Fin y => Fin (x + y)
  | _, _ => NaN
  end.

Definition num_sub (a b : number) : number :=
  match a, b with
  | Fin x, Fin y => Fin (x - y)
  | _, _ => NaN
  end.

(** [a < b] on numbers: [None] is the undefined answer of a comparison
    with [NaN]. *)
Definition num_lt (a b : number) : option bool :=
  match a, b with
  | Fin x, Fin y => Some (x <? y)
  | _, _ => None
  end.

(** [TimeClip]: an instant outside ±8.64e15 ms is no date. *)
Definition TimeClip (n : number) : number :=
  match n with
  | Fin z => if Z.abs z <=? 8640000000000000 then Fin z else NaN
  | NaN => NaN
  end.

(** ** The platform *)

(** Outcome of one [fetch]: the promise rejects, or a response arrives with
    a status and a body that [response.json()] decodes ([Some]) or rejects
    ([None]). *)
Inductive outcome : Type :=
| NetworkError
| Response (status : Z) (body : option value).

Record env : Type := {
  (** [StringToNumber] of the language: the number a string denotes *)
  StringToNumber : string -> number;
  (** [Date.parse] *)
  Date_parse : string -> number;
  (** the k-th reading of [Date.now()] *)
  clock : nat -> Z;
  (** the outcome of the k-th request issued *)
  network : nat -> outcome;
  (** [getDomain().backendDomain] *)
  backendDomain : string
}.

(** ** Coercions that consult the platform *)

Section Coercions.

Variable E : env.

(** [ToNumber]. *)
Definition ToNumber (v : value) : result number :=
  match v with
  | VUndefined => Ok NaN
  | VNull => Ok (Fin 0)
  | VBool true => Ok (Fin 1)
  | VBool false => Ok (Fin 0)
  | VNum n => Ok n
  | VStr s => Ok (StringToNumber E s)
  | VArr _ _ | VObj _ => (s <~ ToString v ;; Ok (StringToNumber E s))%res
  end.

(** The global [isNaN(v)]: it converts its argument first. *)
Definition isNaN (v : value) : result bool :=
  (n <~ ToNumber v ;;
   Ok match n with NaN => true | Fin _ => false end)%res.

(** [a + b]: concatenation as soon as one primitive is a string. *)
Definition js_add (a b : value) : result value :=
  (pa <~ ToPrimitive a ;;
   pb <~ ToPrimitive b ;;
   match pa, pb with
   | VStr _, _ | _, VStr _ =>
       sa <~ ToString pa ;;
       sb <~ ToString pb ;;
       Ok (VStr (sa ++ sb))
   | _, _ =>
       na <~ ToNumber pa ;;
       nb <~ ToNumber pb ;;
       Ok (VNum (num_add na nb))
   end)%res.

(** [a - b]: always numeric. *)
Definition js_sub (a b : value) : result number :=
  (na <~ ToNumber a ;;
   nb <~ ToNumber b ;;
   Ok (num_sub na nb))%res.

(** The abstract relational comparison [a < b], operands converted left
    to right: two strings compare as strings, anything else as numbers. *)
Definition IsLessThan (a b : value) : result (option bool) :=
  (pa <~ ToPrimitive a ;;
   pb <~ ToPrimitive b ;;
   match pa, pb with
   | VStr sa, VStr sb => Ok (Some (String.ltb sa sb))
   | _, _ =>
       na <~ ToNumber pa ;;
       nb <~ ToNumber pb ;;
       Ok (num_lt na nb)
   end)%res.

(** [a >= b] is true exactly when [a < b] is false. *)
Definition js_ge (a b : value) : result bool :=
  (r <~ IsLessThan a b ;;
   Ok match r with Some false => true | _ => false end)%res.

(** [new Date(v).getTime()]. *)
Definition Date_getTime (v : value) : result number :=
  (p <~ ToPrimitive v ;;
   match p with
   | VStr s => Ok (TimeClip (Date_parse E s))
   | _ => n <~ ToNumber p ;; Ok (TimeClip n)
   end)%res.

End Coercions.

(** [JSON.stringify] followed by [JSON.parse], for the objects the engine
    stores: a property holding [undefined] is left out, [NaN] and an
    [undefined] array element are written as [null], and the non-index
    properties of an array are not written. *)
Fixpoint to_json (v : value) : value :=
  match v with
  | VUndefined => VNull
  | VNum NaN => VNull
  | VArr elems _ => VArr (map to_json elems) []
  | VObj props =>
      VObj ((fix fields (l : list (string * value)) : list (string * value) :=
               match l with
               | [] => []
               | (k, VUndefined) :: rest => fields rest
               | (k, x) :: rest => (k, to_json x) :: fields rest
               end) props)
  | _ => v
  end.

(** ** localStorage and the world *)

(** What [localStorage.getItem('fashionAgent_usage')] returns when the key
    is present, seen through [JSON.parse]: the empty string, a non-empty
    string that is not JSON, or a text that decodes to [v]. *)
Inductive item : Type :=
| EmptyText
| CorruptText
| JsonText (v : value).

(** A stored string is falsy only when empty; [null] (no item) is falsy. *)
Definition item_truthy (stored : option item) : bool :=
  match stored with
  | None | Some EmptyText => false
  | Some _ => true
  end.

(** [JSON.parse(stored)] of a string. *)
Definition JSON_parse (stored : option item) : result value :=
  match stored with
  | Some (JsonText v) => Ok v
  | Some _ => Throw SyntaxError
  | None => Ok VNull
  end.

Definition JSON_stringify (v : value) : item := JsonText (to_json v).

(** What is handed to [fetch] as the request body: nothing, the text
    [JSON.stringify] made of an object, or a value passed as it is. *)
Inductive payload : Type :=
| NoBody
| JsonBody (text : item)
| RawBody (v : value).

Record request : Type := {
  url : string;
  method : string;
  body : payload
}.

(** ** The usage snapshot *)

(** The object the engine builds, returns and stores. A key the object
    does not have reads as [undefined], and [JSON.stringify] leaves out a
    key holding [undefined], so [VUndefined] stands for an absent key. *)
Record usage : Type := {
  count : value;
  timestamp : value;
  limit : value;
  serverSync : value;
  serverResetTime : value
}.

Definition usage_object (u : usage) : value :=
  VObj [("count", count u); ("timestamp", timestamp u); ("limit", limit u);
        ("serverSync", serverSync u); ("serverResetTime", serverResetTime u)].

Definition set_count (c : value) (u : usage) : usage :=
  {| count := c; timestamp := timestamp u; limit := limit u;
     serverSync := serverSync u; serverResetTime := serverResetTime u |}.

Definition set_serverSync (b : value) (u : usage) : usage :=
  {| count := count u; timestamp := timestamp u; limit := limit u;
     serverSync := b; serverResetTime := serverResetTime u |}.

Definition set_serverResetTime (t : value) (u : usage) : usage :=
  {| count := count u; timestamp := timestamp u; limit := limit u;
     serverSync := serverSync u; serverResetTime := t |}.

(** A call of [updateUsageFromServer] that was started without [await].
    It waits twice: for the answer to the status probe of its
    [getUsage], and, once that [getUsage] has run, for the continuation
    that holds the statements after [await this.getUsage()]. *)
Inductive suspended : Type :=
| UpdateUsage (rateLimitInfo : value) (serverStatus : value)
    (* waiting for its probe, which will deliver serverStatus *)
| UpdateWrite (rateLimitInfo : value) (u : usage).
    (* getUsage has returned u; the statements after the await are due *)

Record world : Type := {
  storage : option item;          (* the item under 'fashionAgent_usage' *)
  ticks : nat;                    (* readings of Date.now() taken so far *)
  sent : list request;            (* requests issued so far, oldest first *)
  pending : list suspended        (* un-awaited calls not yet resumed *)
}.

Definition set_storage (s : option item) (w : world) : world :=
  {| storage := s; ticks := ticks w; sent := sent w; pending := pending w |}.

Definition set_ticks (n : nat) (w : world) : world :=
  {| storage := storage w; ticks := n; sent := sent w; pending := pending w |}.

Definition set_sent (l : list request) (w : world) : world :=
  {| storage := storage w; ticks := ticks w; sent := l; pending := pending w |}.

Definition set_pending (l : list suspended) (w : world) : world :=
  {| storage := storage w; ticks := ticks w; sent := sent w; pending := l |}.

(** ** The monad of the engine *)

Definition M (A : Type) : Type := world -> result A * world.

Definition ret {A} (a : A) : M A := fun w => (Ok a, w).

Definition throw {A} (e : exn) : M A := fun w => (Throw e, w).

Definition bind {A B} (m : M A) (k : A -> M B) : M B :=
  fun w =>
    match m w with
    | (Ok a, w') => k a w'
    | (Throw e, w') => (Throw e, w')
    end.

(** [try { m } catch (error) { h error }]: the handler starts from the
    state in which the exception was thrown. *)
Definition try_catch {A} (m : M A) (h : exn -> M A) : M A :=
  fun w =>
    match m w with
    | (Ok a, w') => (Ok a, w')
    | (Throw e, w') => h e w'
    end.

(** A pure computation that may throw. *)
Definition lift {A} (r : result A) : M A := fun w => (r, w).

Declare Scope engine_scope.
Delimit Scope engine_scope with engine.
Notation "x <- m ;; k" := (bind m (fun x => k))
  (at level 61, m at next level, right associativity) : engine_scope.
Notation "m ;;; k" := (bind m (fun _ => k))
  (at level 61, right associativity) : engine_scope.

Local Open Scope engine_scope.

Record options : Type := {
  opt_method : string;
  opt_body : value
}.

(** After [apiRequest] has returned, the continuations of [query] that
    touch the storage run in this order: [getUsage] inside
    [incrementUsage], the rest of [incrementUsage], [getUsage] inside
    [getTimeUntilReset], the rest of [getTimeUntilReset]. Each runs to
    its end once started; a [completion] names a place between them. *)
Inductive completion : Type :=
| BeforeIncrement   (* before getUsage of incrementUsage continues *)
| DuringIncrement   (* between that getUsage and usage.count += 1 *)
| BeforeFormat      (* after incrementUsage, before getUsage of getTimeUntilReset continues *)
| DuringFormat      (* between that getUsage and the computation of the time *)
| AfterReturn.      (* after the last of them *)

Definition rank (c : completion) : nat :=
  match c with
  | BeforeIncrement => 0
  | DuringIncrement => 1
  | BeforeFormat => 2
  | DuringFormat => 3
  | AfterReturn => 4
  end.

(** When the two continuations of an un-awaited [updateUsageFromServer]
    become ready to run. The event loop decides it: the first follows the
    answer to the update's own status probe, the second follows the
    first. *)
Record schedule : Type := {
  reconciles : completion;   (* its getUsage continues *)
  writes : completion        (* its statements after await this.getUsage() run *)
}.

(** The update runs in one piece at [c]. *)
Definition atomically (c : completion) : schedule :=
  {| reconciles := c; writes := c |}.

(** At the [k]-th place, what was due at [c] is ready. *)
Definition reached (c : completion) (k : nat) : bool := Nat.leb (rank c) k.

(** [response.ok]. *)
Definition ok (status : Z) : bool := (200 <=? status) && (status <=? 299).

(** [a <= 0] on numbers; a comparison with [NaN] is false. *)
Definition num_le0 (a : number) : bool :=
  match a with
  | Fin x => x <=? 0
  | NaN => false
  end.

(** [v !== s] for a string literal [s]. *)
Definition strict_ne (v : value) (s : string) : bool :=
  match v with
  | VStr s' => negb (String.eqb s' s)
  | _ => true
  end.

(** The text both [formatTimeUntilReset] variants build from the time
    remaining. *)
Definition formatTime (timeRemaining : number) : string :=
  match timeRemaining with
  | NaN => "Available now"
  | Fin t =>
      if t =? 0 then "Available now"
      else
        let hours := t / (60 * 60 * 1000) in
        let minutes := Z.rem t (60 * 60 * 1000) / (60 * 1000) in
        if 0 <? hours
        then string_of_Z hours ++ "h " ++ string_of_Z minutes ++ "m"
        else string_of_Z minutes ++ "m"
  end.

(** ** The engine: class ApiService *)

Section Engine.

Variable E : env.

Definition Date_now : M Z :=
  fun w => (Ok (clock E (ticks w)), set_ticks (S (ticks w)) w).

Definition getItem : M (option item) := fun w => (Ok (storage w), w).

Definition setItem (i : item) : M unit :=
  fun w => (Ok tt, set_storage (Some i) w).

(** [fetch]: the request is issued and logged; its outcome is the one the
    network holds for the request of that rank. *)
Definition fetch (u : string) (m : string) (b : payload) : M outcome :=
  fun w =>
    (Ok (network E (List.length (sent w))),
     set_sent (List.app (sent w) [ {| url := u; method := m; body := b |} ]) w).

(** [initializeUsageTracking] and [resetUsage] are mutually dependent only
    through calls; [resetUsage] comes first. *)
Definition resetUsage : M unit :=
  now <- Date_now ;;
  let usage := {| count := int 0; timestamp := int now; limit := int 20;
                  serverSync := VUndefined; serverResetTime := VUndefined |} in
  setItem (JSON_stringify (usage_object usage)).

(** The constructor's only statement. Nothing here catches: a text that
    [JSON.parse] rejects, or a decoded [null], throws out of it. *)
Definition initializeUsageTracking : M unit :=
  now <- Date_now ;;
  stored <- getItem ;;
  if item_truthy stored then
    usage <- lift (JSON_parse stored) ;;
    ts <- lift (get usage "timestamp") ;;
    elapsed <- lift (js_sub E (int now) ts) ;;
    match num_lt (Fin 18000000) elapsed with
    | Some true => resetUsage
    | _ => ret tt
    end
  else resetUsage.

Definition constructor : M unit := initializeUsageTracking.

(** The object literal of [getUsageSync], fields evaluated in order. *)
Definition validated (parsed : value) : M usage :=
  c <- lift (get parsed "count") ;;
  c_nan <- lift (isNaN E c) ;;
  t <- lift (get parsed "timestamp") ;;
  t_nan <- lift (isNaN E t) ;;
  t' <- (if t_nan then now <- Date_now ;; ret (int now) else ret t) ;;
  l <- lift (get parsed "limit") ;;
  l_nan <- lift (isNaN E l) ;;
  sync <- lift (get parsed "serverSync") ;;
  reset <- lift (get parsed "serverResetTime") ;;
  ret {| count := if c_nan then int 0 else c;
         timestamp := t';
         limit := if l_nan then int 20 else l;
         serverSync := js_or sync (VBool false);
         serverResetTime := js_or reset VNull |}.

Definition getUsageSync : M usage :=
  stored <- getItem ;;
  found <- (if item_truthy stored then
              try_catch
                (parsed <- lift (JSON_parse stored) ;;
                 u <- validated parsed ;;
                 ret (Some u))
                (fun error => ret None)        (* console.log *)
            else ret None) ;;
  match found with
  | Some u => ret u
  | None =>
      now <- Date_now ;;
      ret {| count := int 0; timestamp := int now; limit := int 20;
             serverSync := VBool false; serverResetTime := VUndefined |}
  end.

(** [getRateLimitStatus]: one GET; anything but a decoded 2xx body is
    [null]. *)
Definition getRateLimitStatus : M value :=
  found <- try_catch
             (response <- fetch (backendDomain E ++ "/api/v1/rate-limit-status")
                                "GET" NoBody ;;
              match response with
              | NetworkError => throw TypeError
              | Response status body =>
                  if ok status then
                    match body with
                    | Some v => ret (Some v)
                    | None => throw SyntaxError
                    end
                  else ret None
              end)
             (fun error => ret None) ;;
  match found with
  | Some v => ret v
  | None => ret VNull
  end.

(** The branch of [getUsage] taken without usable server data (it occurs
    twice in the source, in the [else] and in the [catch]). *)
Definition offlineUsage : M usage :=
  u <- getUsageSync ;;
  let u := set_serverSync (VBool false) u in
  let u := set_serverResetTime VNull u in
  setItem (JSON_stringify (usage_object u)) ;;;
  ret u.

(** [getUsage] from the point where [await this.getRateLimitStatus()] has
    delivered [serverStatus]. *)
Definition getUsage_resume (serverStatus : value) : M usage :=
  try_catch
    (if truthy serverStatus then
       used <- lift (get serverStatus "queries_used") ;;
       remaining <- lift (get serverStatus "queries_remaining") ;;
       maxQueries <- lift (js_add E (js_or used (int 0)) (js_or remaining (int 20))) ;;
       now <- Date_now ;;
       reset_time <- lift (get serverStatus "reset_time") ;;
       let serverUsage :=
         {| count := js_or used (int 0); timestamp := int now;
            limit := maxQueries; serverSync := VBool true;
            serverResetTime := reset_time |} in
       setItem (JSON_stringify (usage_object serverUsage)) ;;;
       ret serverUsage
     else offlineUsage)
    (fun error => offlineUsage).

Definition getUsage : M usage :=
  try_catch
    (serverStatus <- getRateLimitStatus ;;
     if truthy serverStatus then
       used <- lift (get serverStatus "queries_used") ;;
       remaining <- lift (get serverStatus "queries_remaining") ;;
       maxQueries <- lift (js_add E (js_or used (int 0)) (js_or remaining (int 20))) ;;
       now <- Date_now ;;
       reset_time <- lift (get serverStatus "reset_time") ;;
       let serverUsage :=
         {| count := js_or used (int 0); timestamp := int now;
            limit := maxQueries; serverSync := VBool true;
            serverResetTime := reset_time |} in
       setItem (JSON_stringify (usage_object serverUsage)) ;;;
       ret serverUsage
     else offlineUsage)
    (fun error => offlineUsage).

Definition hasReachedLimitSync : M bool :=
  u <- getUsageSync ;;
  lift (js_ge E (count u) (limit u)).

Definition hasReachedLimit : M bool :=
  u <- getUsage ;;
  lift (js_ge E (count u) (limit u)).

Definition incrementUsage : M usage :=
  u <- getUsage ;;
  c <- lift (js_add E (count u) (int 1)) ;;
  let u := set_count c u in
  setItem (JSON_stringify (usage_object u)) ;;;
  ret u.

(** [incrementUsage] from the point where [await this.getUsage()] has
    delivered [u]. *)
Definition incrementUsage_resume (u : usage) : M usage :=
  c <- lift (js_add E (count u) (int 1)) ;;
  let u := set_count c u in
  setItem (JSON_stringify (usage_object u)) ;;;
  ret u.

(** The body [getTimeUntilResetSync] and [getTimeUntilReset] share after
    they have obtained [usage]. *)
Definition timeUntilResetOf (u : usage) : M number :=
  let reset := serverResetTime u in
  fromServer <-
    (if truthy reset && truthy (serverSync u) && strict_ne reset "N/A"
        && strict_ne reset "Window expired - resets on next query"
     then
       try_catch
         (resetTime <- lift (Date_getTime E reset) ;;
          match resetTime with
          | Fin t =>
              now <- Date_now ;;
              ret (Some (Fin (Z.max 0 (t - now))))
          | NaN => ret None
          end)
         (fun error => ret None)                (* console.log *)
     else ret None) ;;
  match fromServer with
  | Some timeRemaining => ret timeRemaining
  | None =>
      let fiveHours := 5 * 60 * 60 * 1000 in
      now <- Date_now ;;
      timeElapsed <- lift (js_sub E (int now) (timestamp u)) ;;
      let timeRemaining := num_sub (Fin fiveHours) timeElapsed in
      if num_le0 timeRemaining then
        resetUsage ;;;
        ret (Fin 0)
      else ret timeRemaining
  end.

Definition getTimeUntilResetSync : M number :=
  u <- getUsageSync ;;
  timeUntilResetOf u.

Definition getTimeUntilReset : M number :=
  u <- getUsage ;;
  timeUntilResetOf u.

Definition formatTimeUntilResetSync : M string :=
  timeRemaining <- getTimeUntilResetSync ;;
  ret (formatTime timeRemaining).

Definition formatTimeUntilReset : M string :=
  timeRemaining <- getTimeUntilReset ;;
  ret (formatTime timeRemaining).

(** The statements of [updateUsageFromServer] after [await
    this.getUsage()] has delivered [u]. *)
Definition updateUsageFromServer_write (rateLimitInfo : value) (u : usage)
  : M unit :=
  remaining <- lift (get rateLimitInfo "remaining") ;;
  queriesUsed <- lift (js_sub E (limit u) remaining) ;;
  reset_time <- lift (get rateLimitInfo "reset_time") ;;
  let updatedUsage := set_serverResetTime reset_time (set_count (VNum queriesUsed) u) in
  setItem (JSON_stringify (usage_object updatedUsage)).

(** [updateUsageFromServer] from the point where the status probe of its
    [getUsage] has been answered, run to its end in one piece. *)
Definition updateUsageFromServer_resume (rateLimitInfo serverStatus : value)
  : M unit :=
  u <- getUsage_resume serverStatus ;;
  updateUsageFromServer_write rateLimitInfo u.

(** [updateUsageFromServer] run to its end without interleaving. *)
Definition updateUsageFromServer (rateLimitInfo : value) : M unit :=
  serverStatus <- getRateLimitStatus ;;
  updateUsageFromServer_resume rateLimitInfo serverStatus.

(** [this.updateUsageFromServer(data.rate_limit)] without [await]: the
    call runs up to its first suspension, which issues the status probe,
    and stays suspended. *)
Definition updateUsageFromServer_start (rateLimitInfo : value) : M unit :=
  serverStatus <- getRateLimitStatus ;;
  fun w =>
    (Ok tt, set_pending (List.app (pending w)
                           [UpdateUsage rateLimitInfo serverStatus]) w).

(** The suspended calls whose probe has been answered run their
    [getUsage] to its end and wait for their last continuation. An
    exception in one of them rejects a promise nobody holds: it reaches
    no caller, and the call is over. *)
Fixpoint reconcile_all (l : list suspended) : M (list suspended) :=
  match l with
  | [] => ret []
  | UpdateUsage rateLimitInfo serverStatus :: rest =>
      next <- try_catch
                (u <- getUsage_resume serverStatus ;;
                 ret [UpdateWrite rateLimitInfo u])
                (fun _ => ret []) ;;
      rest <- reconcile_all rest ;;
      ret (List.app next rest)
  | waiting :: rest =>
      rest <- reconcile_all rest ;;
      ret (waiting :: rest)
  end.

(** The suspended calls whose [getUsage] has returned run their last
    statements. *)
Fixpoint write_all (l : list suspended) : M (list suspended) :=
  match l with
  | [] => ret []
  | UpdateWrite rateLimitInfo u :: rest =>
      try_catch (updateUsageFromServer_write rateLimitInfo u)
                (fun _ => ret tt) ;;;
      write_all rest
  | waiting :: rest =>
      rest <- write_all rest ;;
      ret (waiting :: rest)
  end.

Definition resume_with (run : list suspended -> M (list suspended)) : M unit :=
  fun w =>
    match run (pending w) (set_pending [] w) with
    | (Ok l, w') => (Ok tt, set_pending l w')
    | (Throw _, w') => (Ok tt, w')
    end.

Definition resume_reconcile : M unit := resume_with reconcile_all.

Definition resume_write : M unit := resume_with write_all.

(** Every suspended call runs to its end. *)
Definition resume_pending : M unit :=
  resume_reconcile ;;;
  resume_write.

(** The [k]-th place between the continuations of [query]: the
    continuations of the un-awaited update that are ready by now run. *)
Definition turn (resumes : schedule) (k : nat) : M unit :=
  (if reached (reconciles resumes) k then resume_reconcile else ret tt) ;;;
  (if reached (writes resumes) k then resume_write else ret tt).

(** [new Error(v)]: the message is [ToString v]. *)
Definition throw_Error {A} (v : value) : M A :=
  message <- lift (ToString v) ;;
  throw (Error message).

Definition apiRequest (endpoint : string) (opts : options) : M value :=
  let url := backendDomain E ++ endpoint in
  let body :=
    match opt_body opts with
    | VObj _ | VArr _ _ => JsonBody (JSON_stringify (opt_body opts))
    | VUndefined => NoBody
    | b => RawBody b
    end in
  try_catch
    (response <- fetch url (opt_method opts) body ;;
     match response with
     | NetworkError => throw TypeError
     | Response status None => throw SyntaxError
     | Response status (Some data) =>
         if status =? 429 then
           detail <- lift (get data "detail") ;;
           message <- (match detail with
                       | VUndefined | VNull => ret VUndefined
                       | _ => lift (get detail "message")
                       end) ;;
           throw_Error
             (js_or message (VStr "Rate limit exceeded. Please try again later."))
         else if negb (ok status) then
           detail <- lift (get data "detail") ;;
           throw_Error
             (js_or detail (VStr ("HTTP error! status: " ++ string_of_Z status)))
         else
           rate_limit <- lift (get data "rate_limit") ;;
           (if truthy rate_limit then updateUsageFromServer_start rate_limit
            else ret tt) ;;;
           ret data
     end)
    (fun error => throw error).

(** [query(message)]. [resumes] tells when the continuations of the
    un-awaited update started by [apiRequest] run. Every [await] of
    [query] and of the methods it calls gives way to them, so they can
    fall between any two continuations of [query]; those that touch the
    storage are written out here as [incrementUsage] and
    [formatTimeUntilReset] have them: [getUsage], then the statements
    after [await this.getUsage()]. A continuation of the update touches
    the storage and the clock only, which is why issuing the next
    request of [query] before or after it makes no difference. What has
    not run by the last place runs after [query] has returned. *)
Definition query (message : value) (resumes : schedule) : M value :=
  blocked <- hasReachedLimit ;;
  if (blocked : bool) then
    resetTime <- formatTimeUntilReset ;;
    throw (Error ("Rate limit reached. You can make 20 queries every 5 hours. Next reset: "
                  ++ resetTime))
  else
    try_catch
      (response <- apiRequest "/api/v1/query"
                     {| opt_method := "POST";
                        opt_body := VObj [("query", message)] |} ;;
       turn resumes 0 ;;;
       u <- getUsage ;;                          (* incrementUsage *)
       turn resumes 1 ;;;
       u <- incrementUsage_resume u ;;
       turn resumes 2 ;;;
       remaining <- lift (js_sub E (limit u) (count u)) ;;
       u' <- getUsage ;;                         (* formatTimeUntilReset, getTimeUntilReset *)
       turn resumes 3 ;;;
       timeRemaining <- timeUntilResetOf u' ;;
       lift (set response "usage"
               (VObj [("count", count u); ("limit", limit u);
                      ("remaining", VNum remaining);
                      ("resetTime", VStr (formatTime timeRemaining))])))
      (fun error => throw error).

(** [query(message)] as its text reads, for the case that no continuation
    of another call runs while it waits. *)
Definition query_alone (message : value) : M value :=
  blocked <- hasReachedLimit ;;
  if (blocked : bool) then
    resetTime <- formatTimeUntilReset ;;
    throw (Error ("Rate limit reached. You can make 20 queries every 5 hours. Next reset: "
                  ++ resetTime))
  else
    try_catch
      (response <- apiRequest "/api/v1/query"
                     {| opt_method := "POST";
                        opt_body := VObj [("query", message)] |} ;;
       u <- incrementUsage ;;
       remaining <- lift (js_sub E (limit u) (count u)) ;;
       resetTime <- formatTimeUntilReset ;;
       lift (set response "usage"
               (VObj [("count", count u); ("limit", limit u);
                      ("remaining", VNum remaining);
                      ("resetTime", VStr resetTime)])))
      (fun error => throw error).

End Engine.

(** ** Vocabulary of the statements *)

(** What [getRateLimitStatus] makes of the outcome of its probe. *)
Definition status_of (o : outcome) : value :=
  match o with
  | Response status (Some v) => if ok status then v else VNull
  | _ => VNull
  end.

(** The status probe as it appears in the log of requests. *)
Definition statusProbe (E : env) : request :=
  {| url := backendDomain E ++ "/api/v1/rate-limit-status";
     method := "GET"; body := NoBody |}.

(** The status the next probe issued from [w] will deliver. *)
Definition next_status (E : env) (w : world) : value :=
  status_of (network E (List.length (sent w))).

Definition probed (E : env) (w : world) : world :=
  set_sent (List.app (sent w) [statusProbe E]) w.

(** The stored item that holds snapshot [u]. *)
Definition saved (u : usage) : option item :=
  Some (JSON_stringify (usage_object u)).

(** A snapshot with numeric counters, as local tracking leaves it. *)
Definition local (c t l : Z) : usage :=
  {| count := int c; timestamp := int t; limit := int l;
     serverSync := VBool false; serverResetTime := VNull |}.

(** The snapshot [resetUsage] writes at instant [now]. *)
Definition fresh (now : Z) : usage :=
  {| count := int 0; timestamp := int now; limit := int 20;
     serverSync := VUndefined; serverResetTime := VUndefined |}.

(** The limit [getUsage] reconstructs from two numeric server counters. *)
Definition maxQueries (used remaining : Z) : Z :=
  used + (if remaining =? 0 then 20 else remaining).

(** The instant the server-time branch of [timeUntilResetOf] works with,
    if it is taken. *)
Definition serverResetInstant (E : env) (u : usage) : option Z :=
  let reset := serverResetTime u in
  if truthy reset && truthy (serverSync u) && strict_ne reset "N/A"
     && strict_ne reset "Window expired - resets on next query"
  then
    match Date_getTime E reset with
    | Ok (Fin t) => Some t
    | _ => None
    end
  else None.

(** The stored record is a snapshot with numeric count, timestamp and
    limit. *)
Definition holds_snapshot (w : world) (c t l : Z) : Prop :=
  exists u, storage w = saved u /\
            count u = int c /\ timestamp u = int t /\ limit u = int l.

(** Loading reads the clock at most; it writes nothing and issues no
    request. *)
Definition only_ticks (w w' : world) : Prop :=
  storage w' = storage w /\ sent w' = sent w /\ pending w' = pending w.

(** ** Scenarios *)

(** The scenarios convert no string to a number and parse no date; their
    platform answers [NaN] to both. The clock starts at [now] and advances
    by one millisecond per reading. *)
Definition platform (now : Z) (net : nat -> outcome) : env :=
  {| StringToNumber := fun _ => NaN;
     Date_parse := fun _ => NaN;
     clock := fun k => now + Z.of_nat k;
     network := net;
     backendDomain := "http://localhost:8000" |}.

(** No request is ever answered. *)
Definition unreachable (now : Z) : env := platform now (fun _ => NetworkError).

(** Every request is answered 200 with body [v]. *)
Definition answering (now : Z) (v : value) : env :=
  platform now (fun _ => Response 200 (Some v)).

(** Status probes fail; the second request issued, the POST of [query], is
    answered 200 with body [data]. *)
Definition answering_query (now : Z) (data : value) : env :=
  platform now (fun k => if Nat.eqb k 1 then Response 200 (Some data)
                         else NetworkError).

(** A world in which nothing has happened yet. *)
Definition initially (stored : option item) : world :=
  {| storage := stored; ticks := 0; sent := []; pending := [] |}.

(** The server's answer once the quota is used up. *)
Definition exhausted_status : value :=
  VObj [("queries_used", int 20); ("queries_remaining", int 0);
        ("reset_time", VStr "2025-01-01T05:00:00")].

(** The decoded record [{"count":null,"timestamp":null,"limit":null}]. *)
Definition null_record : value :=
  VObj [("count", VNull); ("timestamp", VNull); ("limit", VNull)].

(** The snapshot's limit is a positive number. *)
Definition positive_limit (u : usage) : Prop :=
  exists l, limit u = int l /\ 0 < l.

(** Nothing usable is stored: no item, the empty text, or a text that is
    not JSON. *)
Definition nothing_stored (w : world) : Prop :=
  storage w = None \/ storage w = Some EmptyText \/ storage w = Some CorruptText.

(** What is stored loads with a positive limit. *)
Definition loads_positive (E : env) (w : world) : Prop :=
  exists u, fst (getUsageSync E w) = Ok u /\ positive_limit u.

(** The stored text does not decode to a record, or decodes to one whose
    [limit] is missing or a positive number. *)
Definition stored_limit_fine (w : world) : Prop :=
  match storage w with
  | Some (JsonText v) =>
      match get v "limit" with
      | Ok x => x = VUndefined \/ exists l, x = int l /\ 0 < l
      | Throw _ => True
      end
  | _ => True
  end.

(** The status reports two numeric counters that are not negative. *)
Definition good_status (s : value) : Prop :=
  truthy s = true /\
  exists a r, get s "queries_used" = Ok (int a) /\ 0 <= a /\
              get s "queries_remaining" = Ok (int r) /\ 0 <= r.

(** The decoded record [{"count":0,"timestamp":0,"limit":0}]. *)
Definition zero_limit_record : value :=
  VObj [("count", int 0); ("timestamp", int 0); ("limit", int 0)].

(** The computation works on the storage and the clock only: the log of
    requests and the suspended calls pass through it untouched and have
    no effect on it. *)
Definition local_only {A} (m : M A) : Prop :=
  forall (l : list request) (p : list suspended) (w : world),
    m (set_pending p (set_sent l w))
    = (fst (m w), set_pending p (set_sent l (snd (m w)))).

(** How a world has moved on: [dt] more clock readings, the requests
    [reqs] issued, the suspended calls untouched. *)
Definition step (w w' : world) (dt : nat) (reqs : list request) : Prop :=
  ticks w' = (dt + ticks w)%nat /\
  sent w' = List.app (sent w) reqs /\
  pending w' = pending w.

(** The POST that [query] issues for [message]. *)
Definition queryPost (E : env) (message : value) : request :=
  {| url := backendDomain E ++ "/api/v1/query"; method := "POST";
     body := JsonBody (JSON_stringify (VObj [("query", message)])) |}.

(** The count reported in [response.usage]. *)
Definition reported_count (response : value) : result value :=
  (summary <~ get response "usage" ;; get summary "count")%res.

(** The world once [query] has returned and every un-awaited call has
    finished. *)
Definition settled (E : env) (message : value) (resumes : schedule)
  (w : world) : world :=
  snd (resume_pending E (snd (query E message resumes w))).

(** The place at which the update writes: the first by which both of its
    continuations are due (4 stands for after [query] has returned). *)
Definition written_at (resumes : schedule) : nat :=
  Nat.max (rank (reconciles resumes)) (rank (writes resumes)).

(** How far an un-awaited update has come: its probe is unanswered, its
    [getUsage] has returned, or it has finished. *)
Inductive progress : Type :=
| Probing
| Reconciled
| Written.

(** The suspended calls of a world in which one update, started with
    [rateLimitInfo] while numeric snapshots with timestamp [t] and limit
    [l] are stored and the probes fail, has come as far as [p]. *)
Definition awaits (p : progress) (rateLimitInfo serverStatus : value)
  (t l : Z) (w : world) : Prop :=
  match p with
  | Probing => pending w = [UpdateUsage rateLimitInfo serverStatus]
  | Reconciled =>
      exists c0, pending w = [UpdateWrite rateLimitInfo (local c0 t l)]
  | Written => pending w = []
  end.

(** The progress of that update and the stored count after the [k]-th
    place, when the update's write stores [replaced]. *)
Definition after_turn (resumes : schedule) (k : nat) (replaced : Z)
  (st : progress * Z) : progress * Z :=
  let p1 := match fst st with
            | Probing => if reached (reconciles resumes) k then Reconciled
                         else Probing
            | p => p
            end in
  match p1 with
  | Reconciled => if reached (writes resumes) k then (Written, replaced)
                  else (Reconciled, snd st)
  | p => (p, snd st)
  end.

(** The stored count once the update has finished. *)
Definition after_settling (replaced : Z) (st : progress * Z) : Z :=
  match fst st with
  | Written => snd st
  | _ => replaced
  end.

(** A world in which numeric snapshots with timestamp [t] and limit [l]
    are stored, the stored count is [snd st], and the update has come as
    far as [fst st]. *)
Definition running (rateLimitInfo serverStatus : value) (t l : Z)
  (st : progress * Z) (w : world) : Prop :=
  holds_snapshot w (snd st) t l /\
  awaits (fst st) rateLimitInfo serverStatus t l w.

(** The count a query reports that was let through with [c] stored while
    the probes fail, the update from its answer having come as far as
    [p0] when [apiRequest] returns and storing [replaced]:
    [incrementUsage] adds 1 to what its [getUsage] finds after the first
    place. *)
Definition reported_after (resumes : schedule) (p0 : progress)
  (c replaced : Z) : Z :=
  snd (after_turn resumes 0 replaced (p0, c)) + 1.

(** The count stored once that query and the update have finished:
    [incrementUsage] stores the count it reports, [getUsage] stores what
    it finds, and the update's write falls where [resumes] puts it. *)
Definition stored_after (resumes : schedule) (p0 : progress)
  (c replaced : Z) : Z :=
  let st1 := after_turn resumes 0 replaced (p0, c) in
  let st2 := after_turn resumes 1 replaced st1 in
  let st3 := after_turn resumes 2 replaced (fst st2, snd st1 + 1) in
  let st4 := after_turn resumes 3 replaced st3 in
  after_settling replaced st4.

(** A 200 answer to [query] carrying [rate_limit] with 15 remaining. *)
Definition answer_with_rate_limit : value :=
  VObj [("response", VStr "Pair it with grey trousers.");
        ("rate_limit", VObj [("remaining", int 15);
                             ("reset_time", VStr "N/A")])].

(** [data.rate_limit] of an object body with properties [props]. *)
Definition rate_limit_of (props : list (string * value)) : value :=
  match lookup "rate_limit" props with
  | Some x => x
  | None => VUndefined
  end.

(** ** Vocabulary of the further properties *)

(** The value converts to a primitive without throwing. *)
Definition coercible (v : value) : Prop := exists p, ToPrimitive v = Ok p.

(** The outcome of a request that [apiRequest] turns into an exception:
    no answer, an answer whose body does not decode, or a status outside
    2xx. *)
Definition failed (o : outcome) : bool :=
  match o with
  | NetworkError => true
  | Response status None => true
  | Response status (Some _) => negb (ok status)
  end.

(** The request [apiRequest] issues for [endpoint] and [opts]. *)
Definition requestOf (E : env) (endpoint : string) (opts : options) : request :=
  {| url := backendDomain E ++ endpoint;
     method := opt_method opts;
     body := match opt_body opts with
             | VObj _ | VArr _ _ => JsonBody (JSON_stringify (opt_body opts))
             | VUndefined => NoBody
             | b => RawBody b
             end |}.

(** [n] calls of [incrementUsage] in a row. *)
Fixpoint increments (E : env) (n : nat) : M unit :=
  match n with
  | O => ret tt
  | S n' => incrementUsage E ;;; increments E n'
  end.

(** A stored record whose three numeric fields are each absent or a
    number. *)
Definition record_of (c t l : option Z) : value :=
  VObj (List.app (match c with Some z => [("count", int z)] | None => [] end)
         (List.app (match t with Some z => [("timestamp", int z)] | None => [] end)
                   (match l with Some z => [("limit", int z)] | None => [] end))).

(** The stored text holds no record: there is no item, it is empty or not
    JSON, or it is the JSON text of [null], a boolean, a number, a string
    or an array. *)
Definition no_record (w : world) : Prop :=
  match storage w with
  | Some (JsonText (VObj _)) => False
  | Some (JsonText (VArr _ (_ :: _))) => False
  | _ => True
  end.

(** A snapshot as the engine writes it: numeric count, timestamp and
    limit, a boolean [serverSync], and a [serverResetTime] that is [null]
    or a non-empty string. *)
Definition well_formed (u : usage) : Prop :=
  (exists c, count u = int c) /\
  (exists t, timestamp u = int t) /\
  (exists l, limit u = int l) /\
  (exists b, serverSync u = VBool b) /\
  (serverResetTime u = VNull \/
   exists a s, serverResetTime u = VStr (String a s)).

Definition default (d : Z) (o : option Z) : Z :=
  match o with
  | Some z => z
  | None => d
  end.

(** A platform whose [Date.parse] reads every string as the instant
    [instant]; nothing is ever answered. *)
Definition dated (now instant : Z) : env :=
  {| StringToNumber := fun _ => NaN;
     Date_parse := fun _ => Fin instant;
     clock := fun k => now + Z.of_nat k;
     network := fun _ => NetworkError;
     backendDomain := "http://localhost:8000" |}.

(** A reset time the server-time branch does not use: falsy, or one of
    the two sentinel strings. *)
Definition no_reset_time (v : value) : Prop :=
  truthy v = false \/ v = VStr "N/A" \/
  v = VStr "Window expired - resets on next query".

(** Every status probe is answered 200 with [status]; the second request
    issued, the POST of [query], is answered 200 with [data]. *)
Definition serving (now : Z) (status data : value) : env :=
  platform now (fun k => if Nat.eqb k 1 then Response 200 (Some data)
                         else Response 200 (Some status)).

(** A status with three queries used and seventeen remaining. *)
Definition status_3_17 : value :=
  VObj [("queries_used", int 3); ("queries_remaining", int 17);
        ("reset_time", VStr "N/A")].

(** ** helpers/isProduction.js and helpers/getDomain.js *)

(** The variables of [process.env] the helpers read, each a string or
    undefined, and [window.location.origin]. *)
Record process_env : Type := {
  NODE_ENV : option string;
  REACT_APP_API_URL : option string;
  REACT_APP_FRONTEND_URL : option string;
  location_origin : string
}.

Record domains : Type := {
  frontendDomain : string;
  backendDomain_of : string
}.

(** [process.env.NODE_ENV === "production"]. *)
Definition isProduction (P : process_env) : bool :=
  match NODE_ENV P with
  | Some s => String.eqb s "production"
  | None => false
  end.

(** [v || d] for a variable that is a string or undefined. *)
Definition or_else (v : option string) (d : string) : string :=
  match v with
  | Some s => if String.eqb s "" then d else s
  | None => d
  end.

Definition getDomain (P : process_env) : domains :=
  if isProduction P then
    let backendUrl :=
      or_else (REACT_APP_API_URL P)
        "https://llm-rag-fashion-agent-production.up.railway.app" in
    let frontendUrl := or_else (REACT_APP_FRONTEND_URL P) (location_origin P) in
    {| frontendDomain := frontendUrl; backendDomain_of := backendUrl |}
  else
    {| frontendDomain := "http://localhost:3000";
       backendDomain_of := "http://localhost:8000" |}.

(** ** components/ChatPage.js: the text shown for a failed query *)

(** [s.includes(sub)]. *)
Fixpoint includes (s sub : string) : bool :=
  String.prefix sub s ||
  match s with
  | EmptyString => false
  | String _ rest => includes rest sub
  end.

(** The [catch] block of [handleSendMessage]: the text put in the bot's
    bubble for an exception whose [message] is [message]. *)
Definition errorMessage (message : string) : string :=
  if includes message "Rate limit reached" then message
  else if includes message "Failed to fetch"
       then "Connection error. Please check your internet connection and try again."
       else "Sorry, I couldn't process your request. Please try again.".

(** A platform that reads every string as the number [z]; nothing is
    ever answered. *)
Definition reading (now z : Z) : env :=
  {| StringToNumber := fun _ => Fin z;
     Date_parse := fun _ => NaN;
     clock := fun k => now + Z.of_nat k;
     network := fun _ => NetworkError;
     backendDomain := "http://localhost:8000" |}.

Create HintDb local_only.

(** ** Basic facts *)

Lemma bind_ok {A B} (m : M A) (k : A -> M B) (w w' : world) (a : A) :
  m w = (Ok a, w') -> bind m k w = k a w'.
Proof. intros H. unfold bind. rewrite H. reflexivity. Qed.

Lemma try_catch_ok {A} (m : M A) (h : exn -> M A) (w w' : world) (a : A) :
  m w = (Ok a, w') -> try_catch m h w = (Ok a, w').
Proof. intros H. unfold try_catch. rewrite H. reflexivity. Qed.

Lemma bind_assoc {A B C} (m : M A) (f : A -> M B) (g : B -> M C) (w : world) :
  bind (bind m f) g w = bind m (fun x => bind (f x) g) w.
Proof. unfold bind. destruct (m w) as [[a|e] w']; reflexivity. Qed.

Lemma bind_ext {A B} (m : M A) (k1 k2 : A -> M B) (w : world) :
  (forall a w', k1 a w' = k2 a w') -> bind m k1 w = bind m k2 w.
Proof.
  intros H. unfold bind. destruct (m w) as [[a|e] w']; [apply H|reflexivity].
Qed.

Lemma try_catch_ext {A} (m1 m2 : M A) (h : exn -> M A) (w : world) :
  m1 w = m2 w -> try_catch m1 h w = try_catch m2 h w.
Proof. intros H. unfold try_catch. rewrite H. reflexivity. Qed.

Section Facts.

Variable E : env.

Lemma getRateLimitStatus_run (w : world) :
  getRateLimitStatus E w = (Ok (next_status E w), probed E w).
Proof.
  unfold getRateLimitStatus, next_status, status_of, bind, try_catch, fetch.
  cbn. destruct (network E (List.length (sent w))) as [|status [v|]]; cbn.
  - reflexivity.
  - destruct (ok status); reflexivity.
  - destruct (ok status); reflexivity.
Qed.

(** [getUsage] is its probe followed by the part after the [await]. *)
Lemma getUsage_split (w : world) :
  getUsage E w = getUsage_resume E (next_status E w) (probed E w).
Proof.
  unfold getUsage, getUsage_resume, try_catch, bind at 1.
  rewrite getRateLimitStatus_run. reflexivity.
Qed.

Lemma js_or_int (a d : Z) : d = 0 -> js_or (int a) (int d) = int a.
Proof.
  intros ->. unfold js_or, int, truthy.
  destruct (Z.eqb_spec a 0) as [->|]; reflexivity.
Qed.

Lemma js_or_remaining (r : Z) :
  js_or (int r) (int 20) = int (if r =? 0 then 20 else r).
Proof.
  unfold js_or, int, truthy. destruct (r =? 0); reflexivity.
Qed.

Lemma maxQueries_numeric (a r : Z) :
  js_add E (js_or (int a) (int 0)) (js_or (int r) (int 20))
  = Ok (int (maxQueries a r)).
Proof.
  rewrite js_or_int by reflexivity. rewrite js_or_remaining.
  reflexivity.
Qed.

(** The server branch of [getUsage], once the addition has gone through. *)
Lemma getUsage_resume_server (s used remaining reset_time total : value) (w : world) :
  truthy s = true ->
  get s "queries_used" = Ok used ->
  get s "queries_remaining" = Ok remaining ->
  get s "reset_time" = Ok reset_time ->
  js_add E (js_or used (int 0)) (js_or remaining (int 20)) = Ok total ->
  let u := {| count := js_or used (int 0); timestamp := int (clock E (ticks w));
              limit := total; serverSync := VBool true;
              serverResetTime := reset_time |} in
  getUsage_resume E s w
  = (Ok u, set_storage (saved u) (set_ticks (S (ticks w)) w)).
Proof.
  intros Hs Hu Hr Ht Ha u.
  unfold getUsage_resume, try_catch, bind, lift, Date_now, setItem, ret.
  rewrite Hs, Hu, Hr, Ha, Ht. reflexivity.
Qed.

Lemma getUsage_resume_offline (s : value) (w : world) :
  truthy s = false -> getUsage_resume E s w = offlineUsage E w.
Proof.
  intros Hs. unfold getUsage_resume, try_catch. rewrite Hs.
  destruct (offlineUsage E w) as [[u|e] w'] eqn:Ho; [reflexivity|].
  (* offlineUsage never throws, so the handler is not reached *)
  exfalso. revert Ho.
  unfold offlineUsage, bind, setItem, ret.
  destruct (getUsageSync E w) as [[u|e'] w''] eqn:Hg; [discriminate|].
  revert Hg. unfold getUsageSync, bind, getItem, try_catch, ret, Date_now.
  destruct (item_truthy (storage w)).
  - destruct (lift (JSON_parse (storage w)) w) as [[v|?] ?]; [|discriminate].
    destruct (validated E v w0) as [[?|?] ?]; discriminate.
  - discriminate.
Qed.

Lemma only_ticks_refl (w : world) : only_ticks w w.
Proof. repeat split. Qed.

Lemma only_ticks_tick (w : world) (n : nat) : only_ticks w (set_ticks n w).
Proof. repeat split. Qed.

Lemma isNaN_false (v : value) :
  isNaN E v = Ok false -> exists z, ToNumber E v = Ok (Fin z).
Proof.
  unfold isNaN, rbind. destruct (ToNumber E v) as [[z|]|]; try discriminate.
  intros _. now exists z.
Qed.

Lemma validated_spec (parsed : value) (w : world) :
  match validated E parsed w with
  | (Ok u, w') =>
      only_ticks w w' /\ exists z, ToNumber E (timestamp u) = Ok (Fin z)
  | (Throw _, w') => only_ticks w w'
  end.
Proof.
  unfold validated, bind, lift, ret, Date_now.
  destruct (get parsed "count") as [c|]; [|apply only_ticks_refl].
  destruct (isNaN E c) as [cn|]; [|apply only_ticks_refl].
  destruct (get parsed "timestamp") as [t|]; [|apply only_ticks_refl].
  destruct (isNaN E t) as [[|]|] eqn:Ht; [| |apply only_ticks_refl].
  - destruct (get parsed "limit") as [l|]; [|apply only_ticks_tick].
    destruct (isNaN E l) as [ln|]; [|apply only_ticks_tick].
    destruct (get parsed "serverSync") as [sy|]; [|apply only_ticks_tick].
    destruct (get parsed "serverResetTime") as [rt|]; [|apply only_ticks_tick].
    split; [apply only_ticks_tick|]. cbn. eexists; reflexivity.
  - destruct (get parsed "limit") as [l|]; [|apply only_ticks_refl].
    destruct (isNaN E l) as [ln|]; [|apply only_ticks_refl].
    destruct (get parsed "serverSync") as [sy|]; [|apply only_ticks_refl].
    destruct (get parsed "serverResetTime") as [rt|]; [|apply only_ticks_refl].
    split; [apply only_ticks_refl|]. cbn. now apply isNaN_false.
Qed.

(** [getUsageSync] always returns a snapshot, and one whose timestamp
    converts to a number. *)
Lemma getUsageSync_total (w : world) :
  exists u w', getUsageSync E w = (Ok u, w') /\ only_ticks w w' /\
               exists z, ToNumber E (timestamp u) = Ok (Fin z).
Proof.
  unfold getUsageSync, bind, getItem, try_catch, ret, Date_now, lift.
  destruct (item_truthy (storage w)).
  - destruct (JSON_parse (storage w)) as [v|].
    + pose proof (validated_spec v w) as Hv.
      destruct (validated E v w) as [[u|e] w'].
      * destruct Hv as [Hw Hz]. now exists u, w'.
      * eexists _, _. split; [reflexivity|]. split.
        -- destruct Hv as (? & ? & ?). repeat split; assumption.
        -- cbn. eexists; reflexivity.
    + eexists _, _. split; [reflexivity|]. split;
        [apply only_ticks_tick | cbn; eexists; reflexivity].
  - eexists _, _. split; [reflexivity|]. split;
      [apply only_ticks_tick | cbn; eexists; reflexivity].
Qed.

Lemma offlineUsage_total (w : world) :
  exists u w', getUsageSync E w = (Ok u, w') /\ only_ticks w w' /\
    (exists z, ToNumber E (timestamp u) = Ok (Fin z)) /\
    let u' := set_serverResetTime VNull (set_serverSync (VBool false) u) in
    offlineUsage E w = (Ok u', set_storage (saved u') w').
Proof.
  destruct (getUsageSync_total w) as (u & w' & Hg & Hw & Hz).
  exists u, w'. repeat split; try apply Hw; try assumption.
  unfold offlineUsage, bind. rewrite Hg. reflexivity.
Qed.

(** [getUsage] always returns a snapshot: the one it has just stored,
    with a timestamp that converts to a number, after exactly one status
    probe. *)
Lemma getUsage_total (w : world) :
  exists u w', getUsage E w = (Ok u, w') /\
    storage w' = saved u /\
    sent w' = List.app (sent w) [statusProbe E] /\
    pending w' = pending w /\
    exists z, ToNumber E (timestamp u) = Ok (Fin z).
Proof.
  rewrite getUsage_split.
  assert (Hoff : exists u w', offlineUsage E (probed E w) = (Ok u, w') /\
            storage w' = saved u /\
            sent w' = List.app (sent w) [statusProbe E] /\
            pending w' = pending w /\
            exists z, ToNumber E (timestamp u) = Ok (Fin z)).
  { destruct (offlineUsage_total (probed E w))
      as (u & w' & _ & (_ & Hs & Hp) & Hz & Ho).
    eexists _, _. split; [exact Ho|]. cbn. repeat split; assumption. }
  destruct (truthy (next_status E w)) eqn:Htr;
    [|rewrite getUsage_resume_offline by exact Htr; exact Hoff].
  unfold getUsage_resume, try_catch, bind, lift, Date_now, setItem, ret.
  rewrite Htr.
  destruct (get (next_status E w) "queries_used") as [used|]; [|exact Hoff].
  destruct (get (next_status E w) "queries_remaining") as [rem|]; [|exact Hoff].
  destruct (js_add E (js_or used (int 0)) (js_or rem (int 20))) as [total|];
    [|exact Hoff].
  destruct (get (next_status E w) "reset_time") as [rt|].
  - eexists _, _. split; [reflexivity|]. cbn.
    repeat split. eexists; reflexivity.
  - (* the clock has been read once more before the handler runs *)
    destruct (offlineUsage_total (set_ticks (S (ticks (probed E w))) (probed E w)))
      as (u & w' & _ & (_ & Hs & Hp) & Hz & Ho).
    eexists _, _. split; [exact Ho|]. cbn. repeat split; assumption.
Qed.

Lemma resetUsage_run (w : world) :
  resetUsage E w
  = (Ok tt, set_storage (saved (fresh (clock E (ticks w))))
              (set_ticks (S (ticks w)) w)).
Proof. reflexivity. Qed.

(** The server-time branch. *)
Lemma timeUntilResetOf_server (u : usage) (w : world) (t : Z) :
  serverResetInstant E u = Some t ->
  timeUntilResetOf E u w
  = (Ok (Fin (Z.max 0 (t - clock E (ticks w)))), set_ticks (S (ticks w)) w).
Proof.
  unfold serverResetInstant, timeUntilResetOf.
  destruct (truthy (serverResetTime u) && truthy (serverSync u)
            && strict_ne (serverResetTime u) "N/A"
            && strict_ne (serverResetTime u)
                 "Window expired - resets on next query"); [|discriminate].
  unfold bind, try_catch, lift, Date_now, ret.
  destruct (Date_getTime E (serverResetTime u)) as [[t'|]|]; try discriminate.
  intros [= ->]. reflexivity.
Qed.

(** The local-arithmetic branch. *)
Lemma timeUntilResetOf_local (u : usage) (w : world) (ts : Z) :
  serverResetInstant E u = None ->
  ToNumber E (timestamp u) = Ok (Fin ts) ->
  let timeRemaining := 18000000 - (clock E (ticks w) - ts) in
  timeUntilResetOf E u w
  = if timeRemaining <=? 0
    then (Ok (Fin 0),
          set_storage (saved (fresh (clock E (S (ticks w)))))
            (set_ticks (S (S (ticks w))) w))
    else (Ok (Fin timeRemaining), set_ticks (S (ticks w)) w).
Proof.
  intros Hnone Hts timeRemaining.
  assert (Hlocal :
    (now <- Date_now E ;;
     timeElapsed <- lift (js_sub E (int now) (timestamp u)) ;;
     let timeRemaining := num_sub (Fin (5 * 60 * 60 * 1000)) timeElapsed in
     if num_le0 timeRemaining then resetUsage E ;;; ret (Fin 0)
     else ret timeRemaining) w
    = if timeRemaining <=? 0
      then (Ok (Fin 0),
            set_storage (saved (fresh (clock E (S (ticks w)))))
              (set_ticks (S (S (ticks w))) w))
      else (Ok (Fin timeRemaining), set_ticks (S (ticks w)) w)).
  { unfold bind at 1. unfold Date_now at 1. unfold bind at 1.
    unfold lift, js_sub, rbind. cbn [ToNumber int]. rewrite Hts.
    cbn [num_sub num_le0].
    change (5 * 60 * 60 * 1000 - (clock E (ticks w) - ts)) with timeRemaining.
    destruct (timeRemaining <=? 0); reflexivity. }
  revert Hnone. unfold serverResetInstant, timeUntilResetOf.
  destruct (truthy (serverResetTime u) && truthy (serverSync u)
            && strict_ne (serverResetTime u) "N/A"
            && strict_ne (serverResetTime u)
                 "Window expired - resets on next query").
  - unfold bind at 1. unfold try_catch, bind at 1. unfold lift at 1.
    destruct (Date_getTime E (serverResetTime u)) as [[t'|]|];
      try discriminate; intros _; exact Hlocal.
  - intros _. exact Hlocal.
Qed.

(** Whatever the branch, the time until reset is a number that is not
    negative, and computing it issues no request. *)
Lemma timeUntilResetOf_nonneg (u : usage) (w : world) :
  (exists ts, ToNumber E (timestamp u) = Ok (Fin ts)) ->
  exists z w', timeUntilResetOf E u w = (Ok (Fin z), w') /\ 0 <= z /\
               sent w' = sent w /\ pending w' = pending w.
Proof.
  intros [ts Hts].
  destruct (serverResetInstant E u) as [t|] eqn:Hsrv.
  - rewrite (timeUntilResetOf_server u w t Hsrv).
    eexists _, _. split; [reflexivity|].
    split; [lia|]. split; reflexivity.
  - rewrite (timeUntilResetOf_local u w ts Hsrv Hts).
    destruct (Z.leb_spec (18000000 - (clock E (ticks w) - ts)) 0).
    + eexists _, _. split; [reflexivity|].
      split; [lia|]. split; reflexivity.
    + eexists _, _. split; [reflexivity|].
      split; [lia|]. split; reflexivity.
Qed.

Lemma get_truthy (s : value) (k : string) :
  truthy s = true -> exists v, get s k = Ok v.
Proof.
  destruct s; cbn; try discriminate; intros _; eexists; reflexivity.
Qed.

(** Loading a stored snapshot with numeric fields and overwriting the two
    server fields, as the offline branch does. *)
Lemma offlineUsage_snapshot (w : world) (c t l : Z) :
  holds_snapshot w c t l ->
  offlineUsage E w = (Ok (local c t l), set_storage (saved (local c t l)) w).
Proof.
  intros (u & Hst & Hc & Ht & Hl).
  destruct u as [uc ut ul usy urt]. cbn in Hc, Ht, Hl. subst uc ut ul.
  unfold offlineUsage, getUsageSync, bind at 1 2. unfold getItem at 1.
  rewrite Hst. unfold saved, JSON_stringify, usage_object, int.
  destruct usy, urt; reflexivity.
Qed.

Lemma getUsage_offline_snapshot (w : world) (c t l : Z) :
  truthy (next_status E w) = false ->
  holds_snapshot w c t l ->
  getUsage E w
  = (Ok (local c t l), set_storage (saved (local c t l)) (probed E w)).
Proof.
  intros Hs Hw. rewrite getUsage_split, getUsage_resume_offline by exact Hs.
  apply offlineUsage_snapshot. exact Hw.
Qed.

(** The snapshot [getUsage] builds from a status with numeric counters. *)
Lemma getUsage_numeric_status (w : world) (a r : Z) :
  truthy (next_status E w) = true ->
  get (next_status E w) "queries_used" = Ok (int a) ->
  get (next_status E w) "queries_remaining" = Ok (int r) ->
  exists reset_time,
    get (next_status E w) "reset_time" = Ok reset_time /\
    let u := {| count := int a; timestamp := int (clock E (ticks w));
                limit := int (maxQueries a r); serverSync := VBool true;
                serverResetTime := reset_time |} in
    getUsage E w
    = (Ok u, set_storage (saved u) (set_ticks (S (ticks w)) (probed E w))).
Proof.
  intros Hs Ha Hr.
  destruct (get_truthy _ "reset_time" Hs) as [rt Hrt].
  exists rt. split; [exact Hrt|]. intros u.
  rewrite getUsage_split.
  rewrite (getUsage_resume_server _ _ _ _ _ (probed E w) Hs Ha Hr Hrt
             (maxQueries_numeric a r)).
  rewrite js_or_int by reflexivity. reflexivity.
Qed.

End Facts.

(** ** Conversions that cannot throw *)

Section Total.

Variable E : env.

Lemma ToPrimitive_primitive (v p : value) :
  ToPrimitive v = Ok p ->
  ToPrimitive p = Ok p /\
  (exists n, ToNumber E p = Ok n) /\ (exists s, ToString p = Ok s).
Proof.
  assert (Hstr : forall s, ToPrimitive (VStr s) = Ok (VStr s) /\
            (exists n, ToNumber E (VStr s) = Ok n) /\
            (exists s', ToString (VStr s) = Ok s')).
  { intros s. repeat split; eexists; reflexivity. }
  destruct v as [| |b|n|s|elems extra|props]; cbn [ToPrimitive].
  - intros [= <-]. repeat split; eexists; reflexivity.
  - intros [= <-]. repeat split; eexists; reflexivity.
  - intros [= <-]. destruct b; repeat split; eexists; reflexivity.
  - intros [= <-]. destruct n; repeat split; eexists; reflexivity.
  - intros [= <-]. apply Hstr.
  - destruct (ToString (VArr elems extra)) as [s|]; cbn [rbind]; [|discriminate].
    intros [= <-]. apply Hstr.
  - destruct (ToString (VObj props)) as [s|]; cbn [rbind]; [|discriminate].
    intros [= <-]. apply Hstr.
Qed.

Lemma ToNumber_coercible (v : value) (n : number) :
  ToNumber E v = Ok n -> coercible v.
Proof.
  unfold coercible.
  destruct v as [| |b|m|s|elems extra|props]; cbn [ToNumber ToPrimitive];
    try (intros _; eexists; reflexivity).
  - destruct (ToString (VArr elems extra)); cbn; [eexists; reflexivity|discriminate].
  - destruct (ToString (VObj props)); cbn; [eexists; reflexivity|discriminate].
Qed.

Lemma isNaN_coercible (v : value) (b : bool) : isNaN E v = Ok b -> coercible v.
Proof.
  unfold isNaN, rbind. destruct (ToNumber E v) as [n|] eqn:Hn; [|discriminate].
  intros _. exact (ToNumber_coercible v n Hn).
Qed.

Lemma coercible_int (z : Z) : coercible (int z).
Proof. eexists; reflexivity. Qed.

(** [>=] never throws on operands that convert to primitives. *)
Lemma js_ge_total (a b : value) :
  coercible a -> coercible b -> exists r, js_ge E a b = Ok r.
Proof.
  intros [pa Ha] [pb Hb]. unfold js_ge, IsLessThan. rewrite Ha, Hb. cbn [rbind].
  destruct (ToPrimitive_primitive a pa Ha) as (_ & [na Hna] & _).
  destruct (ToPrimitive_primitive b pb Hb) as (_ & [nb Hnb] & _).
  destruct pa, pb; rewrite ?Hna, ?Hnb; cbn [rbind]; eexists; reflexivity.
Qed.

(** [+] never throws on such operands, and its result is a primitive. *)
Lemma js_add_total (a b : value) :
  coercible a -> coercible b ->
  exists r, js_add E a b = Ok r /\ coercible r.
Proof.
  intros [pa Ha] [pb Hb]. unfold js_add. rewrite Ha, Hb. cbn [rbind].
  destruct (ToPrimitive_primitive a pa Ha) as (_ & [na Hna] & [sa Hsa]).
  destruct (ToPrimitive_primitive b pb Hb) as (_ & [nb Hnb] & [sb Hsb]).
  destruct pa, pb; rewrite ?Hna, ?Hnb, ?Hsa, ?Hsb; cbn [rbind];
    eexists; (split; [reflexivity|eexists; reflexivity]).
Qed.

Lemma js_add_operands (a b r : value) :
  js_add E a b = Ok r -> coercible a /\ coercible r.
Proof.
  unfold js_add. destruct (ToPrimitive a) as [pa|] eqn:Ha; cbn [rbind];
    [|discriminate].
  destruct (ToPrimitive b) as [pb|] eqn:Hb; cbn [rbind]; [|discriminate].
  intros Hr. split; [eexists; exact Ha|].
  destruct (ToPrimitive_primitive a pa Ha) as (_ & [na Hna] & [sa Hsa]).
  destruct (ToPrimitive_primitive b pb Hb) as (_ & [nb Hnb] & [sb Hsb]).
  destruct pa, pb; rewrite ?Hna, ?Hnb, ?Hsa, ?Hsb in Hr; cbn [rbind] in Hr;
    injection Hr as <-; eexists; reflexivity.
Qed.

Lemma validated_coercible (parsed : value) (w w' : world) (u : usage) :
  validated E parsed w = (Ok u, w') ->
  coercible (count u) /\ coercible (limit u).
Proof.
  unfold validated, bind, lift, ret, Date_now.
  destruct (get parsed "count") as [c|]; [|discriminate].
  destruct (isNaN E c) as [cn|] eqn:Hc; [|discriminate].
  destruct (get parsed "timestamp") as [t|]; [|discriminate].
  destruct (isNaN E t) as [[|]|]; [| |discriminate].
  - destruct (get parsed "limit") as [l|]; [|discriminate].
    destruct (isNaN E l) as [ln|] eqn:Hl; [|discriminate].
    destruct (get parsed "serverSync") as [sy|]; [|discriminate].
    destruct (get parsed "serverResetTime") as [rt|]; [|discriminate].
    intros [= <- _]. cbn [count limit]. split.
    + destruct cn; [apply coercible_int | exact (isNaN_coercible c _ Hc)].
    + destruct ln; [apply coercible_int | exact (isNaN_coercible l _ Hl)].
  - destruct (get parsed "limit") as [l|]; [|discriminate].
    destruct (isNaN E l) as [ln|] eqn:Hl; [|discriminate].
    destruct (get parsed "serverSync") as [sy|]; [|discriminate].
    destruct (get parsed "serverResetTime") as [rt|]; [|discriminate].
    intros [= <- _]. cbn [count limit]. split.
    + destruct cn; [apply coercible_int | exact (isNaN_coercible c _ Hc)].
    + destruct ln; [apply coercible_int | exact (isNaN_coercible l _ Hl)].
Qed.

Lemma getUsageSync_coercible (w w' : world) (u : usage) :
  getUsageSync E w = (Ok u, w') ->
  coercible (count u) /\ coercible (limit u).
Proof.
  unfold getUsageSync, bind, getItem, try_catch, ret, Date_now, lift.
  destruct (item_truthy (storage w)).
  - destruct (JSON_parse (storage w)) as [v|].
    + destruct (validated E v w) as [[u'|e] w''] eqn:Hv.
      * intros [= <- _]. exact (validated_coercible v w w'' u' Hv).
      * intros [= <- _]. split; apply coercible_int.
    + intros [= <- _]. split; apply coercible_int.
  - intros [= <- _]. split; apply coercible_int.
Qed.

Lemma offlineUsage_coercible (w w' : world) (u : usage) :
  offlineUsage E w = (Ok u, w') ->
  coercible (count u) /\ coercible (limit u).
Proof.
  unfold offlineUsage, bind, setItem, ret.
  destruct (getUsageSync E w) as [[u0|e] w0] eqn:Hg; [|discriminate].
  intros [= <- _]. exact (getUsageSync_coercible w w0 u0 Hg).
Qed.

(** The count and the limit of what [getUsage] returns convert without
    throwing, in the server branch as in the other. *)
Lemma getUsage_coercible (w w' : world) (u : usage) :
  getUsage E w = (Ok u, w') ->
  coercible (count u) /\ coercible (limit u).
Proof.
  rewrite getUsage_split.
  destruct (truthy (next_status E w)) eqn:Htr;
    [|rewrite getUsage_resume_offline by exact Htr;
      apply offlineUsage_coercible].
  unfold getUsage_resume, try_catch, bind, lift, Date_now, setItem, ret.
  rewrite Htr.
  destruct (get (next_status E w) "queries_used") as [used|];
    [|apply offlineUsage_coercible].
  destruct (get (next_status E w) "queries_remaining") as [rem|];
    [|apply offlineUsage_coercible].
  destruct (js_add E (js_or used (int 0)) (js_or rem (int 20))) as [total|] eqn:Ha;
    [|apply offlineUsage_coercible].
  destruct (get (next_status E w) "reset_time") as [rt|];
    [|apply offlineUsage_coercible].
  intros [= <- _]. cbn [count limit].
  exact (js_add_operands _ _ _ Ha).
Qed.

End Total.

(** ** Reconciliation without server data *)

(** C8. When the status probe delivers nothing, [getUsage] returns and
    stores the snapshot that loading the stored record gives, with
    [serverSync] forced to false and [serverResetTime] to null; for every
    stored snapshot with numeric count, timestamp and limit, the count
    and the limit returned and stored are the stored ones. *)
Theorem getUsage_probe_failed_keeps_counters (E : env) (w : world) :
  truthy (next_status E w) = false ->
  (exists loaded u w',
     fst (getUsageSync E (probed E w)) = Ok loaded /\
     getUsage E w = (Ok u, w') /\
     count u = count loaded /\ limit u = limit loaded /\
     serverSync u = VBool false /\ serverResetTime u = VNull /\
     storage w' = saved u) /\
  (forall c t l,
     holds_snapshot w c t l ->
     exists u w',
       getUsage E w = (Ok u, w') /\
       count u = int c /\ limit u = int l /\
       serverSync u = VBool false /\ serverResetTime u = VNull /\
       storage w' = saved u).
Proof.
  intros Hs. split.
  - destruct (offlineUsage_total E (probed E w))
      as (loaded & w0 & Hload & _ & _ & Hoff).
    exists loaded. eexists _, _. rewrite Hload.
    split; [reflexivity|]. split.
    + rewrite getUsage_split, getUsage_resume_offline by exact Hs. exact Hoff.
    + repeat split.
  - intros c t l Hw. exists (local c t l). eexists. split.
    + apply getUsage_offline_snapshot; assumption.
    + repeat split.
Qed.

Lemma getUsage_probe_failed_keeps_counters_witness :
  exists u w',
    getUsage (unreachable 1000) (initially (saved (local 5 900 20))) = (Ok u, w') /\
    count u = int 5 /\ limit u = int 20 /\
    serverSync u = VBool false /\ serverResetTime u = VNull /\
    storage w' = saved u.
Proof.
  apply (proj2 (getUsage_probe_failed_keeps_counters (unreachable 1000)
                  (initially (saved (local 5 900 20))) eq_refl) 5 900 20).
  exists (local 5 900 20). repeat split.
Defined.

(** ** Reconciliation with server data *)

(** C1. At the status [{queries_used: 20, queries_remaining: 0}] the
    reconciled snapshot has count 20 but limit 40, not 20 + 0: the default
    of [queries_remaining || 20] replaces the reported zero, and the limit
    check that follows does not block. *)
Theorem getUsage_zero_remaining_limit (now : Z) (w : world) :
  exists u w',
    getUsage (answering now exhausted_status) w = (Ok u, w') /\
    count u = int 20 /\ limit u = int 40 /\ serverSync u = VBool true /\
    storage w' = saved u /\
    fst (hasReachedLimit (answering now exhausted_status) w) = Ok false.
Proof.
  destruct (getUsage_numeric_status (answering now exhausted_status) w 20 0)
    as (rt & Hrt & Hg); try reflexivity.
  eexists _, _. split; [exact Hg|].
  do 4 (split; [reflexivity|]).
  unfold hasReachedLimit, bind. rewrite Hg. reflexivity.
Qed.

(** With the counters 3 and 17 the snapshot has limit 20, count 3 and
    [serverSync] true, for every stored record. *)
Example getUsage_three_seventeen (now : Z) (w : world) :
  let status := VObj [("queries_used", int 3); ("queries_remaining", int 17);
                      ("reset_time", VStr "N/A")] in
  exists u w',
    getUsage (answering now status) w = (Ok u, w') /\
    count u = int 3 /\ limit u = int 20 /\ serverSync u = VBool true /\
    storage w' = saved u.
Proof.
  intros status.
  destruct (getUsage_numeric_status (answering now status) w 3 17)
    as (rt & Hrt & Hg); try reflexivity.
  eexists _, _. split; [exact Hg|].
  do 3 (split; [reflexivity|]). reflexivity.
Qed.

(** The sentinel ["Window expired - resets on next query"] is not parsed
    as a date: the time until reset comes from local arithmetic. *)
Example sentinel_falls_back_to_local_arithmetic (E : env) (c t l : Z) :
  serverResetInstant E
    {| count := int c; timestamp := int t; limit := int l;
       serverSync := VBool true;
       serverResetTime := VStr "Window expired - resets on next query" |}
  = None.
Proof. reflexivity. Qed.

(** C10. When the probe of [incrementUsage] delivers a status with numeric
    counters, the snapshot it returns and stores has count
    [queries_used + 1] and the limit reconstructed from the two counters,
    whatever was stored before. *)
Theorem incrementUsage_counts_from_server (E : env) (w : world) (a r : Z) :
  truthy (next_status E w) = true ->
  get (next_status E w) "queries_used" = Ok (int a) ->
  get (next_status E w) "queries_remaining" = Ok (int r) ->
  exists u,
    count u = int (a + 1) /\ limit u = int (maxQueries a r) /\
    forall stored : option item,
      fst (incrementUsage E (set_storage stored w)) = Ok u /\
      storage (snd (incrementUsage E (set_storage stored w))) = saved u.
Proof.
  intros Hs Ha Hr.
  destruct (get_truthy _ "reset_time" Hs) as [rt Hrt].
  exists {| count := int (a + 1); timestamp := int (clock E (ticks w));
            limit := int (maxQueries a r); serverSync := VBool true;
            serverResetTime := rt |}.
  repeat split.
  - destruct (getUsage_numeric_status E (set_storage stored w) a r Hs Ha Hr)
      as (rt' & Hrt' & Hg).
    change (next_status E (set_storage stored w)) with (next_status E w) in Hrt'.
    rewrite Hrt in Hrt'. injection Hrt' as <-.
    unfold incrementUsage, bind. rewrite Hg. reflexivity.
  - destruct (getUsage_numeric_status E (set_storage stored w) a r Hs Ha Hr)
      as (rt' & Hrt' & Hg).
    change (next_status E (set_storage stored w)) with (next_status E w) in Hrt'.
    rewrite Hrt in Hrt'. injection Hrt' as <-.
    unfold incrementUsage, bind. rewrite Hg. reflexivity.
Qed.

Lemma incrementUsage_counts_from_server_witness :
  exists u,
    count u = int 4 /\ limit u = int 20 /\
    forall stored : option item,
      fst (incrementUsage
             (answering 1000 (VObj [("queries_used", int 3);
                                    ("queries_remaining", int 17)]))
             (set_storage stored (initially None))) = Ok u /\
      storage (snd (incrementUsage
             (answering 1000 (VObj [("queries_used", int 3);
                                    ("queries_remaining", int 17)]))
             (set_storage stored (initially None)))) = saved u.
Proof.
  apply (incrementUsage_counts_from_server
           (answering 1000 (VObj [("queries_used", int 3);
                                  ("queries_remaining", int 17)]))
           (initially None) 3 17); reflexivity.
Defined.

(** ** Reading what is stored *)

(** C4. With a stored text that is not JSON, and with the stored text
    [null], the constructor's [initializeUsageTracking] throws: its
    [JSON.parse] and its read of [usage.timestamp] are not inside a
    [try]. *)
Theorem initializeUsageTracking_throws (E : env) (w : world) :
  fst (constructor E (set_storage (Some CorruptText) w)) = Throw SyntaxError /\
  fst (constructor E (set_storage (Some (JsonText VNull)) w)) = Throw TypeError.
Proof. split; reflexivity. Qed.

(** C5. Loading the record [{"count":null,"timestamp":null,"limit":null}]
    returns count [null] and limit [null], not 0 and 20: [isNaN] converts
    [null] to 0 before it tests. *)
Theorem getUsageSync_null_fields (E : env) (w : world) :
  exists u,
    fst (getUsageSync E (set_storage (Some (JsonText null_record)) w)) = Ok u /\
    count u = VNull /\ limit u = VNull /\ timestamp u = VNull.
Proof. eexists. split; [reflexivity|]. repeat split. Qed.

(** ** Time until reset *)

(** C7. [getTimeUntilReset] and [getTimeUntilResetSync] always return a
    number that is not negative, through the server-time branch and
    through local arithmetic alike; and when the local branch finds
    [18000000 - (now - timestamp) <= 0] the call stores the reset
    snapshot (count 0, the next clock reading as timestamp) and
    returns 0. *)
Theorem timeUntilReset_nonneg_and_resets (E : env) (w : world) :
  (exists z w', getTimeUntilReset E w = (Ok (Fin z), w') /\ 0 <= z) /\
  (exists z w', getTimeUntilResetSync E w = (Ok (Fin z), w') /\ 0 <= z) /\
  (forall u w1 ts,
      getUsage E w = (Ok u, w1) ->
      serverResetInstant E u = None ->
      ToNumber E (timestamp u) = Ok (Fin ts) ->
      18000000 - (clock E (ticks w1) - ts) <= 0 ->
      getTimeUntilReset E w
      = (Ok (Fin 0),
         set_storage (saved (fresh (clock E (S (ticks w1)))))
           (set_ticks (S (S (ticks w1))) w1))) /\
  (forall u w1 ts,
      getUsageSync E w = (Ok u, w1) ->
      serverResetInstant E u = None ->
      ToNumber E (timestamp u) = Ok (Fin ts) ->
      18000000 - (clock E (ticks w1) - ts) <= 0 ->
      getTimeUntilResetSync E w
      = (Ok (Fin 0),
         set_storage (saved (fresh (clock E (S (ticks w1)))))
           (set_ticks (S (S (ticks w1))) w1))).
Proof.
  repeat split.
  - destruct (getUsage_total E w) as (u & w1 & Hg & _ & _ & _ & Hts).
    destruct (timeUntilResetOf_nonneg E u w1 Hts) as (z & w' & Ht & Hz & _).
    exists z, w'. split; [|exact Hz].
    unfold getTimeUntilReset, bind. rewrite Hg. exact Ht.
  - destruct (getUsageSync_total E w) as (u & w1 & Hg & _ & Hts).
    destruct (timeUntilResetOf_nonneg E u w1 Hts) as (z & w' & Ht & Hz & _).
    exists z, w'. split; [|exact Hz].
    unfold getTimeUntilResetSync, bind. rewrite Hg. exact Ht.
  - intros u w1 ts Hg Hsrv Hts Hle.
    unfold getTimeUntilReset, bind. rewrite Hg.
    rewrite (timeUntilResetOf_local E u w1 ts Hsrv Hts).
    apply Z.leb_le in Hle. rewrite Hle. reflexivity.
  - intros u w1 ts Hg Hsrv Hts Hle.
    unfold getTimeUntilResetSync, bind. rewrite Hg.
    rewrite (timeUntilResetOf_local E u w1 ts Hsrv Hts).
    apply Z.leb_le in Hle. rewrite Hle. reflexivity.
Qed.

Lemma timeUntilReset_nonneg_and_resets_witness :
  getTimeUntilResetSync (unreachable 20000000) (initially (saved (local 5 0 20)))
  = (Ok (Fin 0),
     set_storage (saved (fresh 20000001))
       (set_ticks 2 (initially (saved (local 5 0 20))))).
Proof.
  apply (proj2 (proj2 (proj2
           (timeUntilReset_nonneg_and_resets (unreachable 20000000)
              (initially (saved (local 5 0 20))))))
           (local 5 0 20) (initially (saved (local 5 0 20))) 0).
  - reflexivity.
  - reflexivity.
  - reflexivity.
  - vm_compute. discriminate.
Defined.

(** ** The limit check of [query] *)

(** C9. When the limit check of [query] finds count >= limit, [query]
    throws an error whose message ends with the formatted time until
    reset, and the only requests issued are the two status probes: no
    POST to /api/v1/query is made. *)
Theorem query_blocked_sends_no_query
  (E : env) (w : world) (message : value) (resumes : schedule) :
  fst (hasReachedLimit E w) = Ok true ->
  exists timeRemaining w',
    getTimeUntilReset E (snd (hasReachedLimit E w)) = (Ok timeRemaining, w') /\
    query E message resumes w
    = (Throw (Error ("Rate limit reached. You can make 20 queries every 5 hours. Next reset: "
                     ++ formatTime timeRemaining)), w') /\
    sent w' = List.app (sent w) [statusProbe E; statusProbe E].
Proof.
  intros Hblocked.
  destruct (getUsage_total E w) as (u & w1 & Hg & _ & Hsent1 & _ & _).
  assert (Hw1 : snd (hasReachedLimit E w) = w1).
  { unfold hasReachedLimit, bind, lift. rewrite Hg.
    destruct (js_ge E (count u) (limit u)); reflexivity. }
  destruct (getUsage_total E w1) as (u2 & w2 & Hg2 & _ & Hsent2 & _ & Hts).
  destruct (timeUntilResetOf_nonneg E u2 w2 Hts) as (z & w' & Ht & _ & Hsent3 & _).
  exists (Fin z), w'. rewrite Hw1. repeat split.
  - unfold getTimeUntilReset, bind. rewrite Hg2. exact Ht.
  - unfold query. unfold bind at 1.
    destruct (hasReachedLimit E w) as [[b|e] w1'] eqn:Hh;
      cbn in Hblocked, Hw1; [|discriminate].
    injection Hblocked as ->. subst w1'.
    unfold formatTimeUntilReset, getTimeUntilReset, bind.
    rewrite Hg2, Ht. reflexivity.
  - rewrite Hsent3, Hsent2, Hsent1. rewrite <- List.app_assoc. reflexivity.
Qed.

Lemma query_blocked_sends_no_query_witness :
  exists timeRemaining w',
    getTimeUntilReset (unreachable 1000)
      (snd (hasReachedLimit (unreachable 1000) (initially (saved (local 20 900 20)))))
    = (Ok timeRemaining, w') /\
    query (unreachable 1000) (VStr "What goes with a navy blazer?") (atomically AfterReturn)
      (initially (saved (local 20 900 20)))
    = (Throw (Error ("Rate limit reached. You can make 20 queries every 5 hours. Next reset: "
                     ++ formatTime timeRemaining)), w') /\
    sent w' = List.app (sent (initially (saved (local 20 900 20))))
                [statusProbe (unreachable 1000); statusProbe (unreachable 1000)].
Proof.
  apply (query_blocked_sends_no_query (unreachable 1000)
           (initially (saved (local 20 900 20)))
           (VStr "What goes with a navy blazer?") (atomically AfterReturn)).
  reflexivity.
Defined.

(** ** Expiry of the local window *)

Lemma holds_snapshot_timestamp (w : world) (c t l : Z) :
  holds_snapshot w c t l ->
  exists v, storage w = Some (JsonText v) /\ get v "timestamp" = Ok (int t).
Proof.
  intros (u & Hst & Hc & Ht & Hl).
  destruct u as [uc ut ul usy urt]. cbn in Hc, Ht, Hl. subst uc ut ul.
  eexists. split; [exact Hst|].
  unfold usage_object, int. destruct usy, urt; reflexivity.
Qed.

Lemma constructor_expired (E : env) (w : world) (c t l : Z) :
  holds_snapshot w c t l ->
  clock E (ticks w) - t > 18000000 ->
  constructor E w
  = (Ok tt, set_storage (saved (fresh (clock E (S (ticks w)))))
              (set_ticks (S (S (ticks w))) w)).
Proof.
  intros Hw Hexp. destruct (holds_snapshot_timestamp w c t l Hw) as (v & Hst & Hts).
  unfold constructor, initializeUsageTracking.
  unfold bind at 1. unfold Date_now at 1. unfold bind at 1. unfold getItem at 1.
  cbn [storage set_ticks]. rewrite Hst. cbn [item_truthy].
  unfold bind at 1. unfold lift at 1. cbn [JSON_parse].
  unfold bind at 1. unfold lift at 1. rewrite Hts.
  unfold bind at 1. unfold lift at 1. cbn [js_sub ToNumber int rbind num_sub num_lt].
  replace (18000000 <? clock E (ticks w) - t) with true
    by (symmetry; apply Z.ltb_lt; lia).
  reflexivity.
Qed.

(** C2, as the code has it. At a stored numeric snapshot whose timestamp
    lies more than five hours back, with no server data: [getUsage]
    returns and stores the snapshot with its count and timestamp as they
    were; the reset to count 0 with the next clock reading as timestamp
    is made by the constructor's [initializeUsageTracking] and by
    [getTimeUntilReset], which then returns 0. *)
Theorem expired_window_is_reset_elsewhere (E : env) (w : world) (c t l : Z) :
  holds_snapshot w c t l ->
  truthy (next_status E w) = false ->
  clock E (ticks w) - t > 18000000 ->
  (exists w', getUsage E w = (Ok (local c t l), w') /\
              storage w' = saved (local c t l)) /\
  constructor E w
  = (Ok tt, set_storage (saved (fresh (clock E (S (ticks w)))))
              (set_ticks (S (S (ticks w))) w)) /\
  getTimeUntilReset E w
  = (Ok (Fin 0), set_storage (saved (fresh (clock E (S (ticks w)))))
                   (set_ticks (S (S (ticks w))) (probed E w))).
Proof.
  intros Hw Hs Hexp. split; [|split].
  - eexists. split; [apply getUsage_offline_snapshot; assumption|reflexivity].
  - apply (constructor_expired E w c t l); assumption.
  - unfold getTimeUntilReset, bind.
    rewrite (getUsage_offline_snapshot E w c t l Hs Hw).
    rewrite (timeUntilResetOf_local E (local c t l) _ t); try reflexivity.
    cbn [ticks set_storage probed set_sent].
    replace (18000000 - (clock E (ticks w) - t) <=? 0) with true
      by (symmetry; apply Z.leb_le; lia).
    reflexivity.
Qed.

Lemma expired_window_is_reset_elsewhere_witness :
  (exists w', getUsage (unreachable 20000000) (initially (saved (local 5 0 20)))
              = (Ok (local 5 0 20), w') /\
              storage w' = saved (local 5 0 20)) /\
  constructor (unreachable 20000000) (initially (saved (local 5 0 20)))
  = (Ok tt, set_storage (saved (fresh 20000001))
              (set_ticks 2 (initially (saved (local 5 0 20))))) /\
  getTimeUntilReset (unreachable 20000000) (initially (saved (local 5 0 20)))
  = (Ok (Fin 0), set_storage (saved (fresh 20000001))
                   (set_ticks 2 (probed (unreachable 20000000)
                                   (initially (saved (local 5 0 20)))))).
Proof.
  apply (expired_window_is_reset_elsewhere (unreachable 20000000)
           (initially (saved (local 5 0 20))) 5 0 20).
  - exists (local 5 0 20). repeat split.
  - reflexivity.
  - vm_compute. reflexivity.
Defined.

(** C2 fails as stated: five stored queries, a window begun at instant 0,
    the clock at 20,000,000 ms, the server unreachable; [getUsage] returns
    count 5 and timestamp 0. *)
Lemma getUsage_keeps_expired_window :
  let E := unreachable 20000000 in
  let w := initially (saved (local 5 0 20)) in
  clock E (ticks w) - 0 > 18000000 /\
  truthy (next_status E w) = false /\
  fst (getUsage E w) = Ok (local 5 0 20) /\
  count (local 5 0 20) <> int 0 /\ timestamp (local 5 0 20) = int 0.
Proof.
  split; [vm_compute; reflexivity|]. split; [vm_compute; reflexivity|].
  split; [vm_compute; reflexivity|].
  split; [discriminate|reflexivity].
Qed.

(** ** The limit *)

Lemma getUsageSync_snapshot (E : env) (w : world) (c t l : Z) :
  holds_snapshot w c t l ->
  exists sync reset,
    getUsageSync E w
    = (Ok {| count := int c; timestamp := int t; limit := int l;
             serverSync := sync; serverResetTime := reset |}, w).
Proof.
  intros (u & Hst & Hc & Ht & Hl).
  destruct u as [uc ut ul usy urt]. cbn in Hc, Ht, Hl. subst uc ut ul.
  exists (js_or (to_json usy) (VBool false)), (js_or (to_json urt) VNull).
  unfold getUsageSync, bind at 1. unfold getItem at 1.
  rewrite Hst. unfold saved, JSON_stringify, usage_object, int.
  destruct usy, urt; reflexivity.
Qed.

Lemma getUsageSync_nothing_stored (E : env) (w : world) :
  nothing_stored w ->
  getUsageSync E w
  = (Ok {| count := int 0; timestamp := int (clock E (ticks w));
           limit := int 20; serverSync := VBool false;
           serverResetTime := VUndefined |},
     set_ticks (S (ticks w)) w).
Proof.
  unfold getUsageSync, bind at 1. unfold getItem at 1.
  intros [-> | [-> | ->]]; reflexivity.
Qed.

Lemma offlineUsage_nothing_stored (E : env) (w : world) :
  nothing_stored w ->
  let u := local 0 (clock E (ticks w)) 20 in
  offlineUsage E w = (Ok u, set_storage (saved u) (set_ticks (S (ticks w)) w)).
Proof.
  intros Hn u. unfold offlineUsage, bind at 1.
  rewrite (getUsageSync_nothing_stored E w Hn). reflexivity.
Qed.

Lemma holds_snapshot_saved (w : world) (u : usage) (c t l : Z) :
  storage w = saved u ->
  count u = int c -> timestamp u = int t -> limit u = int l ->
  holds_snapshot w c t l.
Proof. intros. exists u. repeat split; assumption. Qed.

Lemma maxQueries_positive (a r : Z) : 0 <= a -> 0 <= r -> 0 < maxQueries a r.
Proof.
  intros Ha Hr. unfold maxQueries.
  destruct (Z.eqb_spec r 0); lia.
Qed.

Section Limit.

Variable E : env.

Lemma local_only_ret {A} (a : A) : local_only (ret a).
Proof. intros l p w. reflexivity. Qed.

Lemma local_only_throw {A} (e : exn) : local_only (throw (A := A) e).
Proof. intros l p w. reflexivity. Qed.

Lemma local_only_lift {A} (r : result A) : local_only (lift r).
Proof. intros l p w. reflexivity. Qed.

Lemma local_only_bind {A B} (m : M A) (k : A -> M B) :
  local_only m -> (forall a, local_only (k a)) -> local_only (bind m k).
Proof.
  intros Hm Hk l p w. unfold bind. rewrite Hm.
  destruct (m w) as [[a|e] w']; cbn [fst snd]; [apply Hk|reflexivity].
Qed.

Lemma local_only_try_catch {A} (m : M A) (h : exn -> M A) :
  local_only m -> (forall e, local_only (h e)) -> local_only (try_catch m h).
Proof.
  intros Hm Hh l p w. unfold try_catch. rewrite Hm.
  destruct (m w) as [[a|e] w']; cbn [fst snd]; [reflexivity|apply Hh].
Qed.

Lemma local_only_Date_now : local_only (Date_now E).
Proof. intros l p w. reflexivity. Qed.

Lemma local_only_getItem : local_only getItem.
Proof. intros l p w. reflexivity. Qed.

Lemma local_only_setItem (i : item) : local_only (setItem i).
Proof. intros l p w. reflexivity. Qed.

#[local] Hint Resolve local_only_ret local_only_throw local_only_lift
  local_only_Date_now local_only_getItem local_only_setItem
  local_only_bind local_only_try_catch : local_only.
#[local] Hint Extern 1 (local_only (if ?b then _ else _)) =>
  destruct b : local_only.
#[local] Hint Extern 1 (local_only (match ?x with _ => _ end)) =>
  destruct x : local_only.

Lemma local_only_validated (parsed : value) : local_only (validated E parsed).
Proof. unfold validated. auto 20 with local_only nocore. Qed.

Lemma local_only_getUsageSync : local_only (getUsageSync E).
Proof.
  pose proof local_only_validated.
  unfold getUsageSync. auto 20 with local_only nocore.
Qed.

Lemma local_only_offlineUsage : local_only (offlineUsage E).
Proof.
  pose proof local_only_getUsageSync.
  unfold offlineUsage. auto 20 with local_only nocore.
Qed.

(** The continuations of an update work on the storage and the clock
    only: they commute with the requests [query] issues meanwhile. *)
Lemma local_only_getUsage_resume (s : value) : local_only (getUsage_resume E s).
Proof.
  pose proof local_only_offlineUsage.
  unfold getUsage_resume. auto 20 with local_only nocore.
Qed.

Lemma local_only_updateUsageFromServer_write (rateLimitInfo : value) (u : usage) :
  local_only (updateUsageFromServer_write E rateLimitInfo u).
Proof. unfold updateUsageFromServer_write. auto 20 with local_only nocore. Qed.

(** The log of requests has no effect on what is loaded. *)
Lemma getUsageSync_probed (w : world) :
  fst (getUsageSync E (probed E w)) = fst (getUsageSync E w).
Proof.
  change (probed E w)
    with (set_pending (pending w)
            (set_sent (List.app (sent w) [statusProbe E]) w)).
  rewrite local_only_getUsageSync. reflexivity.
Qed.

(** The limit of the object literal of [getUsageSync]. *)
Lemma validated_limit (parsed : value) (w w' : world) (u : usage) :
  validated E parsed w = (Ok u, w') ->
  exists x, get parsed "limit" = Ok x /\
    ((isNaN E x = Ok true /\ limit u = int 20) \/
     (isNaN E x = Ok false /\ limit u = x)).
Proof.
  unfold validated, bind, lift, ret, Date_now.
  destruct (get parsed "count") as [c|]; [|discriminate].
  destruct (isNaN E c) as [cn|]; [|discriminate].
  destruct (get parsed "timestamp") as [t|]; [|discriminate].
  destruct (isNaN E t) as [[|]|]; [| |discriminate];
    (destruct (get parsed "limit") as [x|]; [|discriminate];
     destruct (isNaN E x) as [ln|] eqn:Hx; [|discriminate];
     destruct (get parsed "serverSync") as [sy|]; [|discriminate];
     destruct (get parsed "serverResetTime") as [rt|]; [|discriminate];
     intros [= <- _]; exists x; split; [reflexivity|];
     destruct ln; [left|right]; (split; [exact Hx|reflexivity])).
Qed.

(** What [getUsageSync] returns as the limit: 20, or the [limit] of the
    stored record, which then converts to a number. *)
Lemma getUsageSync_limit (w : world) :
  exists u, fst (getUsageSync E w) = Ok u /\
    (limit u = int 20 \/
     exists v, storage w = Some (JsonText v) /\
               get v "limit" = Ok (limit u) /\
               isNaN E (limit u) = Ok false).
Proof.
  unfold getUsageSync, bind, getItem, try_catch, ret, Date_now, lift.
  destruct (storage w) as [[| |v]|] eqn:Hst; cbn [item_truthy JSON_parse];
    try (eexists; split; [reflexivity|left; reflexivity]).
  destruct (validated E v w) as [[u|e] w'] eqn:Hv;
    [|eexists; split; [reflexivity|left; reflexivity]].
  exists u. split; [reflexivity|].
  destruct (validated_limit v w w' u Hv) as (x & Hx & [[_ H20]|[Hn Hl]]).
  - left. exact H20.
  - right. exists v. subst x. repeat split; assumption.
Qed.

Lemma stored_limit_fine_loads (w : world) :
  stored_limit_fine w -> loads_positive E w.
Proof.
  intros Hf. destruct (getUsageSync_limit w) as (u & Hu & [H20|(v & Hst & Hx & Hn)]).
  - exists u. split; [exact Hu|]. exists 20. split; [exact H20|lia].
  - exists u. split; [exact Hu|].
    unfold stored_limit_fine in Hf. rewrite Hst, Hx in Hf.
    destruct Hf as [Hund|Hpos]; [|exact Hpos].
    rewrite Hund in Hn. discriminate.
Qed.

(** The [limit] of a stored snapshot whose limit is a number. *)
Lemma get_saved_limit (u : usage) (l : Z) :
  limit u = int l ->
  get (to_json (usage_object u)) "limit" = Ok (int l).
Proof.
  destruct u as [uc ut ul usy urt]. cbn [limit]. intros ->.
  unfold usage_object, int.
  destruct uc, ut; reflexivity.
Qed.

(** A snapshot stored with a positive limit loads with a positive
    limit. *)
Lemma saved_loads_positive (w : world) (u : usage) :
  storage w = saved u -> positive_limit u -> loads_positive E w.
Proof.
  intros Hst (l & Hl & Hpos). apply stored_limit_fine_loads.
  unfold stored_limit_fine. rewrite Hst. unfold saved, JSON_stringify.
  rewrite (get_saved_limit u l Hl). right. exists l. split; [reflexivity|exact Hpos].
Qed.

(** Without server data [getUsage] hands on what [getUsageSync] loads,
    with the two server fields overwritten. *)
Lemma getUsage_offline_loaded (w : world) :
  truthy (next_status E w) = false ->
  exists loaded w',
    fst (getUsageSync E w) = Ok loaded /\
    getUsage E w
    = (Ok (set_serverResetTime VNull (set_serverSync (VBool false) loaded)), w') /\
    storage w'
    = saved (set_serverResetTime VNull (set_serverSync (VBool false) loaded)).
Proof.
  intros Hoff. rewrite getUsage_split, getUsage_resume_offline by exact Hoff.
  rewrite <- getUsageSync_probed.
  destruct (getUsageSync_total E (probed E w)) as (u & w' & Hg & _ & _).
  exists u. eexists. rewrite Hg. split; [reflexivity|].
  unfold offlineUsage. rewrite (bind_ok _ _ _ _ _ Hg). split; reflexivity.
Qed.

(** [incrementUsage] keeps the limit [getUsage] returned. *)
Lemma incrementUsage_limit (w w' : world) (u : usage) :
  getUsage E w = (Ok u, w') ->
  exists u' w'', incrementUsage E w = (Ok u', w'') /\
                 limit u' = limit u /\ storage w'' = saved u'.
Proof.
  intros Hg. destruct (getUsage_coercible E w w' u Hg) as [Hc _].
  destruct (js_add_total E (count u) (int 1) Hc (coercible_int 1))
    as (c' & Hadd & _).
  exists (set_count c' u), (set_storage (saved (set_count c' u)) w').
  split; [|split; reflexivity].
  unfold incrementUsage. rewrite (bind_ok _ _ _ _ _ Hg).
  unfold bind at 1. unfold lift at 1. rewrite Hadd. reflexivity.
Qed.

(** With a status of two non-negative numeric counters [getUsage]
    returns and stores a positive limit. *)
Lemma getUsage_good_status (w : world) :
  good_status (next_status E w) ->
  exists u w', getUsage E w = (Ok u, w') /\ positive_limit u /\
               storage w' = saved u.
Proof.
  intros (Hs & a & r & Ha & Ha0 & Hr & Hr0).
  destruct (getUsage_numeric_status E w a r Hs Ha Hr) as (rt & _ & Hg).
  cbv zeta in Hg. eexists _, _. split; [exact Hg|]. split; [|reflexivity].
  exists (maxQueries a r). split; [reflexivity|].
  apply maxQueries_positive; assumption.
Qed.

End Limit.




(** ** A successful query *)

Lemma lookup_assign (k : string) (x : value) (props : list (string * value)) :
  lookup k (assign k x props) = Some x.
Proof.
  induction props as [|[k' v] rest IH]; cbn.
  - rewrite String.eqb_refl. reflexivity.
  - destruct (String.eqb k k') eqn:Hk; cbn; rewrite ?String.eqb_refl, ?Hk;
      [reflexivity|exact IH].
Qed.

Lemma js_ge_below (E : env) (c l : Z) :
  c < l -> js_ge E (int c) (int l) = Ok false.
Proof.
  intros H. unfold js_ge, IsLessThan, int. cbn.
  replace (c <? l) with true by (symmetry; apply Z.ltb_lt; exact H).
  reflexivity.
Qed.

Lemma ok_not_429 (status : Z) : ok status = true -> (status =? 429) = false.
Proof.
  unfold ok. intros H. apply andb_true_iff in H as [_ H].
  apply Z.leb_le in H. apply Z.eqb_neq. lia.
Qed.

Section Offline.

Variable E : env.

Lemma getUsage_offline_step (w : world) (c t l : Z) :
  truthy (next_status E w) = false ->
  holds_snapshot w c t l ->
  exists w', getUsage E w = (Ok (local c t l), w') /\
             storage w' = saved (local c t l) /\ step w w' 0 [statusProbe E].
Proof.
  intros Hs Hw. eexists. split; [apply getUsage_offline_snapshot; eassumption|].
  split; [reflexivity|]. repeat split.
Qed.

Lemma hasReachedLimit_offline_step (w : world) (c t l : Z) :
  truthy (next_status E w) = false ->
  holds_snapshot w c t l -> c < l ->
  exists w', hasReachedLimit E w = (Ok false, w') /\
             storage w' = saved (local c t l) /\ step w w' 0 [statusProbe E].
Proof.
  intros Hs Hw Hlt.
  destruct (getUsage_offline_step w c t l Hs Hw) as (w' & Hg & Hst & Hstep).
  exists w'. split; [|split; assumption].
  unfold hasReachedLimit. rewrite (bind_ok _ _ _ _ _ Hg).
  unfold lift. cbn [count limit local]. rewrite (js_ge_below E c l Hlt).
  reflexivity.
Qed.

Lemma incrementUsage_offline_step (w : world) (c t l : Z) :
  truthy (next_status E w) = false ->
  holds_snapshot w c t l ->
  exists w', incrementUsage E w = (Ok (local (c + 1) t l), w') /\
             storage w' = saved (local (c + 1) t l) /\
             step w w' 0 [statusProbe E].
Proof.
  intros Hs Hw.
  destruct (getUsage_offline_step w c t l Hs Hw) as (w' & Hg & Hst & Hstep).
  unfold incrementUsage. rewrite (bind_ok _ _ _ _ _ Hg).
  eexists. split; [reflexivity|]. split; [reflexivity|exact Hstep].
Qed.

Lemma step_length (w w' : world) (dt : nat) (reqs : list request) :
  step w w' dt reqs ->
  List.length (sent w') = (List.length (sent w) + List.length reqs)%nat.
Proof. intros (_ & Hs & _). rewrite Hs. apply List.length_app. Qed.

(** [apiRequest] on a 2xx answer whose body is an object: the body is
    returned, and a truthy [rate_limit] leaves one un-awaited update
    suspended on the probe it has issued. *)
Lemma apiRequest_answered (w : world) (message : value) (status : Z)
  (props : list (string * value)) :
  network E (List.length (sent w)) = Response status (Some (VObj props)) ->
  ok status = true ->
  let rate_limit := match lookup "rate_limit" props with
                    | Some x => x | None => VUndefined end in
  exists w',
    apiRequest E "/api/v1/query"
      {| opt_method := "POST"; opt_body := VObj [("query", message)] |} w
    = (Ok (VObj props), w') /\
    storage w' = storage w /\ ticks w' = ticks w /\
    if truthy rate_limit then
      sent w' = List.app (sent w) [queryPost E message; statusProbe E] /\
      pending w' = List.app (pending w)
                     [UpdateUsage rate_limit
                        (status_of (network E (S (List.length (sent w)))))]
    else
      sent w' = List.app (sent w) [queryPost E message] /\
      pending w' = pending w.
Proof.
  intros Hnet Hok rate_limit.
  unfold apiRequest, try_catch. unfold bind at 1. unfold fetch at 1.
  rewrite Hnet. cbn [opt_method opt_body].
  rewrite (ok_not_429 status Hok), Hok. cbn [negb].
  unfold bind at 1. unfold lift at 1. cbn [get]. fold rate_limit.
  destruct (truthy rate_limit) eqn:Hrl.
  - unfold bind at 1. unfold updateUsageFromServer_start, bind at 1.
    rewrite getRateLimitStatus_run.
    eexists. split; [reflexivity|]. cbn.
    split; [reflexivity|]. split; [reflexivity|]. split.
    + rewrite <- List.app_assoc. reflexivity.
    + unfold next_status. cbn. rewrite List.length_app. cbn.
      rewrite Nat.add_1_r. reflexivity.
  - eexists. split; [reflexivity|]. cbn. repeat split.
Qed.

Lemma resume_with_idle (run : list suspended -> M (list suspended)) (w : world) :
  run (pending w) (set_pending [] w) = (Ok (pending w), set_pending [] w) ->
  resume_with run w = (Ok tt, w).
Proof.
  unfold resume_with. intros ->. destruct w; reflexivity.
Qed.

Lemma resume_reconcile_nothing (w : world) :
  pending w = [] -> resume_reconcile E w = (Ok tt, w).
Proof.
  intros Hp. apply resume_with_idle. rewrite Hp. reflexivity.
Qed.

Lemma resume_reconcile_reconciled (w : world) (rateLimitInfo : value) (u : usage) :
  pending w = [UpdateWrite rateLimitInfo u] -> resume_reconcile E w = (Ok tt, w).
Proof.
  intros Hp. apply resume_with_idle. rewrite Hp. reflexivity.
Qed.

Lemma resume_write_nothing (w : world) :
  pending w = [] -> resume_write E w = (Ok tt, w).
Proof.
  intros Hp. apply resume_with_idle. rewrite Hp. reflexivity.
Qed.

Lemma resume_write_probing (w : world) (rateLimitInfo s : value) :
  pending w = [UpdateUsage rateLimitInfo s] -> resume_write E w = (Ok tt, w).
Proof.
  intros Hp. apply resume_with_idle. rewrite Hp. reflexivity.
Qed.

(** The [getUsage] of a suspended update continues without server data
    on a stored numeric snapshot: it stores the snapshot again, and the
    update waits for its last continuation. *)
Lemma resume_reconcile_probing (w : world) (rateLimitInfo s : value) (c t l : Z) :
  pending w = [UpdateUsage rateLimitInfo s] ->
  truthy s = false ->
  holds_snapshot w c t l ->
  exists w', resume_reconcile E w = (Ok tt, w') /\
             storage w' = saved (local c t l) /\
             pending w' = [UpdateWrite rateLimitInfo (local c t l)] /\
             ticks w' = ticks w /\ sent w' = sent w.
Proof.
  intros Hp Hs Hw.
  assert (Hw0 : holds_snapshot (set_pending [] w) c t l) by exact Hw.
  unfold resume_reconcile, resume_with. rewrite Hp. cbn [reconcile_all].
  unfold bind at 1. unfold try_catch.
  rewrite (bind_ok _ _ _ _ _
             (eq_trans (getUsage_resume_offline E s _ Hs)
                       (offlineUsage_snapshot E _ c t l Hw0))).
  eexists. split; [reflexivity|].
  split; [reflexivity|]. split; [reflexivity|]. split; reflexivity.
Qed.

(** The last continuation of an update that reconciled to a numeric
    snapshot: it stores [limit - remaining] as the count. *)
Lemma resume_write_reconciled (w : world) (rateLimitInfo : value) (c0 t l r : Z) :
  pending w = [UpdateWrite rateLimitInfo (local c0 t l)] ->
  truthy rateLimitInfo = true ->
  get rateLimitInfo "remaining" = Ok (int r) ->
  exists w', resume_write E w = (Ok tt, w') /\
             holds_snapshot w' (l - r) t l /\ pending w' = [] /\
             ticks w' = ticks w /\ sent w' = sent w.
Proof.
  intros Hp Hrl Hrem.
  destruct (get_truthy rateLimitInfo "reset_time" Hrl) as [rt Hrt].
  assert (Hrun : updateUsageFromServer_write E rateLimitInfo (local c0 t l)
                   (set_pending [] w)
                 = (Ok tt,
                    set_storage
                      (saved (set_serverResetTime rt
                                (set_count (int (l - r)) (local c0 t l))))
                      (set_pending [] w))).
  { unfold updateUsageFromServer_write.
    unfold bind at 1. unfold lift at 1. rewrite Hrem.
    unfold bind at 1. unfold lift at 1.
    cbn [js_sub ToNumber limit local int rbind num_sub].
    unfold bind at 1. unfold lift at 1. rewrite Hrt.
    reflexivity. }
  unfold resume_write, resume_with. rewrite Hp. cbn [write_all].
  unfold bind at 1. unfold try_catch. rewrite Hrun.
  eexists. split; [reflexivity|]. split.
  - eapply holds_snapshot_saved; [reflexivity| | |]; reflexivity.
  - split; [reflexivity|]. split; reflexivity.
Qed.

Lemma holds_snapshot_storage (w w' : world) (c t l : Z) :
  storage w' = storage w -> holds_snapshot w c t l -> holds_snapshot w' c t l.
Proof.
  intros Hst (u & Hu & Hf). exists u. split; [rewrite Hst; exact Hu|exact Hf].
Qed.

Lemma awaits_pending (p : progress) (rateLimitInfo s : value) (t l : Z)
  (w w' : world) :
  pending w' = pending w ->
  awaits p rateLimitInfo s t l w -> awaits p rateLimitInfo s t l w'.
Proof.
  intros Hp. destruct p; cbn [awaits]; rewrite Hp; exact (fun H => H).
Qed.

(** One place between two continuations of [query], while the probes
    fail and numeric snapshots are stored: the continuations of the
    update that are ready run, the first storing what is stored, the
    second storing [limit - remaining]. *)
Lemma turn_offline (resumes : schedule) (k : nat) (rateLimitInfo s : value)
  (t l r : Z) (st : progress * Z) (w : world) :
  truthy s = false ->
  truthy rateLimitInfo = true ->
  get rateLimitInfo "remaining" = Ok (int r) ->
  running rateLimitInfo s t l st w ->
  exists w', turn E resumes k w = (Ok tt, w') /\
             running rateLimitInfo s t l (after_turn resumes k (l - r) st) w' /\
             ticks w' = ticks w /\ sent w' = sent w.
Proof.
  intros Hs Hrl Hrem [Hw Hp]. destruct st as [p x]. cbn [fst snd] in Hw, Hp.
  unfold turn, after_turn. cbn [fst snd].
  destruct p; cbn [awaits] in Hp.
  - (* the probe of the update is unanswered *)
    destruct (reached (reconciles resumes) k).
    + destruct (resume_reconcile_probing w rateLimitInfo s x t l Hp Hs Hw)
        as (w1 & H1 & Hst1 & Hp1 & Htk1 & Hsn1).
      rewrite (bind_ok _ _ _ _ _ H1).
      destruct (reached (writes resumes) k).
      * destruct (resume_write_reconciled w1 rateLimitInfo x t l r Hp1 Hrl Hrem)
          as (w2 & H2 & Hw2 & Hp2 & Htk2 & Hsn2).
        exists w2. split; [exact H2|]. split; [split; assumption|].
        split; congruence.
      * exists w1. split; [reflexivity|]. split; [split|split; assumption].
        -- exists (local x t l). repeat split. exact Hst1.
        -- exists x. exact Hp1.
    + unfold bind at 1. unfold ret at 1.
      exists w. split; [|split; [split; assumption|split; reflexivity]].
      destruct (reached (writes resumes) k); [|reflexivity].
      exact (resume_write_probing w rateLimitInfo s Hp).
  - (* the update waits for its last continuation *)
    destruct Hp as [c0 Hp].
    assert (H1 : (if reached (reconciles resumes) k
                  then resume_reconcile E else ret tt) w = (Ok tt, w)).
    { destruct (reached (reconciles resumes) k); [|reflexivity].
      exact (resume_reconcile_reconciled w rateLimitInfo _ Hp). }
    rewrite (bind_ok _ _ _ _ _ H1).
    destruct (reached (writes resumes) k).
    + destruct (resume_write_reconciled w rateLimitInfo c0 t l r Hp Hrl Hrem)
        as (w2 & H2 & Hw2 & Hp2 & Htk2 & Hsn2).
      exists w2. split; [exact H2|]. split; [split; assumption|].
      split; assumption.
    + exists w. split; [reflexivity|].
      split; [split; [exact Hw|exists c0; exact Hp]|split; reflexivity].
  - (* no update is suspended *)
    assert (H1 : (if reached (reconciles resumes) k
                  then resume_reconcile E else ret tt) w = (Ok tt, w)).
    { destruct (reached (reconciles resumes) k); [|reflexivity].
      exact (resume_reconcile_nothing w Hp). }
    rewrite (bind_ok _ _ _ _ _ H1).
    exists w. split; [|split; [split; assumption|split; reflexivity]].
    destruct (reached (writes resumes) k); [|reflexivity].
    exact (resume_write_nothing w Hp).
Qed.

(** Once every suspended call has finished. *)
Lemma resume_pending_offline (rateLimitInfo s : value) (t l r : Z)
  (st : progress * Z) (w : world) :
  truthy s = false ->
  truthy rateLimitInfo = true ->
  get rateLimitInfo "remaining" = Ok (int r) ->
  running rateLimitInfo s t l st w ->
  holds_snapshot (snd (resume_pending E w)) (after_settling (l - r) st) t l.
Proof.
  intros Hs Hrl Hrem Hrun.
  destruct (turn_offline (atomically BeforeIncrement) 0 rateLimitInfo s t l r
              st w Hs Hrl Hrem Hrun) as (w' & Ht & [Hw' _] & _).
  change (turn E (atomically BeforeIncrement) 0) with (resume_pending E) in Ht.
  rewrite Ht. cbn [snd].
  destruct st as [[| |] x]; exact Hw'.
Qed.

End Offline.

(** A query that is let through and answered 2xx while every status probe
    fails, on a stored numeric snapshot inside its window. *)
Section SuccessfulQuery.

Variable E : env.
Variable w : world.
Variable message : value.
Variable status : Z.
Variable props : list (string * value).
Variables c t l : Z.

Hypothesis Hpending : pending w = [].
Hypothesis Hstored : holds_snapshot w c t l.
Hypothesis Hbelow : c < l.
Hypothesis Hwindow : clock E (ticks w) - t < 18000000.
Hypothesis Hprobes :
  forall k, k <> S (List.length (sent w)) ->
            truthy (status_of (network E k)) = false.
Hypothesis Hanswer :
  network E (S (List.length (sent w))) = Response status (Some (VObj props)).
Hypothesis Hok : ok status = true.

Local Abbreviation rate_limit := (rate_limit_of props).

Lemma probe_fails_at (w' : world) (j : nat) :
  List.length (sent w') = (List.length (sent w) + j)%nat -> j <> 1%nat ->
  truthy (next_status E w') = false.
Proof.
  intros Hlen Hj. unfold next_status. apply Hprobes. rewrite Hlen. lia.
Qed.

Lemma reported_count_assign (summary : value) (x : value) :
  get summary "count" = Ok x ->
  exists response,
    set (VObj props) "usage" summary = Ok response /\
    reported_count response = Ok x.
Proof.
  intros Hx. eexists. split; [reflexivity|].
  unfold reported_count. cbn [get rbind]. rewrite lookup_assign. exact Hx.
Qed.

(** The two steps every such query starts with: the limit check lets it
    through, and [apiRequest] returns the body, having started the
    update from a truthy [rate_limit] without awaiting it. *)
Lemma query_prefix :
  exists w1 w2,
    hasReachedLimit E w = (Ok false, w1) /\
    apiRequest E "/api/v1/query"
      {| opt_method := "POST"; opt_body := VObj [("query", message)] |} w1
    = (Ok (VObj props), w2) /\
    holds_snapshot w2 c t l /\ ticks w2 = ticks w /\
    (exists j, List.length (sent w2) = (List.length (sent w) + j)%nat /\
               (2 <= j)%nat) /\
    if truthy rate_limit
    then exists s, pending w2 = [UpdateUsage rate_limit s] /\ truthy s = false
    else pending w2 = [].
Proof.
  destruct (hasReachedLimit_offline_step E w c t l
              (probe_fails_at w 0 (eq_sym (Nat.add_0_r _)) ltac:(lia))
              Hstored Hbelow)
    as (w1 & H1 & Hst1 & Hstep1).
  pose proof (step_length _ _ _ _ Hstep1) as Hlen1. cbn [List.length] in Hlen1.
  destruct Hstep1 as (Htk1 & Hsn1 & Hpd1).
  assert (Hnet1 : network E (List.length (sent w1))
                  = Response status (Some (VObj props))).
  { rewrite Hlen1, Nat.add_1_r. exact Hanswer. }
  destruct (apiRequest_answered E w1 message status props Hnet1 Hok)
    as (w2 & H2 & Hst2 & Htk2 & Hrest2).
  fold rate_limit in Hrest2.
  exists w1, w2.
  split; [exact H1|]. split; [exact H2|]. split; [|split; [|split]].
  - exists (local c t l). rewrite Hst2, Hst1. repeat split.
  - rewrite Htk2, Htk1. reflexivity.
  - destruct (truthy rate_limit); destruct Hrest2 as (Hsn2 & _).
    + exists 3%nat. split; [|lia]. rewrite Hsn2, List.length_app, Hlen1. cbn. lia.
    + exists 2%nat. split; [|lia]. rewrite Hsn2, List.length_app, Hlen1. cbn. lia.
  - destruct (truthy rate_limit); destruct Hrest2 as (_ & Hpd2).
    + exists (status_of (network E (S (List.length (sent w1))))). split.
      * rewrite Hpd2, Hpd1, Hpending. reflexivity.
      * apply Hprobes. rewrite Hlen1. lia.
    + rewrite Hpd2, Hpd1. exact Hpending.
Qed.

(** What follows [apiRequest] in [query], from a world in which an
    update started with [rateLimitInfo] has come as far as [p0]. *)
Lemma query_continuations (resumes : schedule) (rateLimitInfo s : value)
  (r : Z) (p0 : progress) (w2 : world) :
  truthy s = false ->
  truthy rateLimitInfo = true ->
  get rateLimitInfo "remaining" = Ok (int r) ->
  running rateLimitInfo s t l (p0, c) w2 ->
  ticks w2 = ticks w ->
  (exists j, List.length (sent w2) = (List.length (sent w) + j)%nat /\
             (2 <= j)%nat) ->
  exists response w',
    (turn E resumes 0 ;;;
     u <- getUsage E ;;
     turn E resumes 1 ;;;
     u <- incrementUsage_resume E u ;;
     turn E resumes 2 ;;;
     remaining <- lift (js_sub E (limit u) (count u)) ;;
     u' <- getUsage E ;;
     turn E resumes 3 ;;;
     timeRemaining <- timeUntilResetOf E u' ;;
     lift (set (VObj props) "usage"
             (VObj [("count", count u); ("limit", limit u);
                    ("remaining", VNum remaining);
                    ("resetTime", VStr (formatTime timeRemaining))]))) w2
    = (Ok response, w') /\
    reported_count response = Ok (int (reported_after resumes p0 c (l - r))) /\
    holds_snapshot (snd (resume_pending E w'))
      (stored_after resumes p0 c (l - r)) t l.
Proof.
  intros Hs Hrl Hrem Hrun2 Htk2 (j & Hlen2 & Hj).
  unfold reported_after, stored_after. cbv zeta.
  set (st1 := after_turn resumes 0 (l - r) (p0, c)).
  set (st2 := after_turn resumes 1 (l - r) st1).
  set (st3 := after_turn resumes 2 (l - r) (fst st2, snd st1 + 1)).
  set (st4 := after_turn resumes 3 (l - r) st3).
  (* the first place *)
  destruct (turn_offline E resumes 0 rateLimitInfo s t l r _ w2 Hs Hrl Hrem Hrun2)
    as (wa & Ha & Hruna & Htka & Hsna).
  fold st1 in Hruna.
  (* getUsage of incrementUsage *)
  assert (Hlena : List.length (sent wa) = (List.length (sent w) + j)%nat)
    by (rewrite Hsna; exact Hlen2).
  destruct (getUsage_offline_step E wa (snd st1) t l
              (probe_fails_at wa j Hlena ltac:(lia)) (proj1 Hruna))
    as (wb & Hb & Hstb & Htkb & Hsnb & Hpdb).
  assert (Hrunb : running rateLimitInfo s t l st1 wb).
  { split.
    - exists (local (snd st1) t l). repeat split. exact Hstb.
    - exact (awaits_pending _ _ _ _ _ wa wb Hpdb (proj2 Hruna)). }
  (* the second place *)
  destruct (turn_offline E resumes 1 rateLimitInfo s t l r _ wb Hs Hrl Hrem Hrunb)
    as (wc & Hc & Hrunc & Htkc & Hsnc).
  fold st2 in Hrunc.
  (* the rest of incrementUsage *)
  set (wd := set_storage (saved (local (snd st1 + 1) t l)) wc).
  assert (Hd : incrementUsage_resume E (local (snd st1) t l) wc
               = (Ok (local (snd st1 + 1) t l), wd)) by reflexivity.
  assert (Hrund : running rateLimitInfo s t l (fst st2, snd st1 + 1) wd).
  { split.
    - exists (local (snd st1 + 1) t l). repeat split.
    - exact (awaits_pending _ _ _ _ _ wc wd eq_refl (proj2 Hrunc)). }
  (* the third place *)
  destruct (turn_offline E resumes 2 rateLimitInfo s t l r _ wd Hs Hrl Hrem Hrund)
    as (we & He & Hrune & Htke & Hsne).
  fold st3 in Hrune.
  (* getUsage of getTimeUntilReset *)
  assert (Hlene : List.length (sent we) = (List.length (sent w) + (j + 1))%nat).
  { rewrite Hsne. change (sent wd) with (sent wc).
    rewrite Hsnc, Hsnb, List.length_app, Hlena. cbn. lia. }
  destruct (getUsage_offline_step E we (snd st3) t l
              (probe_fails_at we (j + 1) Hlene ltac:(lia)) (proj1 Hrune))
    as (wf & Hf & Hstf & Htkf & Hsnf & Hpdf).
  assert (Hrunf : running rateLimitInfo s t l st3 wf).
  { split.
    - exists (local (snd st3) t l). repeat split. exact Hstf.
    - exact (awaits_pending _ _ _ _ _ we wf Hpdf (proj2 Hrune)). }
  (* the fourth place *)
  destruct (turn_offline E resumes 3 rateLimitInfo s t l r _ wf Hs Hrl Hrem Hrunf)
    as (wg & Hg & Hrung & Htkg & Hsng).
  fold st4 in Hrung.
  (* the rest of getTimeUntilReset *)
  assert (Htk : ticks wg = ticks w).
  { rewrite Htkg, Htkf, Htke. change (ticks wd) with (ticks wc).
    rewrite Htkc, Htkb, Htka. exact Htk2. }
  set (wh := set_ticks (S (ticks w)) wg).
  assert (Hh : timeUntilResetOf E (local (snd st3) t l) wg
               = (Ok (Fin (18000000 - (clock E (ticks w) - t))), wh)).
  { rewrite (timeUntilResetOf_local E (local (snd st3) t l) wg t);
      try reflexivity.
    rewrite Htk.
    replace (18000000 - (clock E (ticks w) - t) <=? 0) with false
      by (symmetry; apply Z.leb_gt; lia).
    reflexivity. }
  assert (Hrunh : running rateLimitInfo s t l st4 wh).
  { split.
    - exact (holds_snapshot_storage wg wh _ _ _ eq_refl (proj1 Hrung)).
    - exact (awaits_pending _ _ _ _ _ wg wh eq_refl (proj2 Hrung)). }
  destruct (reported_count_assign
              (VObj [("count", int (snd st1 + 1));
                     ("limit", int l);
                     ("remaining", VNum (Fin (l - (snd st1 + 1))));
                     ("resetTime", VStr (formatTime
                        (Fin (18000000 - (clock E (ticks w) - t)))))])
              (int (snd st1 + 1)) eq_refl)
    as (response & Hset & Hrep).
  exists response, wh. split; [|split; [exact Hrep|]].
  - rewrite (bind_ok _ _ _ _ _ Ha).
    rewrite (bind_ok _ _ _ _ _ Hb).
    rewrite (bind_ok _ _ _ _ _ Hc).
    rewrite (bind_ok _ _ _ _ _ Hd).
    rewrite (bind_ok _ _ _ _ _ He).
    unfold bind at 1. unfold lift at 1.
    cbn [js_sub ToNumber limit count local int rbind num_sub].
    rewrite (bind_ok _ _ _ _ _ Hf).
    rewrite (bind_ok _ _ _ _ _ Hg).
    rewrite (bind_ok _ _ _ _ _ Hh).
    unfold lift. rewrite Hset. reflexivity.
  - exact (resume_pending_offline E rateLimitInfo s t l r st4 wh Hs Hrl Hrem Hrunh).
Qed.

(** Such a query returns the body with the usage summary attached; what
    it reports and what is stored once every suspended call has finished
    follow from the place of the update's write. *)
Lemma query_offline_outcome (resumes : schedule) :
  (truthy rate_limit = false ->
   exists response,
     fst (query E message resumes w) = Ok response /\
     reported_count response = Ok (int (c + 1)) /\
     holds_snapshot (settled E message resumes w) (c + 1) t l) /\
  (forall r,
     truthy rate_limit = true ->
     get rate_limit "remaining" = Ok (int r) ->
     exists response,
       fst (query E message resumes w) = Ok response /\
       reported_count response
       = Ok (int (reported_after resumes Probing c (l - r))) /\
       holds_snapshot (settled E message resumes w)
         (stored_after resumes Probing c (l - r)) t l).
Proof.
  destruct query_prefix as (w1 & w2 & H1 & H2 & Hw2 & Htk2 & Hlen2 & Hpd2).
  assert (Hq : forall response w',
            (turn E resumes 0 ;;;
             u <- getUsage E ;;
             turn E resumes 1 ;;;
             u <- incrementUsage_resume E u ;;
             turn E resumes 2 ;;;
             remaining <- lift (js_sub E (limit u) (count u)) ;;
             u' <- getUsage E ;;
             turn E resumes 3 ;;;
             timeRemaining <- timeUntilResetOf E u' ;;
             lift (set (VObj props) "usage"
                     (VObj [("count", count u); ("limit", limit u);
                            ("remaining", VNum remaining);
                            ("resetTime", VStr (formatTime timeRemaining))]))) w2
            = (Ok response, w') ->
            query E message resumes w = (Ok response, w')).
  { intros response w' Hc. unfold query.
    rewrite (bind_ok _ _ _ _ _ H1). cbv beta iota.
    apply try_catch_ok. rewrite (bind_ok _ _ _ _ _ H2). exact Hc. }
  split.
  - intros Hrl. rewrite Hrl in Hpd2.
    destruct (query_continuations resumes
                (VObj [("remaining", int 0)]) VNull 0 Written w2
                eq_refl eq_refl eq_refl (conj Hw2 Hpd2) Htk2 Hlen2)
      as (response & w' & Hc & Hrep & Hst).
    exists response. unfold settled. rewrite (Hq _ _ Hc). cbn [fst snd].
    split; [reflexivity|]. split; [exact Hrep|exact Hst].
  - intros r Hrl Hrem. rewrite Hrl in Hpd2. destruct Hpd2 as (s & Hpd2 & Hs).
    destruct (query_continuations resumes rate_limit s r Probing w2
                Hs Hrl Hrem (conj Hw2 Hpd2) Htk2 Hlen2)
      as (response & w' & Hc & Hrep & Hst).
    exists response. unfold settled. rewrite (Hq _ _ Hc). cbn [fst snd].
    split; [reflexivity|]. split; [exact Hrep|exact Hst].
Qed.

End SuccessfulQuery.

(** The outcomes by the place of the update's write. *)
Lemma outcome_by_schedule (resumes : schedule) (c replaced : Z) :
  (written_at resumes = 0%nat ->
   reported_after resumes Probing c replaced = replaced + 1 /\
   stored_after resumes Probing c replaced = replaced + 1) /\
  (written_at resumes = 1%nat ->
   reported_after resumes Probing c replaced = c + 1 /\
   stored_after resumes Probing c replaced = c + 1) /\
  ((2 <= written_at resumes)%nat ->
   reported_after resumes Probing c replaced = c + 1 /\
   stored_after resumes Probing c replaced = replaced).
Proof.
  destruct resumes as [[| | | |] [| | | |]];
    unfold written_at; cbn [rank reconciles writes Nat.max];
    (split; [|split]); intros H; try discriminate H;
    try (exfalso; lia); split; reflexivity.
Qed.




(** * Further properties of the engine *)

(** ** Operations that never throw *)

(** X1. [getRateLimitStatus] never throws: whatever the network does it
    issues exactly one GET of the status endpoint, touches neither the
    storage nor the clock, and returns the decoded body of a 2xx answer
    and [null] in every other case. *)
Theorem getRateLimitStatus_never_throws (E : env) (w : world) :
  exists v,
    getRateLimitStatus E w
    = (Ok v, set_sent (List.app (sent w) [statusProbe E]) w) /\
    match network E (List.length (sent w)) with
    | Response status (Some data) => v = if ok status then data else VNull
    | _ => v = VNull
    end.
Proof.
  exists (next_status E w). split; [apply getRateLimitStatus_run|].
  unfold next_status, status_of.
  destruct (network E (List.length (sent w))) as [|status [data|]]; reflexivity.
Qed.

(** X2. [getUsageSync] and [hasReachedLimitSync] never throw and never
    write: for every stored record they return a snapshot, respectively a
    boolean, and leave the storage, the request log and the suspended
    calls as they were. *)
Theorem sync_reads_never_throw_nor_write (E : env) (w : world) :
  (exists u w', getUsageSync E w = (Ok u, w') /\ only_ticks w w') /\
  (exists b w', hasReachedLimitSync E w = (Ok b, w') /\ only_ticks w w').
Proof.
  destruct (getUsageSync_total E w) as (u & w' & Hg & Hw & _).
  split; [now exists u, w'|].
  destruct (getUsageSync_coercible E w w' u Hg) as [Hc Hl].
  destruct (js_ge_total E _ _ Hc Hl) as [b Hb].
  exists b, w'. split; [|exact Hw].
  unfold hasReachedLimitSync. rewrite (bind_ok _ _ _ _ _ Hg).
  unfold lift. rewrite Hb. reflexivity.
Qed.

(** X3. [getUsage], [hasReachedLimit] and [incrementUsage] never throw,
    whatever is stored and whatever the server answers; each issues
    exactly one status probe, and [getUsage] and [incrementUsage] leave in
    the storage the snapshot they return. *)
Theorem async_usage_never_throws (E : env) (w : world) :
  (exists u w', getUsage E w = (Ok u, w') /\ storage w' = saved u /\
                sent w' = List.app (sent w) [statusProbe E]) /\
  (exists b w', hasReachedLimit E w = (Ok b, w') /\
                sent w' = List.app (sent w) [statusProbe E]) /\
  (exists u w', incrementUsage E w = (Ok u, w') /\ storage w' = saved u /\
                sent w' = List.app (sent w) [statusProbe E]).
Proof.
  destruct (getUsage_total E w) as (u & w' & Hg & Hst & Hsn & _ & _).
  destruct (getUsage_coercible E w w' u Hg) as [Hc Hl].
  split; [|split].
  - now exists u, w'.
  - destruct (js_ge_total E _ _ Hc Hl) as [b Hb].
    exists b, w'. split; [|exact Hsn].
    unfold hasReachedLimit. rewrite (bind_ok _ _ _ _ _ Hg).
    unfold lift. rewrite Hb. reflexivity.
  - destruct (js_add_total E (count u) (int 1) Hc (coercible_int 1))
      as (c' & Hadd & _).
    eexists _, _. split; [|split].
    + unfold incrementUsage. rewrite (bind_ok _ _ _ _ _ Hg).
      unfold bind at 1. unfold lift at 1. rewrite Hadd. reflexivity.
    + reflexivity.
    + exact Hsn.
Qed.

(** ** Loading *)

(** X4. When the stored text holds no record (no item, empty text, text
    that is not JSON, or the JSON text of [null], a boolean, a number, a
    string or an array), [getUsageSync] returns count 0, limit 20,
    [serverSync] false, no server reset time, and the current clock
    reading as timestamp. *)
Theorem getUsageSync_defaults_without_record (E : env) (w : world) :
  no_record w ->
  exists u,
    getUsageSync E w = (Ok u, set_ticks (S (ticks w)) w) /\
    count u = int 0 /\ limit u = int 20 /\
    timestamp u = int (clock E (ticks w)) /\
    serverSync u = VBool false /\ truthy (serverResetTime u) = false.
Proof.
  unfold no_record, getUsageSync. unfold bind at 1. unfold getItem at 1.
  destruct (storage w) as [[| |v]|].
  - intros _. eexists. split; [reflexivity|]. repeat split.
  - intros _. eexists. split; [reflexivity|]. repeat split.
  - destruct v as [| |b|n|s|elems [|x extra]|props]; intros H;
      try contradiction;
      (eexists; split; [reflexivity|]; repeat split).
  - intros _. eexists. split; [reflexivity|]. repeat split.
Qed.

Lemma getUsageSync_defaults_without_record_witness :
  exists u,
    getUsageSync (unreachable 1000) (initially (Some CorruptText))
    = (Ok u, set_ticks 1 (initially (Some CorruptText))) /\
    count u = int 0 /\ limit u = int 20 /\
    timestamp u = int 1000 /\
    serverSync u = VBool false /\ truthy (serverResetTime u) = false.
Proof.
  apply (getUsageSync_defaults_without_record (unreachable 1000)
           (initially (Some CorruptText))).
  exact I.
Defined.

(** X5. The three numeric fields are defaulted one by one: in a stored
    object where each of count, timestamp and limit is a number or is
    missing, a missing count loads as 0, a missing limit as 20, a missing
    timestamp as the current clock reading, and every field present
    loads as it is. *)
Theorem getUsageSync_defaults_each_field (E : env) (w : world)
  (c t l : option Z) :
  exists w',
    getUsageSync E (set_storage (Some (JsonText (record_of c t l))) w)
    = (Ok {| count := int (default 0 c);
             timestamp := int (default (clock E (ticks w)) t);
             limit := int (default 20 l);
             serverSync := VBool false; serverResetTime := VNull |}, w') /\
    only_ticks (set_storage (Some (JsonText (record_of c t l))) w) w'.
Proof.
  destruct c, t, l; eexists; (split; [reflexivity|repeat split]).
Qed.

Lemma getUsageSync_well_formed (E : env) (w : world) (u : usage) :
  well_formed u ->
  storage w = saved u ->
  getUsageSync E w = (Ok u, w).
Proof.
  intros ([c Hc] & [t Ht] & [l Hl] & [b Hb] & Hr) Hst.
  destruct u as [uc ut ul usy urt]. cbn in Hc, Ht, Hl, Hb, Hr.
  subst uc ut ul usy.
  unfold getUsageSync. unfold bind at 1. unfold getItem at 1. rewrite Hst.
  destruct Hr as [-> | (a & s & ->)]; destruct b; reflexivity.
Qed.

(** X6. What the engine stores it loads back unchanged: for a snapshot
    with numeric count, timestamp and limit, a boolean [serverSync] and a
    [serverResetTime] that is [null] or a non-empty string, storing the
    snapshot and calling [getUsageSync] returns that snapshot, and
    [hasReachedLimitSync] then compares its count with its limit. *)
Theorem getUsageSync_after_save (E : env) (w : world) (u : usage) (c l : Z) :
  well_formed u ->
  count u = int c -> limit u = int l ->
  (setItem (JSON_stringify (usage_object u)) ;;; getUsageSync E) w
  = (Ok u, set_storage (saved u) w) /\
  (setItem (JSON_stringify (usage_object u)) ;;; hasReachedLimitSync E) w
  = (Ok (l <=? c), set_storage (saved u) w).
Proof.
  intros Hu Hc Hl.
  assert (Hload : getUsageSync E (set_storage (saved u) w)
                  = (Ok u, set_storage (saved u) w))
    by (apply getUsageSync_well_formed; [exact Hu|reflexivity]).
  split.
  - unfold bind at 1. unfold setItem at 1. exact Hload.
  - unfold bind at 1. unfold setItem at 1.
    unfold hasReachedLimitSync. fold (saved u).
    rewrite (bind_ok _ _ _ _ _ Hload). unfold lift. rewrite Hc, Hl.
    unfold js_ge, IsLessThan, int. cbn [ToPrimitive rbind ToNumber num_lt].
    rewrite Z.leb_antisym. destruct (c <? l); reflexivity.
Qed.

Lemma getUsageSync_after_save_witness :
  (setItem (JSON_stringify (usage_object (local 5 900 20))) ;;;
   getUsageSync (unreachable 1000)) (initially None)
  = (Ok (local 5 900 20), set_storage (saved (local 5 900 20)) (initially None)) /\
  (setItem (JSON_stringify (usage_object (local 5 900 20))) ;;;
   hasReachedLimitSync (unreachable 1000)) (initially None)
  = (Ok (20 <=? 5), set_storage (saved (local 5 900 20)) (initially None)).
Proof.
  apply (getUsageSync_after_save (unreachable 1000) (initially None)
           (local 5 900 20) 5 20).
  - repeat split; try (eexists; reflexivity). left. reflexivity.
  - reflexivity.
  - reflexivity.
Defined.

(** ** The time until reset and its text *)

(** X7. The text of the time remaining: "Available now" for 0 and for
    NaN; below one hour the whole minutes followed by "m", which is "0m"
    under a minute; from one hour on the whole hours and the minutes of
    the started hour, always between 0 and 59. *)
Theorem formatTime_text (t : Z) :
  formatTime NaN = "Available now" /\
  formatTime (Fin 0) = "Available now" /\
  (0 < t < 3600000 ->
   formatTime (Fin t) = string_of_Z (t / 60000) ++ "m" /\ 0 <= t / 60000 < 60) /\
  (0 < t < 60000 -> formatTime (Fin t) = "0m") /\
  (3600000 <= t ->
   formatTime (Fin t)
   = string_of_Z (t / 3600000) ++ "h "
     ++ string_of_Z (t mod 3600000 / 60000) ++ "m" /\
   0 <= t mod 3600000 / 60000 < 60).
Proof.
  assert (Hsmall : 0 < t < 3600000 ->
            formatTime (Fin t) = string_of_Z (t / 60000) ++ "m").
  { intros Ht. unfold formatTime.
    change (60 * 60 * 1000) with 3600000. change (60 * 1000) with 60000.
    replace (t =? 0) with false by (symmetry; apply Z.eqb_neq; lia).
    rewrite (Z.div_small t 3600000) by lia.
    rewrite (Z.rem_small t 3600000) by lia. reflexivity. }
  split; [reflexivity|]. split; [reflexivity|]. split; [|split].
  - intros Ht. split; [exact (Hsmall Ht)|].
    split; [apply Z.div_pos; lia | apply Z.div_lt_upper_bound; lia].
  - intros Ht. rewrite Hsmall by lia.
    rewrite (Z.div_small t 60000) by lia. reflexivity.
  - intros Ht. split.
    + unfold formatTime.
      change (60 * 60 * 1000) with 3600000. change (60 * 1000) with 60000.
      replace (t =? 0) with false by (symmetry; apply Z.eqb_neq; lia).
      replace (0 <? t / 3600000) with true
        by (symmetry; apply Z.ltb_lt; apply Z.div_str_pos; lia).
      rewrite Z.rem_mod_nonneg by lia. reflexivity.
    + pose proof (Z.mod_pos_bound t 3600000 ltac:(lia)).
      split; [apply Z.div_pos; lia | apply Z.div_lt_upper_bound; lia].
Qed.

Lemma formatTime_text_witness :
  formatTime (Fin 17999100) = "4h 59m" /\ formatTime (Fin 59999) = "0m".
Proof.
  split.
  - rewrite (proj1 (proj2 (proj2 (proj2 (proj2 (formatTime_text 17999100))))
               ltac:(lia))).
    vm_compute. reflexivity.
  - apply (proj1 (proj2 (proj2 (proj2 (formatTime_text 59999))))). lia.
Defined.

(** X8. Without server data and on a stored numeric snapshot,
    [getTimeUntilReset] returns [max(0, 18000000 - (now - timestamp))];
    when the stored timestamp is not in the future this is at most five
    hours. *)
Theorem getTimeUntilReset_offline_value (E : env) (w : world) (c t l : Z) :
  holds_snapshot w c t l ->
  truthy (next_status E w) = false ->
  exists z w',
    getTimeUntilReset E w = (Ok (Fin z), w') /\
    z = Z.max 0 (18000000 - (clock E (ticks w) - t)) /\
    (t <= clock E (ticks w) -> z <= 18000000).
Proof.
  intros Hw Hs.
  unfold getTimeUntilReset.
  rewrite (bind_ok _ _ _ _ _ (getUsage_offline_snapshot E w c t l Hs Hw)).
  rewrite (timeUntilResetOf_local E (local c t l) _ t); try reflexivity.
  cbn [ticks set_storage probed set_sent].
  destruct (Z.leb_spec (18000000 - (clock E (ticks w) - t)) 0).
  - eexists _, _. split; [reflexivity|]. split; lia.
  - eexists _, _. split; [reflexivity|]. split; lia.
Qed.

Lemma getTimeUntilReset_offline_value_witness :
  exists z w',
    getTimeUntilReset (unreachable 1000) (initially (saved (local 5 900 20)))
    = (Ok (Fin z), w') /\
    z = Z.max 0 (18000000 - (clock (unreachable 1000)
                               (ticks (initially (saved (local 5 900 20)))) - 900)) /\
    (900 <= clock (unreachable 1000) (ticks (initially (saved (local 5 900 20))))
     -> z <= 18000000).
Proof.
  apply (getTimeUntilReset_offline_value (unreachable 1000)
           (initially (saved (local 5 900 20))) 5 900 20).
  - exists (local 5 900 20). repeat split.
  - reflexivity.
Defined.

(** X9. The server's reset time has precedence over the local window: on
    a stored snapshot marked [serverSync] whose [serverResetTime] is a
    string other than the two sentinels that [Date.parse] reads as a
    valid instant, [getTimeUntilResetSync] returns
    [max(0, instant - now)] and leaves the storage as it is, however old
    the stored timestamp. *)
Theorem getTimeUntilResetSync_server_time (E : env) (w : world)
  (c t l instant : Z) (a : ascii) (s : string) :
  storage w = saved {| count := int c; timestamp := int t; limit := int l;
                       serverSync := VBool true;
                       serverResetTime := VStr (String a s) |} ->
  String a s <> "N/A" ->
  String a s <> "Window expired - resets on next query" ->
  Date_parse E (String a s) = Fin instant ->
  Z.abs instant <= 8640000000000000 ->
  getTimeUntilResetSync E w
  = (Ok (Fin (Z.max 0 (instant - clock E (ticks w)))),
     set_ticks (S (ticks w)) w).
Proof.
  intros Hst Hna Hexp Hparse Hclip.
  assert (Hload : getUsageSync E w
                  = (Ok {| count := int c; timestamp := int t; limit := int l;
                           serverSync := VBool true;
                           serverResetTime := VStr (String a s) |}, w)).
  { apply getUsageSync_well_formed; [|exact Hst].
    repeat split; try (eexists; reflexivity).
    right. exists a, s. reflexivity. }
  unfold getTimeUntilResetSync. rewrite (bind_ok _ _ _ _ _ Hload).
  apply timeUntilResetOf_server.
  unfold serverResetInstant. cbn [serverResetTime serverSync truthy strict_ne].
  apply String.eqb_neq in Hna, Hexp. rewrite Hna, Hexp.
  cbn [String.eqb negb andb]. unfold Date_getTime. cbn [ToPrimitive rbind].
  rewrite Hparse. unfold TimeClip.
  replace (Z.abs instant <=? 8640000000000000) with true
    by (symmetry; apply Z.leb_le; exact Hclip).
  reflexivity.
Qed.

Lemma getTimeUntilResetSync_server_time_witness :
  let u := {| count := int 20; timestamp := int 0; limit := int 20;
              serverSync := VBool true;
              serverResetTime := VStr "2025-01-01T05:00:00" |} in
  getTimeUntilResetSync (dated 90000000 90600000) (initially (saved u))
  = (Ok (Fin (Z.max 0 (90600000 - clock (dated 90000000 90600000)
                                    (ticks (initially (saved u)))))),
     set_ticks 1 (initially (saved u))).
Proof.
  intros u.
  apply (getTimeUntilResetSync_server_time (dated 90000000 90600000)
           (initially (saved u)) 20 0 20 90600000 "2"%char
           "025-01-01T05:00:00").
  - reflexivity.
  - discriminate.
  - discriminate.
  - reflexivity.
  - vm_compute. discriminate.
Defined.

(** X10. While the server reports no usable reset time (a missing or
    empty one, or one of the two sentinels), the countdown restarts at
    every call: [getUsage] stamps the snapshot with the current clock
    reading, so [getTimeUntilReset] returns five hours less the time
    between its two clock readings. *)
Theorem getTimeUntilReset_restarts_without_reset_time
  (E : env) (w : world) (a r : Z) (reset_time : value) :
  truthy (next_status E w) = true ->
  get (next_status E w) "queries_used" = Ok (int a) ->
  get (next_status E w) "queries_remaining" = Ok (int r) ->
  get (next_status E w) "reset_time" = Ok reset_time ->
  no_reset_time reset_time ->
  exists w',
    getTimeUntilReset E w
    = (Ok (Fin (Z.max 0 (18000000
                         - (clock E (S (ticks w)) - clock E (ticks w))))), w').
Proof.
  intros Hs Ha Hr Hrt Hno.
  destruct (getUsage_numeric_status E w a r Hs Ha Hr) as (rt & Hrt' & Hg).
  rewrite Hrt in Hrt'. injection Hrt' as <-.
  unfold getTimeUntilReset. rewrite (bind_ok _ _ _ _ _ Hg).
  rewrite (timeUntilResetOf_local E _ _ (clock E (ticks w))).
  - cbn [ticks set_storage set_ticks probed set_sent].
    destruct (Z.leb_spec (18000000 - (clock E (S (ticks w)) - clock E (ticks w))) 0).
    + eexists. rewrite Z.max_l by lia. reflexivity.
    + eexists. rewrite Z.max_r by lia. reflexivity.
  - unfold serverResetInstant. cbn [serverResetTime serverSync].
    destruct Hno as [Hf | [-> | ->]]; [rewrite Hf|..]; reflexivity.
  - reflexivity.
Qed.

Lemma getTimeUntilReset_restarts_without_reset_time_witness :
  let status := VObj [("queries_used", int 3); ("queries_remaining", int 17);
                      ("reset_time", VStr "N/A")] in
  exists w',
    getTimeUntilReset (answering 1000 status) (initially None)
    = (Ok (Fin (Z.max 0 (18000000
                         - (clock (answering 1000 status) 1
                            - clock (answering 1000 status) 0)))), w').
Proof.
  intros status.
  apply (getTimeUntilReset_restarts_without_reset_time (answering 1000 status)
           (initially None) 3 17 (VStr "N/A")); try reflexivity.
  right. left. reflexivity.
Defined.

(** ** Requests that fail *)

Lemma throw_Error_run {A} (v : value) (w : world) :
  exists e, @throw_Error A v w = (Throw e, w).
Proof.
  unfold throw_Error, bind, lift, throw.
  destruct (ToString v); eexists; reflexivity.
Qed.

Lemma throw_Error_string {A} (s : string) (w : world) :
  @throw_Error A (VStr s) w = (Throw (Error s), w).
Proof. reflexivity. Qed.

Lemma apiRequest_failed (E : env) (endpoint : string) (opts : options)
  (w : world) :
  failed (network E (List.length (sent w))) = true ->
  exists e,
    apiRequest E endpoint opts w
    = (Throw e, set_sent (List.app (sent w) [requestOf E endpoint opts]) w).
Proof.
  intros Hf. unfold apiRequest, try_catch. unfold bind at 1. unfold fetch at 1.
  fold (requestOf E endpoint opts).
  set (w1 := set_sent (List.app (sent w) [requestOf E endpoint opts]) w).
  destruct (network E (List.length (sent w))) as [|status [data|]];
    cbn [failed] in Hf.
  - eexists. reflexivity.
  - rewrite Hf.
    destruct (status =? 429).
    + unfold bind at 1. unfold lift at 1.
      destruct (get data "detail") as [detail|]; [|eexists; reflexivity].
      unfold bind at 1.
      assert (Hm : exists r, (match detail with
                              | VUndefined | VNull => ret VUndefined
                              | _ => lift (get detail "message")
                              end) w1 = (r, w1))
        by (destruct detail; eexists; reflexivity).
      destruct Hm as [[message|e] ->]; [|eexists; reflexivity].
      destruct (throw_Error_run (A := value)
                  (js_or message
                     (VStr "Rate limit exceeded. Please try again later.")) w1)
        as [e ->].
      eexists. reflexivity.
    + unfold bind at 1. unfold lift at 1.
      destruct (get data "detail") as [detail|]; [|eexists; reflexivity].
      destruct (throw_Error_run (A := value)
                  (js_or detail
                     (VStr ("HTTP error! status: " ++ string_of_Z status))) w1)
        as [e ->].
      eexists. reflexivity.
  - eexists. reflexivity.
Qed.

(** X11. A request that fails changes nothing but the request log: when
    the network gives no answer, an answer whose body does not decode, or
    a status outside 2xx, [apiRequest] throws, having issued exactly its
    one request; the stored usage, the clock and the suspended calls are
    as before, and no update from the server is started. *)
Theorem apiRequest_failure_leaves_usage (E : env) (endpoint : string)
  (opts : options) (w : world) :
  failed (network E (List.length (sent w))) = true ->
  exists e w',
    apiRequest E endpoint opts w = (Throw e, w') /\
    storage w' = storage w /\ ticks w' = ticks w /\
    pending w' = pending w /\
    sent w' = List.app (sent w) [requestOf E endpoint opts].
Proof.
  intros Hf. destruct (apiRequest_failed E endpoint opts w Hf) as [e He].
  eexists _, _. split; [exact He|]. repeat split.
Qed.

Lemma apiRequest_failure_leaves_usage_witness :
  exists e w',
    apiRequest (unreachable 1000) "/api/v1/query"
      {| opt_method := "POST"; opt_body := VObj [("query", VStr "hello")] |}
      (initially (saved (local 5 900 20)))
    = (Throw e, w') /\
    storage w' = storage (initially (saved (local 5 900 20))) /\
    ticks w' = ticks (initially (saved (local 5 900 20))) /\
    pending w' = pending (initially (saved (local 5 900 20))) /\
    sent w' = List.app (sent (initially (saved (local 5 900 20))))
                [requestOf (unreachable 1000) "/api/v1/query"
                   {| opt_method := "POST";
                      opt_body := VObj [("query", VStr "hello")] |}].
Proof.
  apply (apiRequest_failure_leaves_usage (unreachable 1000) "/api/v1/query"
           {| opt_method := "POST"; opt_body := VObj [("query", VStr "hello")] |}
           (initially (saved (local 5 900 20)))).
  reflexivity.
Defined.

(** X12. The message of a rejected request. On 429 it is
    [detail.message] when that is a non-empty string, and the fixed text
    "Rate limit exceeded. Please try again later." when [detail] is
    missing or is itself a string. On another status outside 2xx it is
    [detail] when that is a non-empty string, "HTTP error! status: N"
    when [detail] is missing, and "[object Object]" when [detail] is an
    object without a [toString] property. *)
Theorem apiRequest_error_message (E : env) (endpoint : string)
  (opts : options) (w : world) (status : Z) (data : value) :
  network E (List.length (sent w)) = Response status (Some data) ->
  let thrown := fst (apiRequest E endpoint opts w) in
  (status = 429 ->
   (forall dprops a m,
      get data "detail" = Ok (VObj dprops) ->
      lookup "message" dprops = Some (VStr (String a m)) ->
      thrown = Throw (Error (String a m))) /\
   (forall d,
      get data "detail" = Ok (VStr d) \/ get data "detail" = Ok VUndefined ->
      thrown = Throw (Error "Rate limit exceeded. Please try again later."))) /\
  (status <> 429 -> ok status = false ->
   (forall a d,
      get data "detail" = Ok (VStr (String a d)) ->
      thrown = Throw (Error (String a d))) /\
   (get data "detail" = Ok VUndefined ->
    thrown = Throw (Error ("HTTP error! status: " ++ string_of_Z status))) /\
   (forall dprops,
      get data "detail" = Ok (VObj dprops) ->
      has_own "toString" dprops = false ->
      thrown = Throw (Error "[object Object]"))).
Proof.
  intros Hnet thrown.
  assert (Hrun : forall (r : result value) (w' : world),
            (match get data "detail" with
             | Ok detail =>
                 if status =? 429 then
                   (message <- (match detail with
                                | VUndefined | VNull => ret VUndefined
                                | _ => lift (get detail "message")
                                end) ;;
                    throw_Error
                      (js_or message
                         (VStr "Rate limit exceeded. Please try again later.")))
                     (set_sent (List.app (sent w) [requestOf E endpoint opts]) w)
                 else
                   throw_Error
                     (js_or detail
                        (VStr ("HTTP error! status: " ++ string_of_Z status)))
                     (set_sent (List.app (sent w) [requestOf E endpoint opts]) w)
             | Throw e => (Throw e, w)
             end) = (r, w') ->
            (status = 429 \/ ok status = false) ->
            thrown = r).
  { intros r w' Hr Hcase. subst thrown.
    unfold apiRequest, try_catch. unfold bind at 1. unfold fetch at 1.
    rewrite Hnet. fold (requestOf E endpoint opts).
    destruct (get data "detail") as [detail|] eqn:Hd.
    - destruct (Z.eqb_spec status 429) as [->|Hne].
      + unfold bind at 1. unfold lift at 1.
        cbv beta iota. rewrite Hr. destruct r; reflexivity.
      + destruct Hcase as [?|Hok]; [contradiction|]. rewrite Hok. cbn [negb].
        unfold bind at 1. unfold lift at 1.
        cbv beta iota. rewrite Hr. destruct r; reflexivity.
    - injection Hr as <- _.
      destruct (Z.eqb_spec status 429) as [->|Hne].
      + reflexivity.
      + destruct Hcase as [?|Hok]; [contradiction|]. rewrite Hok. reflexivity. }
  split.
  - intros H429. split.
    + intros dprops a m Hd Hm. eapply Hrun; [|left; exact H429].
      rewrite Hd, H429. cbn [Z.eqb Pos.eqb].
      unfold bind at 1. unfold lift at 1. cbn [get]. rewrite Hm. reflexivity.
    + intros d [Hd | Hd]; (eapply Hrun; [|left; exact H429]);
        rewrite Hd, H429; reflexivity.
  - intros H429 Hok.
    assert (Hne : (status =? 429) = false) by (apply Z.eqb_neq; exact H429).
    split; [|split].
    + intros a d Hd. eapply Hrun; [|right; exact Hok].
      rewrite Hd, Hne. reflexivity.
    + intros Hd. eapply Hrun; [|right; exact Hok].
      rewrite Hd, Hne. reflexivity.
    + intros dprops Hd Hts. eapply Hrun; [|right; exact Hok].
      rewrite Hd, Hne. unfold throw_Error, js_or. cbn [truthy].
      unfold bind at 1. unfold lift at 1. cbn [ToString]. rewrite Hts.
      reflexivity.
Qed.

Lemma apiRequest_error_message_witness :
  fst (apiRequest
         (platform 1000 (fun _ => Response 429
            (Some (VObj [("detail", VStr "Too many requests")]))))
         "/api/v1/query"
         {| opt_method := "POST"; opt_body := VObj [("query", VStr "hello")] |}
         (initially None))
  = Throw (Error "Rate limit exceeded. Please try again later.").
Proof.
  apply (proj2 (proj1 (apiRequest_error_message
           (platform 1000 (fun _ => Response 429
              (Some (VObj [("detail", VStr "Too many requests")]))))
           "/api/v1/query"
           {| opt_method := "POST"; opt_body := VObj [("query", VStr "hello")] |}
           (initially None) 429
           (VObj [("detail", VStr "Too many requests")]) eq_refl) eq_refl)
           "Too many requests").
  left. reflexivity.
Defined.

(** X13. A query whose request fails consumes nothing: when the limit
    check lets it through and the POST gets no answer, an undecodable
    body or a status outside 2xx, [query] throws, the stored snapshot is
    the one its limit check reconciled (no increment), and the only
    requests issued are that check's status probe and the POST. *)
Theorem query_failure_does_not_count (E : env) (w : world) (message : value)
  (resumes : schedule) :
  fst (hasReachedLimit E w) = Ok false ->
  failed (network E (S (List.length (sent w)))) = true ->
  exists u w1 e w',
    getUsage E w = (Ok u, w1) /\
    query E message resumes w = (Throw e, w') /\
    storage w' = saved u /\ ticks w' = ticks w1 /\
    pending w' = pending w /\
    sent w' = List.app (sent w) [statusProbe E; queryPost E message].
Proof.
  intros Hfree Hfail.
  destruct (getUsage_total E w) as (u & w1 & Hg & Hst & Hsn & Hpd & _).
  assert (Hh : hasReachedLimit E w = (Ok false, w1)).
  { revert Hfree. unfold hasReachedLimit. rewrite (bind_ok _ _ _ _ _ Hg).
    unfold lift. cbn [fst]. intros ->. reflexivity. }
  assert (Hf1 : failed (network E (List.length (sent w1))) = true).
  { rewrite Hsn, List.length_app, Nat.add_1_r. exact Hfail. }
  destruct (apiRequest_failed E "/api/v1/query"
              {| opt_method := "POST"; opt_body := VObj [("query", message)] |}
              w1 Hf1) as [e He].
  exists u, w1, e. eexists. split; [exact Hg|]. split.
  - unfold query. rewrite (bind_ok _ _ _ _ _ Hh). cbv beta iota.
    unfold try_catch. unfold bind at 1. rewrite He. reflexivity.
  - cbn [storage ticks pending sent set_sent].
    split; [exact Hst|]. split; [reflexivity|]. split; [exact Hpd|].
    rewrite Hsn, <- List.app_assoc. reflexivity.
Qed.

Lemma query_failure_does_not_count_witness :
  exists u w1 e w',
    getUsage (unreachable 1000) (initially (saved (local 5 900 20))) = (Ok u, w1) /\
    query (unreachable 1000) (VStr "hello") (atomically AfterReturn)
      (initially (saved (local 5 900 20))) = (Throw e, w') /\
    storage w' = saved u /\ ticks w' = ticks w1 /\
    pending w' = pending (initially (saved (local 5 900 20))) /\
    sent w' = List.app (sent (initially (saved (local 5 900 20))))
                [statusProbe (unreachable 1000);
                 queryPost (unreachable 1000) (VStr "hello")].
Proof.
  apply (query_failure_does_not_count (unreachable 1000)
           (initially (saved (local 5 900 20))) (VStr "hello") (atomically AfterReturn)).
  - reflexivity.
  - reflexivity.
Defined.

(** ** Counting *)

Lemma js_ge_int (E : env) (c l : Z) : js_ge E (int c) (int l) = Ok (l <=? c).
Proof.
  unfold js_ge, IsLessThan, int. cbn [ToPrimitive rbind ToNumber num_lt].
  rewrite Z.leb_antisym. destruct (c <? l); reflexivity.
Qed.

Lemma hasReachedLimit_offline (E : env) (w : world) (c t l : Z) :
  truthy (next_status E w) = false ->
  holds_snapshot w c t l ->
  fst (hasReachedLimit E w) = Ok (l <=? c).
Proof.
  intros Hs Hw. unfold hasReachedLimit.
  rewrite (bind_ok _ _ _ _ _ (getUsage_offline_snapshot E w c t l Hs Hw)).
  unfold lift. cbn [count limit local fst]. apply js_ge_int.
Qed.

(** Without server data, [n] increments add [n] to a stored numeric
    count and leave timestamp and limit alone. *)
Lemma increments_offline (E : env) (n : nat) :
  (forall k, truthy (status_of (network E k)) = false) ->
  forall (w : world) (c t l : Z),
    holds_snapshot w c t l ->
    exists w', increments E n w = (Ok tt, w') /\
               holds_snapshot w' (c + Z.of_nat n) t l.
Proof.
  intros Hoff. induction n as [|n IH]; intros w c t l Hw.
  - exists w. split; [reflexivity|]. now rewrite Z.add_0_r.
  - destruct (incrementUsage_offline_step E w c t l (Hoff _) Hw)
      as (w1 & H1 & Hst1 & _).
    assert (Hw1 : holds_snapshot w1 (c + 1) t l).
    { exists (local (c + 1) t l). rewrite Hst1. repeat split. }
    destruct (IH w1 (c + 1) t l Hw1) as (w' & Hrun & Hw').
    exists w'. split.
    + cbn [increments]. rewrite (bind_ok _ _ _ _ _ H1). exact Hrun.
    + replace (c + Z.of_nat (S n)) with (c + 1 + Z.of_nat n) by lia. exact Hw'.
Qed.



(** X15. With server data the limit check looks at the sign of
    [queries_remaining] only: for a status with numeric counters
    [hasReachedLimit] answers true exactly when [queries_remaining] is
    negative, so a client whose quota the server reports as used up
    (remaining 0) is let through to the request. *)
Theorem hasReachedLimit_with_server_data (E : env) (w : world) (a r : Z) :
  truthy (next_status E w) = true ->
  get (next_status E w) "queries_used" = Ok (int a) ->
  get (next_status E w) "queries_remaining" = Ok (int r) ->
  fst (hasReachedLimit E w) = Ok (r <? 0).
Proof.
  intros Hs Ha Hr.
  destruct (getUsage_numeric_status E w a r Hs Ha Hr) as (rt & _ & Hg).
  unfold hasReachedLimit. rewrite (bind_ok _ _ _ _ _ Hg).
  unfold lift. cbn [count limit fst]. rewrite js_ge_int. f_equal.
  unfold maxQueries.
  destruct (Z.eqb_spec r 0) as [->|Hne].
  - apply Z.leb_gt. lia.
  - destruct (Z.ltb_spec r 0); [apply Z.leb_le | apply Z.leb_gt]; lia.
Qed.

Lemma hasReachedLimit_with_server_data_witness :
  fst (hasReachedLimit (answering 1000 exhausted_status) (initially None))
  = Ok (0 <? 0).
Proof.
  apply (hasReachedLimit_with_server_data (answering 1000 exhausted_status)
           (initially None) 20 0); reflexivity.
Defined.

(** ** A successful query while the server answers *)

Section Resuming.

Variable E : env.

Lemma getUsage_resume_total (s : value) (w : world) :
  exists u w', getUsage_resume E s w = (Ok u, w') /\
               sent w' = sent w /\ pending w' = pending w.
Proof.
  assert (Hoff : forall w0, sent w0 = sent w -> pending w0 = pending w ->
            exists u w', offlineUsage E w0 = (Ok u, w') /\
                         sent w' = sent w /\ pending w' = pending w).
  { intros w0 Hs0 Hp0.
    destruct (offlineUsage_total E w0) as (u & w' & _ & (_ & Hs & Hp) & _ & Ho).
    eexists _, _. split; [exact Ho|]. cbn [sent pending set_storage].
    split; congruence. }
  destruct (truthy s) eqn:Htr;
    [|rewrite getUsage_resume_offline by exact Htr; now apply Hoff].
  unfold getUsage_resume, try_catch, bind, lift, Date_now, setItem, ret.
  rewrite Htr.
  destruct (get s "queries_used") as [used|]; [|now apply Hoff].
  destruct (get s "queries_remaining") as [rem|]; [|now apply Hoff].
  destruct (js_add E (js_or used (int 0)) (js_or rem (int 20))) as [total|];
    [|now apply Hoff].
  destruct (get s "reset_time") as [rt|]; [|now apply Hoff].
  eexists _, _. split; [reflexivity|]. split; reflexivity.
Qed.

Lemma updateUsageFromServer_write_frame (rateLimitInfo : value) (u : usage)
  (w : world) :
  exists r w', updateUsageFromServer_write E rateLimitInfo u w = (r, w') /\
               sent w' = sent w /\ pending w' = pending w.
Proof.
  unfold updateUsageFromServer_write, bind, lift, setItem.
  destruct (get rateLimitInfo "remaining") as [rem|];
    [|eexists _, _; split; [reflexivity|split; reflexivity]].
  destruct (js_sub E (limit u) rem) as [q|];
    [|eexists _, _; split; [reflexivity|split; reflexivity]].
  destruct (get rateLimitInfo "reset_time") as [rt|];
    eexists _, _; (split; [reflexivity|split; reflexivity]).
Qed.

(** The continuations of [getUsage] never throw and issue no request;
    afterwards every suspended call waits for its last continuation. *)
Lemma reconcile_all_frame (l : list suspended) (w : world) :
  exists l' w', reconcile_all E l w = (Ok l', w') /\
                sent w' = sent w /\ pending w' = pending w /\
                Forall (fun x => exists rateLimitInfo u,
                                   x = UpdateWrite rateLimitInfo u) l'.
Proof.
  revert w. induction l as [|[rateLimitInfo s|rateLimitInfo u] rest IH]; intros w.
  - exists [], w. repeat split. constructor.
  - cbn [reconcile_all].
    destruct (getUsage_resume_total s w) as (u & w1 & Hg & Hs1 & Hp1).
    destruct (IH w1) as (l' & w' & Hrest & Hs' & Hp' & Hall).
    exists (UpdateWrite rateLimitInfo u :: l'), w'.
    split; [|split; [congruence|split; [congruence|]]].
    + unfold bind at 1. unfold try_catch. rewrite (bind_ok _ _ _ _ _ Hg).
      unfold ret at 1. rewrite (bind_ok _ _ _ _ _ Hrest). reflexivity.
    + constructor; [eexists _, _; reflexivity|exact Hall].
  - cbn [reconcile_all].
    destruct (IH w) as (l' & w' & Hrest & Hs' & Hp' & Hall).
    exists (UpdateWrite rateLimitInfo u :: l'), w'.
    split; [|split; [exact Hs'|split; [exact Hp'|]]].
    + rewrite (bind_ok _ _ _ _ _ Hrest). reflexivity.
    + constructor; [eexists _, _; reflexivity|exact Hall].
Qed.

(** The last continuations never throw into a caller and issue no
    request; a call that waited for its last continuation is over. *)
Lemma write_all_frame (l : list suspended) (w : world) :
  exists l' w', write_all E l w = (Ok l', w') /\
                sent w' = sent w /\ pending w' = pending w /\
                (Forall (fun x => exists rateLimitInfo u,
                                    x = UpdateWrite rateLimitInfo u) l ->
                 l' = []).
Proof.
  revert w. induction l as [|[rateLimitInfo s|rateLimitInfo u] rest IH]; intros w.
  - exists [], w. repeat split.
  - cbn [write_all].
    destruct (IH w) as (l' & w' & Hrest & Hs' & Hp' & Hall).
    exists (UpdateUsage rateLimitInfo s :: l'), w'.
    split; [|split; [exact Hs'|split; [exact Hp'|]]].
    + rewrite (bind_ok _ _ _ _ _ Hrest). reflexivity.
    + intros Hf. inversion Hf as [|x xs (? & ? & Hx) _]. discriminate Hx.
  - cbn [write_all].
    destruct (updateUsageFromServer_write_frame rateLimitInfo u w)
      as (r & w1 & Hr & Hs1 & Hp1).
    destruct (IH w1) as (l' & w' & Hrest & Hs' & Hp' & Hall).
    exists l', w'. split; [|split; [congruence|split; [congruence|]]].
    + unfold bind at 1. unfold try_catch. rewrite Hr.
      destruct r as [[]|e]; exact Hrest.
    + intros Hf. inversion Hf. apply Hall. assumption.
Qed.

Lemma resume_reconcile_frame (w : world) :
  exists w', resume_reconcile E w = (Ok tt, w') /\ sent w' = sent w /\
             Forall (fun x => exists rateLimitInfo u,
                                x = UpdateWrite rateLimitInfo u) (pending w').
Proof.
  destruct (reconcile_all_frame (pending w) (set_pending [] w))
    as (l' & w' & Hr & Hs & _ & Hall).
  unfold resume_reconcile, resume_with. rewrite Hr.
  eexists. split; [reflexivity|]. split; [exact Hs|exact Hall].
Qed.

Lemma resume_write_frame (w : world) :
  exists w', resume_write E w = (Ok tt, w') /\ sent w' = sent w /\
             (Forall (fun x => exists rateLimitInfo u,
                                 x = UpdateWrite rateLimitInfo u) (pending w) ->
              pending w' = []).
Proof.
  destruct (write_all_frame (pending w) (set_pending [] w))
    as (l' & w' & Hr & Hs & _ & Hall).
  unfold resume_write, resume_with. rewrite Hr.
  eexists. split; [reflexivity|]. split; [exact Hs|exact Hall].
Qed.

(** A place between two continuations of [query]: nothing is thrown and
    no request is issued; no call is suspended any more once both
    continuations of the update are due; and nothing happens when no call
    is suspended. *)
Lemma turn_frame (resumes : schedule) (k : nat) (w : world) :
  exists w', turn E resumes k w = (Ok tt, w') /\ sent w' = sent w /\
             ((written_at resumes <= k)%nat -> pending w' = []) /\
             (pending w = [] -> w' = w).
Proof.
  unfold turn, written_at, reached.
  destruct (Nat.leb_spec (rank (reconciles resumes)) k) as [Hr|Hr];
    destruct (Nat.leb_spec (rank (writes resumes)) k) as [Hw|Hw].
  - destruct (resume_reconcile_frame w) as (w1 & H1 & Hs1 & Hall).
    destruct (resume_write_frame w1) as (w2 & H2 & Hs2 & Hp2).
    exists w2. rewrite (bind_ok _ _ _ _ _ H1).
    split; [exact H2|]. split; [congruence|]. split; [intros _; exact (Hp2 Hall)|].
    intros Hp. rewrite (resume_reconcile_nothing E w Hp) in H1.
    injection H1 as <-. rewrite (resume_write_nothing E w Hp) in H2.
    injection H2 as <-. reflexivity.
  - destruct (resume_reconcile_frame w) as (w1 & H1 & Hs1 & Hall).
    exists w1. rewrite (bind_ok _ _ _ _ _ H1).
    split; [reflexivity|]. split; [exact Hs1|]. split; [lia|].
    intros Hp. rewrite (resume_reconcile_nothing E w Hp) in H1.
    injection H1 as <-. reflexivity.
  - destruct (resume_write_frame w) as (w2 & H2 & Hs2 & Hp2).
    exists w2. unfold bind at 1. unfold ret at 1.
    split; [exact H2|]. split; [exact Hs2|]. split; [lia|].
    intros Hp. rewrite (resume_write_nothing E w Hp) in H2.
    injection H2 as <-. reflexivity.
  - exists w. split; [reflexivity|]. split; [reflexivity|]. split; [lia|].
    reflexivity.
Qed.

(** A schedule that leaves the update for later makes every place of
    [query] empty. *)
Lemma turn_after_return (k : nat) {B} (m : M B) (w : world) :
  (k <= 3)%nat -> (turn E (atomically AfterReturn) k ;;; m) w = m w.
Proof.
  intros Hk. unfold turn, atomically, reached. cbn [rank reconciles writes].
  replace (Nat.leb 4 k) with false by (symmetry; apply Nat.leb_gt; lia).
  reflexivity.
Qed.

(** With nothing running in between, [query] is what its text says:
    [hasReachedLimit], [apiRequest], [incrementUsage],
    [formatTimeUntilReset]. *)
Lemma query_alone_run (message : value) (w : world) :
  query E message (atomically AfterReturn) w = query_alone E message w.
Proof.
  unfold query, query_alone.
  apply bind_ext. intros [|] w1; [reflexivity|].
  apply try_catch_ext. apply bind_ext. intros response w2.
  rewrite turn_after_return by lia.
  unfold incrementUsage at 1. rewrite bind_assoc.
  apply bind_ext. intros u w3.
  rewrite turn_after_return by lia.
  apply bind_ext. intros u1 w4.
  rewrite turn_after_return by lia.
  apply bind_ext. intros remaining w5.
  unfold formatTimeUntilReset, getTimeUntilReset. rewrite !bind_assoc.
  apply bind_ext. intros u' w6.
  rewrite turn_after_return by lia.
  apply bind_ext. intros timeRemaining w7. reflexivity.
Qed.

(** Started and resumed with nothing in between, the un-awaited update
    does what [updateUsageFromServer] does when run in one piece. *)
Lemma updateUsageFromServer_uninterrupted (rateLimitInfo : value) (w : world) :
  pending w = [] ->
  snd ((updateUsageFromServer_start E rateLimitInfo ;;; resume_pending E) w)
  = snd (updateUsageFromServer E rateLimitInfo w).
Proof.
  intros Hp.
  assert (Heta : forall w0, pending w0 = [] -> set_pending [] w0 = w0).
  { intros [st tk sn pd]. cbn. intros ->. reflexivity. }
  unfold updateUsageFromServer_start, updateUsageFromServer.
  unfold bind at 1.
  rewrite !(bind_ok _ _ _ _ _ (getRateLimitStatus_run E w)).
  cbn [pending probed set_sent]. rewrite Hp. cbn [List.app].
  unfold updateUsageFromServer_resume.
  destruct (getUsage_resume_total (next_status E w) (probed E w))
    as (u & w2 & Hg & _ & Hp2).
  cbn [pending probed set_sent] in Hp2. rewrite Hp in Hp2.
  rewrite (bind_ok _ _ _ _ _ Hg).
  destruct (updateUsageFromServer_write_frame rateLimitInfo u w2)
    as (r & w3 & Hw & _ & Hp3).
  rewrite Hp2 in Hp3.
  unfold resume_pending. unfold bind at 1.
  unfold resume_reconcile, resume_with at 1.
  cbn [pending set_pending reconcile_all].
  change (set_pending [] (set_pending _ (probed E w)))
    with (set_pending [] (probed E w)).
  rewrite (Heta (probed E w) Hp).
  unfold bind at 1. unfold try_catch at 1. rewrite (bind_ok _ _ _ _ _ Hg).
  unfold ret at 1. unfold bind at 1. unfold ret at 1 2.
  cbn [List.app].
  unfold resume_write, resume_with. cbn [pending set_pending write_all].
  change (set_pending [] (set_pending _ w2)) with (set_pending [] w2).
  rewrite (Heta w2 Hp2).
  unfold bind at 1. unfold try_catch at 1. rewrite Hw.
  destruct r as [[]|e]; cbn [ret snd]; exact (Heta w3 Hp3).
Qed.

(** Computing the time until reset leaves the storage alone when the
    server-time branch is taken or the local window has not run out. *)
Lemma timeUntilResetOf_keeps_storage (u : usage) (w : world) (ts : Z) :
  ToNumber E (timestamp u) = Ok (Fin ts) ->
  0 < 18000000 - (clock E (ticks w) - ts) ->
  exists z w', timeUntilResetOf E u w = (Ok (Fin z), w') /\
               storage w' = storage w /\ sent w' = sent w /\
               pending w' = pending w.
Proof.
  intros Hts Hin.
  destruct (serverResetInstant E u) as [t|] eqn:Hsrv.
  - rewrite (timeUntilResetOf_server E u w t Hsrv).
    eexists _, _. split; [reflexivity|]. repeat split.
  - rewrite (timeUntilResetOf_local E u w ts Hsrv Hts).
    replace (18000000 - (clock E (ticks w) - ts) <=? 0) with false
      by (symmetry; apply Z.leb_gt; exact Hin).
    eexists _, _. split; [reflexivity|]. repeat split.
Qed.

End Resuming.

(** X16. When the server answers every probe, a successful query reports
    one more than it leaves in the storage: with the status after the
    POST showing [queries_used = a], [response.usage.count] is [a + 1],
    while the last probe of [query] has stored the server's own count [a]
    and the limit rebuilt from the counters; neither the increment nor a
    [rate_limit] in the answer survives in the storage. This holds when
    both continuations of the un-awaited update have run before the
    [getUsage] of [getTimeUntilReset] continues, and no two consecutive
    clock readings are five hours apart. *)
Theorem query_with_server_reports_one_more
  (E : env) (w : world) (message : value) (resumes : schedule)
  (status : Z) (props : list (string * value)) (s : value) (a0 r0 a r : Z) :
  pending w = [] ->
  truthy (next_status E w) = true ->
  get (next_status E w) "queries_used" = Ok (int a0) ->
  get (next_status E w) "queries_remaining" = Ok (int r0) ->
  0 <= r0 ->
  network E (S (List.length (sent w))) = Response status (Some (VObj props)) ->
  ok status = true ->
  (forall k, (S (List.length (sent w)) < k)%nat -> status_of (network E k) = s) ->
  truthy s = true ->
  get s "queries_used" = Ok (int a) ->
  get s "queries_remaining" = Ok (int r) ->
  (forall k, clock E (S k) - clock E k < 18000000) ->
  (written_at resumes <= 2)%nat ->
  exists response w' t,
    query E message resumes w = (Ok response, w') /\
    reported_count response = Ok (int (a + 1)) /\
    holds_snapshot w' a t (maxQueries a r) /\
    pending w' = [].
Proof.
  intros Hp Hs0 Ha0 Hr0 Hr0pos Hans Hok Hlater Hs Ha Hr Hclock Hres.
  (* the limit check *)
  destruct (getUsage_numeric_status E w a0 r0 Hs0 Ha0 Hr0) as (rt0 & _ & Hg0).
  cbv zeta in Hg0.
  set (w1 := set_storage _ (set_ticks (S (ticks w)) (probed E w))) in Hg0.
  assert (H1 : hasReachedLimit E w = (Ok false, w1)).
  { unfold hasReachedLimit. rewrite (bind_ok _ _ _ _ _ Hg0).
    unfold lift. cbn [count limit]. rewrite js_ge_int.
    replace (maxQueries a0 r0 <=? a0) with false; [reflexivity|].
    symmetry. apply Z.leb_gt. pose proof (maxQueries_positive 0 r0).
    unfold maxQueries in *. destruct (r0 =? 0); lia. }
  assert (Hlen1 : List.length (sent w1) = S (List.length (sent w))).
  { subst w1. cbn [sent set_storage set_ticks probed set_sent].
    rewrite List.length_app, Nat.add_1_r. reflexivity. }
  (* the request *)
  assert (Hnet1 : network E (List.length (sent w1))
                  = Response status (Some (VObj props)))
    by (rewrite Hlen1; exact Hans).
  destruct (apiRequest_answered E w1 message status props Hnet1 Hok)
    as (w2 & H2 & _ & _ & Hrest2).
  assert (Hlen2 : (S (List.length (sent w)) < List.length (sent w2))%nat).
  { destruct (truthy _) in Hrest2; destruct Hrest2 as [Hsn2 _];
      rewrite Hsn2, List.length_app, Hlen1; cbn; lia. }
  assert (Hnext : forall w0, (S (List.length (sent w)) < List.length (sent w0))%nat ->
                             next_status E w0 = s).
  { intros w0 Hlt. unfold next_status. apply Hlater. exact Hlt. }
  (* the first place, and getUsage of incrementUsage *)
  destruct (turn_frame E resumes 0 w2) as (wa & HA & Hsna & _).
  assert (Hlena : (S (List.length (sent w)) < List.length (sent wa))%nat)
    by (rewrite Hsna; exact Hlen2).
  pose proof (Hnext wa Hlena) as Hsa.
  destruct (getUsage_numeric_status E wa a r) as (rt & _ & Hg3);
    try (rewrite Hsa; assumption).
  cbv zeta in Hg3.
  set (wb := set_storage _ (set_ticks (S (ticks wa)) (probed E wa))) in Hg3.
  set (u3 := {| count := int a; timestamp := int (clock E (ticks wa));
                limit := int (maxQueries a r); serverSync := VBool true;
                serverResetTime := rt |}) in *.
  assert (Hlenb : (S (List.length (sent w)) < List.length (sent wb))%nat).
  { subst wb. cbn [sent set_storage set_ticks probed set_sent].
    rewrite List.length_app. lia. }
  (* the second place, and the rest of incrementUsage *)
  destruct (turn_frame E resumes 1 wb) as (wc & HC & Hsnc & _).
  set (wd := set_storage (saved (set_count (int (a + 1)) u3)) wc).
  assert (HD : incrementUsage_resume E u3 wc
               = (Ok (set_count (int (a + 1)) u3), wd)) by reflexivity.
  (* the third place: the update is over *)
  destruct (turn_frame E resumes 2 wd) as (we & HE & Hsne & Hpde & _).
  specialize (Hpde Hres).
  assert (Hlene : (S (List.length (sent w)) < List.length (sent we))%nat).
  { rewrite Hsne. change (sent wd) with (sent wc). rewrite Hsnc. exact Hlenb. }
  pose proof (Hnext we Hlene) as Hse.
  (* getUsage of getTimeUntilReset *)
  destruct (getUsage_numeric_status E we a r) as (rt' & _ & Hg4);
    try (rewrite Hse; assumption).
  cbv zeta in Hg4.
  set (u4 := {| count := int a; timestamp := int (clock E (ticks we));
                limit := int (maxQueries a r); serverSync := VBool true;
                serverResetTime := rt' |}) in *.
  set (w4 := set_storage (saved u4) (set_ticks (S (ticks we)) (probed E we))) in Hg4.
  (* the fourth place: nothing is left to run *)
  destruct (turn_frame E resumes 3 w4) as (w4' & HF & _ & _ & Hidle).
  rewrite (Hidle Hpde) in HF.
  (* the rest of getTimeUntilReset *)
  destruct (timeUntilResetOf_keeps_storage E u4 w4 (clock E (ticks we)) eq_refl)
    as (z & w5 & H5 & Hst5 & _ & Hpd5).
  { subst w4. cbn [ticks set_storage set_ticks]. specialize (Hclock (ticks we)). lia. }
  destruct (reported_count_assign props
              (VObj [("count", int (a + 1));
                     ("limit", int (maxQueries a r));
                     ("remaining", VNum (Fin (maxQueries a r - (a + 1))));
                     ("resetTime", VStr (formatTime (Fin z)))])
              (int (a + 1)) eq_refl)
    as (response & Hset & Hrep).
  exists response, w5, (clock E (ticks we)).
  split; [|split; [exact Hrep|split]].
  - unfold query. rewrite (bind_ok _ _ _ _ _ H1). cbv beta iota.
    apply try_catch_ok. rewrite (bind_ok _ _ _ _ _ H2).
    rewrite (bind_ok _ _ _ _ _ HA).
    rewrite (bind_ok _ _ _ _ _ Hg3).
    rewrite (bind_ok _ _ _ _ _ HC).
    rewrite (bind_ok _ _ _ _ _ HD).
    rewrite (bind_ok _ _ _ _ _ HE).
    unfold bind at 1. unfold lift at 1.
    cbn [js_sub ToNumber limit count set_count u3 int rbind num_sub].
    rewrite (bind_ok _ _ _ _ _ Hg4).
    rewrite (bind_ok _ _ _ _ _ HF).
    rewrite (bind_ok _ _ _ _ _ H5).
    unfold lift. rewrite Hset. reflexivity.
  - exists u4. rewrite Hst5. repeat split.
  - rewrite Hpd5. exact Hpde.
Qed.

Lemma query_with_server_reports_one_more_witness :
  exists response w' t,
    query (serving 1000 status_3_17 answer_with_rate_limit)
      (VStr "What goes with a navy blazer?") (atomically BeforeIncrement)
      (initially None)
    = (Ok response, w') /\
    reported_count response = Ok (int (3 + 1)) /\
    holds_snapshot w' 3 t (maxQueries 3 17) /\
    pending w' = [].
Proof.
  apply (query_with_server_reports_one_more
           (serving 1000 status_3_17 answer_with_rate_limit) (initially None)
           (VStr "What goes with a navy blazer?") (atomically BeforeIncrement)
           200
           [("response", VStr "Pair it with grey trousers.");
            ("rate_limit", VObj [("remaining", int 15);
                                 ("reset_time", VStr "N/A")])]
           status_3_17 3 17 3 17).
  - reflexivity.
  - reflexivity.
  - reflexivity.
  - reflexivity.
  - lia.
  - reflexivity.
  - reflexivity.
  - intros k Hk. cbn in Hk. destruct k as [|[|k]]; [lia|lia|reflexivity].
  - reflexivity.
  - reflexivity.
  - reflexivity.
  - intros k. cbn [clock serving platform]. lia.
  - cbn. lia.
Defined.

(** ** An answer without [remaining] *)

(** X17. A [rate_limit] that carries no [remaining] wipes the count:
    without server data, [updateUsageFromServer] stores
    [limit - undefined], which is NaN and is written as [null]; the next
    [incrementUsage] loads that [null] as it is and returns count 1,
    whatever the count was before, with limit and timestamp kept. *)
Theorem update_without_remaining_wipes_count
  (E : env) (w : world) (rateLimitInfo : value) (c t l : Z) :
  holds_snapshot w c t l ->
  truthy (next_status E w) = false ->
  truthy (status_of (network E (S (List.length (sent w))))) = false ->
  truthy rateLimitInfo = true ->
  get rateLimitInfo "remaining" = Ok VUndefined ->
  exists w1 u w2,
    updateUsageFromServer E rateLimitInfo w = (Ok tt, w1) /\
    incrementUsage E w1 = (Ok u, w2) /\
    count u = int 1 /\ limit u = int l /\ timestamp u = int t.
Proof.
  intros Hw Hs Hs' Hrl Hrem.
  destruct (get_truthy rateLimitInfo "reset_time" Hrl) as [rt Hrt].
  set (stored := {| count := VNum NaN; timestamp := int t; limit := int l;
                    serverSync := VBool false; serverResetTime := rt |}).
  set (w1 := set_storage (saved stored) (probed E w)).
  assert (H1 : updateUsageFromServer E rateLimitInfo w = (Ok tt, w1)).
  { unfold updateUsageFromServer.
    rewrite (bind_ok _ _ _ _ _ (getRateLimitStatus_run E w)).
    unfold updateUsageFromServer_resume.
    rewrite (bind_ok _ _ _ _ _
               (eq_trans (getUsage_resume_offline E _ _ Hs)
                         (offlineUsage_snapshot E (probed E w) c t l Hw))).
    unfold updateUsageFromServer_write.
    unfold bind at 1. unfold lift at 1. rewrite Hrem.
    unfold bind at 1. unfold lift at 1.
    cbn [js_sub ToNumber limit local int rbind num_sub].
    unfold bind at 1. unfold lift at 1. rewrite Hrt. reflexivity. }
  assert (Hs1 : truthy (next_status E w1) = false).
  { unfold next_status. subst w1. cbn [sent set_storage probed set_sent].
    rewrite List.length_app, Nat.add_1_r. exact Hs'. }
  assert (Hload : exists reset,
            getUsageSync E (probed E w1)
            = (Ok {| count := VNull; timestamp := int t; limit := int l;
                     serverSync := VBool false; serverResetTime := reset |},
               probed E w1)).
  { exists (js_or (to_json rt) VNull).
    unfold getUsageSync. unfold bind at 1. unfold getItem at 1.
    subst w1 stored. cbn [storage probed set_sent set_storage].
    unfold saved, JSON_stringify, usage_object, int.
    destruct rt; reflexivity. }
  destruct Hload as [reset Hload].
  exists w1. eexists _, _. split; [exact H1|]. split.
  - unfold incrementUsage.
    unfold bind at 1. rewrite getUsage_split.
    rewrite getUsage_resume_offline by exact Hs1.
    unfold offlineUsage. rewrite (bind_ok _ _ _ _ _ Hload).
    reflexivity.
  - repeat split.
Qed.

Lemma update_without_remaining_wipes_count_witness :
  exists w1 u w2,
    updateUsageFromServer (unreachable 1000)
      (VObj [("reset_time", VStr "N/A")]) (initially (saved (local 12 900 20)))
    = (Ok tt, w1) /\
    incrementUsage (unreachable 1000) w1 = (Ok u, w2) /\
    count u = int 1 /\ limit u = int 20 /\ timestamp u = int 900.
Proof.
  apply (update_without_remaining_wipes_count (unreachable 1000)
           (initially (saved (local 12 900 20)))
           (VObj [("reset_time", VStr "N/A")]) 12 900 20).
  - exists (local 12 900 20). repeat split.
  - reflexivity.
  - reflexivity.
  - reflexivity.
  - reflexivity.
Defined.

(** ** Construction *)

(** X18. The constructor on first use and on a live window: with no item
    or the empty text stored, [initializeUsageTracking] stores the fresh
    snapshot (count 0, limit 20, the next clock reading as timestamp),
    which then loads as such with [serverSync] false; with a stored
    numeric snapshot whose timestamp is at most five hours back, and with
    a stored object that has no timestamp at all, it leaves the storage
    untouched. *)
Theorem constructor_first_use_and_live_window (E : env) (w : world) :
  (storage w = None \/ storage w = Some EmptyText ->
   exists w',
     constructor E w = (Ok tt, w') /\
     storage w' = saved (fresh (clock E (S (ticks w)))) /\
     getUsageSync E w'
     = (Ok {| count := int 0; timestamp := int (clock E (S (ticks w)));
              limit := int 20; serverSync := VBool false;
              serverResetTime := VNull |}, w')) /\
  (forall c t l,
     holds_snapshot w c t l ->
     clock E (ticks w) - t <= 18000000 ->
     constructor E w = (Ok tt, set_ticks (S (ticks w)) w)) /\
  (forall props,
     storage w = Some (JsonText (VObj props)) ->
     lookup "timestamp" props = None ->
     constructor E w = (Ok tt, set_ticks (S (ticks w)) w)).
Proof.
  split; [|split].
  - intros Hst.
    exists (set_storage (saved (fresh (clock E (S (ticks w)))))
              (set_ticks (S (S (ticks w))) w)).
    split; [|split; [reflexivity|reflexivity]].
    unfold constructor, initializeUsageTracking.
    unfold bind at 1. unfold Date_now at 1. unfold bind at 1. unfold getItem at 1.
    cbn [storage set_ticks].
    destruct Hst as [-> | ->]; reflexivity.
  - intros c t l Hw Hin.
    destruct (holds_snapshot_timestamp w c t l Hw) as (v & Hst & Hts).
    unfold constructor, initializeUsageTracking.
    unfold bind at 1. unfold Date_now at 1. unfold bind at 1. unfold getItem at 1.
    cbn [storage set_ticks]. rewrite Hst. cbn [item_truthy].
    unfold bind at 1. unfold lift at 1. cbn [JSON_parse].
    unfold bind at 1. unfold lift at 1. rewrite Hts.
    unfold bind at 1. unfold lift at 1.
    cbn [js_sub ToNumber int rbind num_sub num_lt].
    replace (18000000 <? clock E (ticks w) - t) with false
      by (symmetry; apply Z.ltb_ge; lia).
    reflexivity.
  - intros props Hst Hts.
    unfold constructor, initializeUsageTracking.
    unfold bind at 1. unfold Date_now at 1. unfold bind at 1. unfold getItem at 1.
    cbn [storage set_ticks]. rewrite Hst. cbn [item_truthy].
    unfold bind at 1. unfold lift at 1. cbn [JSON_parse].
    unfold bind at 1. unfold lift at 1. cbn [get]. rewrite Hts.
    reflexivity.
Qed.

Lemma constructor_first_use_and_live_window_witness :
  constructor (unreachable 1000) (initially (saved (local 5 900 20)))
  = (Ok tt, set_ticks 1 (initially (saved (local 5 900 20)))).
Proof.
  apply (proj1 (proj2 (constructor_first_use_and_live_window (unreachable 1000)
                         (initially (saved (local 5 900 20)))))
           5 900 20).
  - exists (local 5 900 20). repeat split.
  - vm_compute. discriminate.
Defined.

(** ** The back end's address *)

(** X19. The back end's address is never empty and is a fixed one
    outside production: unless [NODE_ENV] is exactly "production",
    [getDomain] answers the two localhost addresses whatever the other
    variables hold; in production an unset or empty [REACT_APP_API_URL]
    gives the deployed default, and any other value is used as it is. *)
Theorem getDomain_backend (P : process_env) :
  backendDomain_of (getDomain P) <> "" /\
  (NODE_ENV P <> Some "production" ->
   getDomain P = {| frontendDomain := "http://localhost:3000";
                    backendDomain_of := "http://localhost:8000" |}) /\
  (NODE_ENV P = Some "production" ->
   (REACT_APP_API_URL P = None \/ REACT_APP_API_URL P = Some "" ->
    backendDomain_of (getDomain P)
    = "https://llm-rag-fashion-agent-production.up.railway.app") /\
   (forall a u, REACT_APP_API_URL P = Some (String a u) ->
                backendDomain_of (getDomain P) = String a u)).
Proof.
  unfold getDomain, isProduction. split; [|split].
  - destruct (NODE_ENV P) as [s|]; [|discriminate].
    destruct (String.eqb s "production"); [|discriminate].
    cbn [backendDomain_of]. unfold or_else.
    destruct (REACT_APP_API_URL P) as [u|]; [|discriminate].
    destruct (String.eqb_spec u ""); [discriminate|assumption].
  - intros Hdev. destruct (NODE_ENV P) as [s|]; [|reflexivity].
    destruct (String.eqb_spec s "production") as [->|]; [|reflexivity].
    contradiction.
  - intros ->. rewrite String.eqb_refl. cbn [backendDomain_of]. split.
    + intros [-> | ->]; reflexivity.
    + intros a u ->. reflexivity.
Qed.

Lemma getDomain_backend_witness :
  getDomain {| NODE_ENV := Some "development";
               REACT_APP_API_URL := Some "https://api.example.org";
               REACT_APP_FRONTEND_URL := None;
               location_origin := "http://localhost:3000" |}
  = {| frontendDomain := "http://localhost:3000";
       backendDomain_of := "http://localhost:8000" |}.
Proof.
  apply (proj1 (proj2 (getDomain_backend
           {| NODE_ENV := Some "development";
              REACT_APP_API_URL := Some "https://api.example.org";
              REACT_APP_FRONTEND_URL := None;
              location_origin := "http://localhost:3000" |}))).
  discriminate.
Defined.

(** ** What the chat shows for a refused query *)

Lemma prefix_app (p t : string) : String.prefix p (p ++ t) = true.
Proof.
  induction p as [|a p IH]; cbn; [destruct t; reflexivity|].
  destruct (ascii_dec a a); [exact IH|contradiction].
Qed.

Lemma includes_of_prefix (s sub : string) :
  String.prefix sub s = true -> includes s sub = true.
Proof. intros H. destruct s; cbn [includes]; rewrite H; reflexivity. Qed.

Lemma query_blocked_run (E : env) (w : world) (message : value)
  (resumes : schedule) :
  fst (hasReachedLimit E w) = Ok true ->
  exists resetTime w',
    query E message resumes w
    = (Throw (Error ("Rate limit reached. You can make 20 queries every 5 hours. Next reset: "
                     ++ resetTime)), w').
Proof.
  intros Hblocked.
  destruct (hasReachedLimit E w) as [[b|e] w1] eqn:Hh;
    cbn [fst] in Hblocked; [|discriminate].
  injection Hblocked as ->.
  destruct (getUsage_total E w1) as (u2 & w2 & Hg2 & _ & _ & _ & Hts).
  destruct (timeUntilResetOf_nonneg E u2 w2 Hts) as (z & w' & Ht & _).
  exists (formatTime (Fin z)), w'.
  unfold query. rewrite (bind_ok _ _ _ _ _ Hh). cbv beta iota.
  unfold formatTimeUntilReset, getTimeUntilReset.
  unfold bind at 1. unfold bind at 1. rewrite (bind_ok _ _ _ _ _ Hg2), Ht.
  reflexivity.
Qed.

Lemma apiRequest_429_run (E : env) (endpoint : string) (opts : options)
  (w : world) (data : value) (dprops : list (string * value))
  (a : ascii) (m : string) :
  network E (List.length (sent w)) = Response 429 (Some data) ->
  get data "detail" = Ok (VObj dprops) ->
  lookup "message" dprops = Some (VStr (String a m)) ->
  apiRequest E endpoint opts w
  = (Throw (Error (String a m)),
     set_sent (List.app (sent w) [requestOf E endpoint opts]) w).
Proof.
  intros Hnet Hd Hm.
  unfold apiRequest, try_catch. unfold bind at 1. unfold fetch at 1.
  rewrite Hnet. fold (requestOf E endpoint opts). cbn [Z.eqb Pos.eqb].
  unfold bind at 1. unfold lift at 1. rewrite Hd.
  unfold bind at 1. unfold lift at 1. cbn [get]. rewrite Hm. reflexivity.
Qed.

(** X20. What the user reads when a query is refused. When the local
    limit check blocks, the chat shows the message [query] throws, reset
    time included, word for word. When the check lets the query through
    and the server answers 429 with [detail.message], that message is
    what [query] throws, but the chat shows it only if it contains
    "Rate limit reached"; otherwise the user reads the connection text
    (if it contains "Failed to fetch") or the general apology. *)
Theorem chat_text_for_refused_query (E : env) (w : world) (message : value)
  (resumes : schedule) :
  (fst (hasReachedLimit E w) = Ok true ->
   exists m, fst (query E message resumes w) = Throw (Error m) /\
             errorMessage m = m) /\
  (forall data dprops a m,
     fst (hasReachedLimit E w) = Ok false ->
     network E (S (List.length (sent w))) = Response 429 (Some data) ->
     get data "detail" = Ok (VObj dprops) ->
     lookup "message" dprops = Some (VStr (String a m)) ->
     fst (query E message resumes w) = Throw (Error (String a m)) /\
     (includes (String a m) "Rate limit reached" = true ->
      errorMessage (String a m) = String a m) /\
     (includes (String a m) "Rate limit reached" = false ->
      includes (String a m) "Failed to fetch" = false ->
      errorMessage (String a m)
      = "Sorry, I couldn't process your request. Please try again.")).
Proof.
  split.
  - intros Hblocked.
    destruct (query_blocked_run E w message resumes Hblocked) as (t & w' & Hq).
    eexists. rewrite Hq. split; [reflexivity|].
    unfold errorMessage.
    rewrite (includes_of_prefix _ "Rate limit reached");
      [reflexivity|].
    apply (prefix_app "Rate limit reached"
             (". You can make 20 queries every 5 hours. Next reset: " ++ t)).
  - intros data dprops a m Hfree Hnet Hd Hm. split; [|split].
    + destruct (getUsage_total E w) as (u & w1 & Hg & _ & Hsn & _ & _).
      assert (Hh : hasReachedLimit E w = (Ok false, w1)).
      { revert Hfree. unfold hasReachedLimit. rewrite (bind_ok _ _ _ _ _ Hg).
        unfold lift. cbn [fst]. intros ->. reflexivity. }
      assert (Hnet1 : network E (List.length (sent w1)) = Response 429 (Some data))
        by (rewrite Hsn, List.length_app, Nat.add_1_r; exact Hnet).
      unfold query. rewrite (bind_ok _ _ _ _ _ Hh). cbv beta iota.
      unfold try_catch. unfold bind at 1.
      rewrite (apiRequest_429_run E _ _ w1 data dprops a m Hnet1 Hd Hm).
      reflexivity.
    + intros Hin. unfold errorMessage. rewrite Hin. reflexivity.
    + intros Hno Hno'. unfold errorMessage. rewrite Hno, Hno'. reflexivity.
Qed.

Lemma chat_text_for_refused_query_witness :
  exists m,
    fst (query (unreachable 1000) (VStr "hello") (atomically AfterReturn)
           (initially (saved (local 20 900 20)))) = Throw (Error m) /\
    errorMessage m = m.
Proof.
  apply (proj1 (chat_text_for_refused_query (unreachable 1000)
                  (initially (saved (local 20 900 20))) (VStr "hello")
                  (atomically AfterReturn))).
  reflexivity.
Defined.

(** ** After the window has run out *)

(** X21. Without server data, the first query after the window has run
    out is still refused when the stored count had reached the limit: the
    limit check of [query] reads the old count, the message says "Next
    reset: Available now", and computing that text resets the storage, so
    that the limit check answers false from then on. *)
Theorem expired_window_refuses_once (E : env) (w : world) (message : value)
  (resumes : schedule) (c t l : Z) :
  (forall k, truthy (status_of (network E k)) = false) ->
  holds_snapshot w c t l ->
  l <= c ->
  18000000 <= clock E (ticks w) - t ->
  exists w',
    query E message resumes w
    = (Throw (Error "Rate limit reached. You can make 20 queries every 5 hours. Next reset: Available now"),
       w') /\
    storage w' = saved (fresh (clock E (S (ticks w)))) /\
    fst (hasReachedLimit E w') = Ok false.
Proof.
  intros Hoff Hw Hfull Hexp.
  destruct (getUsage_offline_step E w c t l (Hoff _) Hw)
    as (w1 & Hg1 & Hst1 & Htk1 & _).
  assert (Hh : hasReachedLimit E w = (Ok true, w1)).
  { unfold hasReachedLimit. rewrite (bind_ok _ _ _ _ _ Hg1).
    unfold lift. cbn [count limit local]. rewrite js_ge_int.
    replace (l <=? c) with true by (symmetry; apply Z.leb_le; exact Hfull).
    reflexivity. }
  assert (Hw1 : holds_snapshot w1 c t l)
    by (exists (local c t l); rewrite Hst1; repeat split).
  destruct (getUsage_offline_step E w1 c t l (Hoff _) Hw1)
    as (w2 & Hg2 & Hst2 & Htk2 & _).
  cbn [Nat.add] in Htk1, Htk2.
  set (w' := set_storage (saved (fresh (clock E (S (ticks w2)))))
               (set_ticks (S (S (ticks w2))) w2)).
  assert (Ht : timeUntilResetOf E (local c t l) w2 = (Ok (Fin 0), w')).
  { rewrite (timeUntilResetOf_local E (local c t l) w2 t); try reflexivity.
    replace (18000000 - (clock E (ticks w2) - t) <=? 0) with true;
      [reflexivity|].
    symmetry. apply Z.leb_le. rewrite Htk2, Htk1. lia. }
  exists w'. split; [|split].
  - unfold query. rewrite (bind_ok _ _ _ _ _ Hh). cbv beta iota.
    unfold formatTimeUntilReset, getTimeUntilReset.
    unfold bind at 1. unfold bind at 1. rewrite (bind_ok _ _ _ _ _ Hg2), Ht.
    reflexivity.
  - subst w'. cbn [storage set_storage]. rewrite Htk2, Htk1. reflexivity.
  - apply (hasReachedLimit_offline E w' 0 (clock E (S (ticks w2))) 20 (Hoff _)).
    exists (fresh (clock E (S (ticks w2)))). repeat split.
Qed.

Lemma expired_window_refuses_once_witness :
  exists w',
    query (unreachable 20000000) (VStr "hello") (atomically AfterReturn)
      (initially (saved (local 20 0 20)))
    = (Throw (Error "Rate limit reached. You can make 20 queries every 5 hours. Next reset: Available now"),
       w') /\
    storage w' = saved (fresh (clock (unreachable 20000000)
                                 (S (ticks (initially (saved (local 20 0 20))))))) /\
    fst (hasReachedLimit (unreachable 20000000) w') = Ok false.
Proof.
  apply (expired_window_refuses_once (unreachable 20000000)
           (initially (saved (local 20 0 20))) (VStr "hello") (atomically AfterReturn) 20 0 20).
  - intros k. reflexivity.
  - exists (local 20 0 20). repeat split.
  - lia.
  - vm_compute. discriminate.
Defined.

(** ** Fields that are not numbers *)

(** X22. A count stored as a string that reads as a number is kept as a
    string and grows by concatenation: without server data,
    [incrementUsage] on the record [{count: s, timestamp, limit}]
    returns the count [s] followed by "1". *)
Theorem incrementUsage_appends_to_string_count
  (E : env) (w : world) (s : string) (z t l : Z) :
  truthy (next_status E w) = false ->
  storage w = Some (JsonText (VObj [("count", VStr s); ("timestamp", int t);
                                    ("limit", int l)])) ->
  StringToNumber E s = Fin z ->
  exists u w',
    incrementUsage E w = (Ok u, w') /\
    count u = VStr (s ++ "1") /\ limit u = int l /\ storage w' = saved u.
Proof.
  intros Hs Hst Hnum.
  assert (Hload : getUsageSync E (probed E w)
                  = (Ok {| count := VStr s; timestamp := int t; limit := int l;
                           serverSync := VBool false; serverResetTime := VNull |},
                     probed E w)).
  { unfold getUsageSync. unfold bind at 1. unfold getItem at 1.
    cbn [storage probed set_sent]. rewrite Hst. cbn [item_truthy].
    unfold try_catch, validated, bind, lift, ret, isNaN.
    cbn [JSON_parse get lookup String.eqb Ascii.eqb Bool.eqb ToNumber rbind int].
    rewrite Hnum. reflexivity. }
  eexists _, _. split; [|split; [|split]].
  - unfold incrementUsage. unfold bind at 1. rewrite getUsage_split.
    rewrite getUsage_resume_offline by exact Hs.
    unfold offlineUsage. rewrite (bind_ok _ _ _ _ _ Hload). reflexivity.
  - reflexivity.
  - reflexivity.
  - reflexivity.
Qed.

Lemma incrementUsage_appends_to_string_count_witness :
  exists u w',
    incrementUsage (reading 1000 5)
      (initially (Some (JsonText (VObj [("count", VStr "5");
                                        ("timestamp", int 900);
                                        ("limit", int 20)]))))
    = (Ok u, w') /\
    count u = VStr ("5" ++ "1") /\ limit u = int 20 /\ storage w' = saved u.
Proof.
  apply (incrementUsage_appends_to_string_count (reading 1000 5)
           (initially (Some (JsonText (VObj [("count", VStr "5");
                                             ("timestamp", int 900);
                                             ("limit", int 20)]))))
           "5" 5 900 20); reflexivity.
Defined.

(** ** A status without counters *)

(** X23. Any truthy status that carries neither counter counts as a
    fresh quota: [getUsage] returns and stores count 0, limit 20 and
    [serverSync] true, stamped with the current clock reading, whatever
    was stored. *)
Theorem getUsage_status_without_counters (E : env) (w : world) :
  truthy (next_status E w) = true ->
  get (next_status E w) "queries_used" = Ok VUndefined ->
  get (next_status E w) "queries_remaining" = Ok VUndefined ->
  exists u w',
    getUsage E w = (Ok u, w') /\
    count u = int 0 /\ limit u = int 20 /\ serverSync u = VBool true /\
    timestamp u = int (clock E (ticks w)) /\ storage w' = saved u.
Proof.
  intros Hs Ha Hr.
  destruct (get_truthy _ "reset_time" Hs) as [rt Hrt].
  rewrite getUsage_split.
  rewrite (getUsage_resume_server E _ _ _ _ (int 20) (probed E w) Hs Ha Hr Hrt
             eq_refl).
  eexists _, _. split; [reflexivity|]. repeat split.
Qed.

Lemma getUsage_status_without_counters_witness :
  exists u w',
    getUsage (answering 1000 (VObj [("status", VStr "ok")]))
      (initially (saved (local 12 900 20))) = (Ok u, w') /\
    count u = int 0 /\ limit u = int 20 /\ serverSync u = VBool true /\
    timestamp u = int (clock (answering 1000 (VObj [("status", VStr "ok")]))
                         (ticks (initially (saved (local 12 900 20))))) /\
    storage w' = saved u.
Proof.
  apply (getUsage_status_without_counters
           (answering 1000 (VObj [("status", VStr "ok")]))
           (initially (saved (local 12 900 20)))); reflexivity.
Defined.
